(** * EduMerge: mail merge wizard and document editor

    A shallow embedding of the parts of [EduMerge.py] and [merger.py] that
    the specification makes claims about:

    - the Python string methods the program calls ([find], [in], [replace],
      [split], [isalpha], [title], [strip]);
    - the text layer of [open] (universal newlines on reading);
    - the modal dialogs, as a script of user responses consumed one by one;
    - the [NameManager] and [Letter] classes of the mail merge wizard;
    - the text, CSV and DOCX adapters of [ModernEditorApp].

    Python strings are modelled as [string] (8-bit characters read as ASCII:
    the character classes below follow Python on code points under 128 and
    treat the others as neither letters nor white space). *)

From Stdlib Require Import ZArith Ascii String List Bool Lia.
From stdpp Require Import base tactics option list strings gmap.

Local Open Scope Z_scope.

(** ** Python [str] methods *)

Module PyStr.

(** [s.startswith(p)] *)
Fixpoint startswith (s p : string) : bool :=
  match p, s with
  | EmptyString, _ => true
  | String _ _, EmptyString => false
  | String a p', String b s' => if Ascii.eqb a b then startswith s' p' else false
  end.

(** [s[n:]] *)
Fixpoint drop (n : nat) (s : string) : string :=
  match n, s with
  | O, _ => s
  | S _, EmptyString => EmptyString
  | S n', String _ s' => drop n' s'
  end.

(** [sub in s] *)
Fixpoint contains (sub s : string) : bool :=
  if startswith s sub then true
  else match s with
       | EmptyString => false
       | String _ s' => contains sub s'
       end.

(** [s.find(sub)]: the lowest index where [sub] occurs, or [-1]. *)
Fixpoint find (s sub : string) : Z :=
  if startswith s sub then 0
  else match s with
       | EmptyString => -1
       | String _ s' => let r := find s' sub in if r <? 0 then -1 else r + 1
       end.

(** [sep.join(l)] *)
Fixpoint join (sep : string) (l : list string) : string :=
  match l with
  | [] => ""
  | [x] => x
  | x :: l' => x +:+ sep +:+ join sep l'
  end.

(** [s.replace(old, new)] for a non-empty [old]: the occurrences of [old]
    are found from the left, each search resuming after the previous
    occurrence.  [fuel] bounds the number of characters looked at. *)
Fixpoint replace_from (fuel : nat) (old new s : string) : string :=
  match fuel with
  | O => s
  | S fuel' =>
      match s with
      | EmptyString => EmptyString
      | String c s' =>
          if startswith s old
          then new +:+ replace_from fuel' old new (drop (String.length old) s)
          else String c (replace_from fuel' old new s')
      end
  end.

(** With an empty [old], Python inserts [new] before every character and
    at the end. *)
Fixpoint replace_empty (new s : string) : string :=
  match s with
  | EmptyString => new
  | String c s' => new +:+ String c (replace_empty new s')
  end.

Definition replace (s old new : string) : string :=
  match old with
  | EmptyString => replace_empty new s
  | String _ _ => replace_from (String.length s) old new s
  end.

(** [s.split(sep)] for a non-empty [sep] (Python raises [ValueError] on an
    empty one; the program only passes the literals [", "] and ["\n"]). *)
Fixpoint split_from (fuel : nat) (sep s : string) : list string :=
  match fuel with
  | O => [s]
  | S fuel' =>
      match s with
      | EmptyString => [EmptyString]
      | String c s' =>
          if startswith s sep
          then EmptyString :: split_from fuel' sep (drop (String.length sep) s)
          else match split_from fuel' sep s' with
               | piece :: rest => String c piece :: rest
               | [] => [String c EmptyString]
               end
      end
  end.

Definition split (s sep : string) : list string :=
  split_from (String.length s) sep s.

(** Character classes, on ASCII. *)
Definition is_upper (c : ascii) : bool :=
  let n := N_of_ascii c in (65 <=? n)%N && (n <=? 90)%N.

Definition is_lower (c : ascii) : bool :=
  let n := N_of_ascii c in (97 <=? n)%N && (n <=? 122)%N.

Definition is_alpha (c : ascii) : bool := is_upper c || is_lower c.

(** [str.isspace] on one character: TAB, LF, VT, FF, CR, FS, GS, RS, US
    and the space. *)
Definition is_space (c : ascii) : bool :=
  let n := N_of_ascii c in
  ((9 <=? n)%N && (n <=? 13)%N) || ((28 <=? n)%N && (n <=? 32)%N).

Definition to_upper (c : ascii) : ascii :=
  if is_lower c then ascii_of_N (N_of_ascii c - 32) else c.

Definition to_lower (c : ascii) : ascii :=
  if is_upper c then ascii_of_N (N_of_ascii c + 32) else c.

Fixpoint all_chars (p : ascii -> bool) (s : string) : bool :=
  match s with
  | EmptyString => true
  | String c s' => p c && all_chars p s'
  end.

(** [s.isalpha()]: at least one character, and all of them letters. *)
Definition isalpha (s : string) : bool :=
  match s with
  | EmptyString => false
  | String _ _ => all_chars is_alpha s
  end.

(** [s.title()]: a cased character is upper-cased when the character
    before it is not cased, and lower-cased otherwise. *)
Fixpoint title_from (previous_is_cased : bool) (s : string) : string :=
  match s with
  | EmptyString => EmptyString
  | String c s' =>
      String (if previous_is_cased then to_lower c else to_upper c)
             (title_from (is_alpha c) s')
  end.

Definition title (s : string) : string := title_from false s.

Fixpoint lstrip (s : string) : string :=
  match s with
  | EmptyString => EmptyString
  | String c s' => if is_space c then lstrip s' else s
  end.

Fixpoint rstrip (s : string) : string :=
  match s with
  | EmptyString => EmptyString
  | String c s' =>
      match rstrip s' with
      | EmptyString => if is_space c then EmptyString else String c EmptyString
      | String _ _ as r => String c r
      end
  end.

(** [s.strip()] *)
Definition strip (s : string) : string := rstrip (lstrip s).

End PyStr.

(** ** Files and the text layer of [open]

    A file holds either text or a Word document (its paragraphs).  The
    file system is flat: a path names a file, directories are not
    represented, and opening a path for writing always succeeds. *)

Inductive file :=
| TextFile (chars : string)
| DocxFile (paragraphs : list string).

Abbreviation filesystem := (gmap string file).

Definition CR : ascii := ascii_of_N 13.
Definition LF : ascii := ascii_of_N 10.

(** Reading in text mode with the default [newline=None]: the line
    endings CR LF and CR both come out as LF.  (On writing, LF is written
    as [os.linesep]; files are modelled as on POSIX, where that is LF.) *)
Fixpoint universal_newlines (s : string) : string :=
  match s with
  | EmptyString => EmptyString
  | String c s' =>
      if Ascii.eqb c CR
      then match s' with
           | String c' s'' =>
               if Ascii.eqb c' LF then String LF (universal_newlines s'')
               else String LF (universal_newlines s')
           | EmptyString => String LF EmptyString
           end
      else String c (universal_newlines s')
  end.

Inductive open_mode := ModeR | ModeW.

Record handle := mkHandle { h_path : string; h_mode : open_mode }.

Inductive exn :=
| FileNotFoundError (path : string)
| UnsupportedOperation (what : string)
| UnicodeDecodeError
| AttributeError
| TypeError
| csv_Error
| PackageNotFoundError
| PDFPageCountError.

(** ** The dialogs

    Every dialog blocks until the user answers.  A run is driven by a
    script: the answers the user gives, in order.  An answer holds the
    fields the dialog object has once its [mainloop] returns. *)

Inductive response :=
| Clicked (result : option string)
| IntEntered (result : option Z) (choice : string)
| StringEntered (result : option string) (choice : string)
| TextEntered (result : option string) (choice : string)
| PathChosen (path : string)
| Answered (yes : option bool).

(** What the program shows, in order. *)
Inductive message :=
| Msg (text : string)
| MsgError (intro : string) (e : exn).

Inductive output :=
| ShownBox (kind : string) (buttons : list string) (text : string)
| ShownMessage (kind : string) (title : string) (body : message)
| ShownFileDialog (kind : string) (title : string)
| FolderOpened (command : list string).

(** ** Program state *)

Record NameManager := mkNameManager {
  recipient_names : list string;
  name_input_method : option string;
  names_file_location : string;
  total_recipients : option Z;
  name_input_method_prompt : string;
  recipient_count_prompt : string;
  name_prompt : string
}.

Record Letter := mkLetter {
  letter_body : option string;
  output_directory : string;
  letter_file_location : string;
  is_placeholder_not_present : bool
}.

Record ModernEditorApp := mkEditor {
  filename : option string;
  is_saved : bool;
  current_file_type : string;
  csv_data : list (list string);
  csv_headers : list string;
  text_area : string;
  window_title : string
}.

Record world := mkWorld {
  fs : filesystem;
  script : list response;
  shown : list output;
  platform_system : string;
  name_manager : NameManager;
  letter : Letter;
  confirmation_choice : option string;
  editor : ModernEditorApp
}.

Definition NameManager_init : NameManager :=
  {| recipient_names := [];
     name_input_method := Some "";
     names_file_location := "";
     total_recipients := Some 0;
     name_input_method_prompt := "Do you want to enter names manually, or through a text file?";
     recipient_count_prompt := "How many people do you want send a mail to?";
     name_prompt := "Please enter the name:" |}.

Definition Letter_init : Letter :=
  {| letter_body := Some "";
     output_directory := "";
     letter_file_location := "";
     is_placeholder_not_present := false |}.

Definition ModernEditorApp_init : ModernEditorApp :=
  {| filename := None;
     is_saved := true;
     current_file_type := "text";
     csv_data := [];
     csv_headers := [];
     text_area := "";
     window_title := "EduText: A Student Software" |}.

Definition world_init (files : filesystem) (answers : list response) : world :=
  {| fs := files;
     script := answers;
     shown := [];
     platform_system := "Linux";
     name_manager := NameManager_init;
     letter := Letter_init;
     confirmation_choice := Some "";
     editor := ModernEditorApp_init |}.

Definition with_fs (f : filesystem) (w : world) : world :=
  mkWorld f (script w) (shown w) (platform_system w) (name_manager w) (letter w)
          (confirmation_choice w) (editor w).

Definition with_script (s : list response) (w : world) : world :=
  mkWorld (fs w) s (shown w) (platform_system w) (name_manager w) (letter w)
          (confirmation_choice w) (editor w).

Definition with_shown (o : list output) (w : world) : world :=
  mkWorld (fs w) (script w) o (platform_system w) (name_manager w) (letter w)
          (confirmation_choice w) (editor w).

Definition with_name_manager (n : NameManager) (w : world) : world :=
  mkWorld (fs w) (script w) (shown w) (platform_system w) n (letter w)
          (confirmation_choice w) (editor w).

Definition with_letter (l : Letter) (w : world) : world :=
  mkWorld (fs w) (script w) (shown w) (platform_system w) (name_manager w) l
          (confirmation_choice w) (editor w).

Definition with_confirmation_choice (c : option string) (w : world) : world :=
  mkWorld (fs w) (script w) (shown w) (platform_system w) (name_manager w) (letter w)
          c (editor w).

Definition with_editor (e : ModernEditorApp) (w : world) : world :=
  mkWorld (fs w) (script w) (shown w) (platform_system w) (name_manager w) (letter w)
          (confirmation_choice w) e.

(** ** The monad of the program: state, exit, exceptions, blocking *)

Inductive outcome (A : Type) :=
| Returned (a : A) (w : world)
| Exited (w : world)
| Raised (e : exn) (w : world)
| Waiting (w : world)
| OutOfFuel.

Arguments Returned {A} a w.
Arguments Exited {A} w.
Arguments Raised {A} e w.
Arguments Waiting {A} w.
Arguments OutOfFuel {A}.

Definition M (A : Type) : Type := world -> outcome A.

Definition M_ret {A} (a : A) : M A := fun w => Returned a w.

Definition M_bind {A B} (k : A -> M B) (m : M A) : M B :=
  fun w =>
    match m w with
    | Returned a w' => k a w'
    | Exited w' => Exited w'
    | Raised e w' => Raised e w'
    | Waiting w' => Waiting w'
    | OutOfFuel => OutOfFuel
    end.

#[global] Instance M_mret : MRet M := @M_ret.
#[global] Instance M_mbind : MBind M := @M_bind.

Definition get : M world := fun w => Returned w w.
Definition modify (f : world -> world) : M unit := fun w => Returned tt (f w).
Definition raise {A} (e : exn) : M A := fun w => Raised e w.
Definition py_exit {A} : M A := fun w => Exited w.
Definition out_of_fuel {A} : M A := fun _ => OutOfFuel.
Definition waiting {A} : M A := fun w => Waiting w.
Definition show (o : output) : M unit := modify (fun w => with_shown (shown w ++ [o]) w).

(** The next answer of the script. *)
Definition next_response : M response :=
  fun w =>
    match script w with
    | [] => Waiting w
    | r :: rest => Returned r (with_script rest w)
    end.

(** [try: body  except FileNotFoundError: handler] *)
Definition try_except_FileNotFoundError {A} (body handler : M A) : M A :=
  fun w =>
    match body w with
    | Raised (FileNotFoundError _) w' => handler w'
    | r => r
    end.

(** [try: body  except Exception as e: handler(e)] *)
Definition try_except_Exception {A} (body : M A) (handler : exn -> M A) : M A :=
  fun w =>
    match body w with
    | Raised e w' => handler e w'
    | r => r
    end.

(** [open(path, mode)] *)
Definition py_open (path : string) (mode : open_mode) : M handle :=
  fun w =>
    match mode with
    | ModeR =>
        match fs w !! path with
        | Some _ => Returned (mkHandle path ModeR) w
        | None => Raised (FileNotFoundError path) w
        end
    | ModeW => Returned (mkHandle path ModeW) (with_fs (<[path := TextFile ""]> (fs w)) w)
    end.

(** [f.read()] *)
Definition py_read (f : handle) : M string :=
  fun w =>
    match h_mode f with
    | ModeW => Raised (UnsupportedOperation "not readable") w
    | ModeR =>
        match fs w !! h_path f with
        | Some (TextFile chars) => Returned (universal_newlines chars) w
        | Some (DocxFile _) => Raised UnicodeDecodeError w
        | None => Raised (FileNotFoundError (h_path f)) w
        end
    end.

(** [f.write(text)] *)
Definition py_write (f : handle) (text : string) : M unit :=
  fun w =>
    match h_mode f with
    | ModeR => Raised (UnsupportedOperation "not writable") w
    | ModeW =>
        match fs w !! h_path f with
        | Some (TextFile chars) =>
            Returned tt (with_fs (<[h_path f := TextFile (chars +:+ text)]> (fs w)) w)
        | _ => Returned tt (with_fs (<[h_path f := TextFile text]> (fs w)) w)
        end
    end.

Definition is_str (o : option string) (s : string) : bool :=
  bool_decide (o = Some s).

(** [CustomBox(buttons, message, image_y).result] *)
Definition CustomBox (buttons : list string) (text : string) : M (option string) :=
  show (ShownBox "CustomBox" buttons text);;
  r ← next_response;
  match r with
  | Clicked result => mret result
  | _ => waiting
  end.

(** [IntBox(buttons, message)]: its [result] and [choice]. *)
Definition IntBox (buttons : list string) (text : string) : M (option Z * string) :=
  show (ShownBox "IntBox" buttons text);;
  r ← next_response;
  match r with
  | IntEntered result choice => mret (result, choice)
  | _ => waiting
  end.

(** [StringBox(buttons, message)]: its [result] and [choice]. *)
Definition StringBox (buttons : list string) (text : string) : M (option string * string) :=
  show (ShownBox "StringBox" buttons text);;
  r ← next_response;
  match r with
  | StringEntered result choice => mret (result, choice)
  | _ => waiting
  end.

(** [TextBox(buttons, message)]: its [result] and [choice]. *)
Definition TextBox (buttons : list string) (text : string) : M (option string * string) :=
  show (ShownBox "TextBox" buttons text);;
  r ← next_response;
  match r with
  | TextEntered result choice => mret (result, choice)
  | _ => waiting
  end.

(** [filedialog.askopenfilename], [askdirectory], [asksaveasfilename]:
    the chosen path, empty when the dialog is cancelled. *)
Definition filedialog (kind title : string) : M string :=
  show (ShownFileDialog kind title);;
  r ← next_response;
  match r with
  | PathChosen path => mret path
  | _ => waiting
  end.

Definition Messagebox_show_info (title text : string) : M unit :=
  show (ShownMessage "info" title (Msg text)).

Definition Messagebox_show_warning (title : string) (body : message) : M unit :=
  show (ShownMessage "warning" title body).

(** ** Utility functions *)

Definition exit_confirmation : M unit :=
  user_choice ← CustomBox ["Yes"; "No"] "Do you want to exit the app?";
  if is_str user_choice "Yes" then py_exit else mret tt.

Definition show_exit_confirmation (callback_function : M unit) : M unit :=
  user_choice ← CustomBox ["Yes"; "No"] "Do you want to exit the app?";
  if is_str user_choice "Yes" then py_exit else callback_function.

(** ** class NameManager *)

Definition set_recipient_names (l : list string) (n : NameManager) : NameManager :=
  mkNameManager l (name_input_method n) (names_file_location n) (total_recipients n)
    (name_input_method_prompt n) (recipient_count_prompt n) (name_prompt n).

Definition set_name_input_method (r : option string) (n : NameManager) : NameManager :=
  mkNameManager (recipient_names n) r (names_file_location n) (total_recipients n)
    (name_input_method_prompt n) (recipient_count_prompt n) (name_prompt n).

Definition set_names_file_location (p : string) (n : NameManager) : NameManager :=
  mkNameManager (recipient_names n) (name_input_method n) p (total_recipients n)
    (name_input_method_prompt n) (recipient_count_prompt n) (name_prompt n).

Definition set_total_recipients (t : option Z) (n : NameManager) : NameManager :=
  mkNameManager (recipient_names n) (name_input_method n) (names_file_location n) t
    (name_input_method_prompt n) (recipient_count_prompt n) (name_prompt n).

Definition set_name_prompt (p : string) (n : NameManager) : NameManager :=
  mkNameManager (recipient_names n) (name_input_method n) (names_file_location n)
    (total_recipients n) (name_input_method_prompt n) (recipient_count_prompt n) p.

(** [self.field = value] on the global [name_manager] *)
Definition self_nm (f : NameManager -> NameManager) : M unit :=
  modify (fun w => with_name_manager (f (name_manager w)) w).

(** [ask_recipient_count]: one turn of its [while True] per unit of fuel. *)
Fixpoint ask_recipient_count (fuel : nat) : M unit :=
  match fuel with
  | O => out_of_fuel
  | S fuel' =>
      w ← get;
      '(result, choice) ← IntBox ["Continue"; "Exit"] (recipient_count_prompt (name_manager w));
      self_nm (set_total_recipients result);;
      (if String.eqb choice "Exit"
       then self_nm (set_total_recipients (Some 0));; exit_confirmation
       else mret tt);;
      w ← get;
      match total_recipients (name_manager w) with
      | None => raise TypeError
      | Some total => if 2 <=? total then mret tt else ask_recipient_count fuel'
      end
  end.

(** The test of [collect_names_manually] on an entered name. *)
Definition name_is_valid (entered_name : string) : bool :=
  PyStr.isalpha (PyStr.replace (PyStr.replace entered_name " " "") "-" "").

(** The [while True] of [collect_names_manually] for one recipient.  It
    answers [true] when a name was stored ([break]) and [false] when the
    method returned. *)
Fixpoint collect_one_name (self_collect_names_manually : M unit) (fuel : nat) : M bool :=
  match fuel with
  | O => out_of_fuel
  | S fuel' =>
      w ← get;
      '(entered_name, name_dialog_exit_choice) ←
        StringBox ["Continue"; "Exit"] (name_prompt (name_manager w));
      if String.eqb name_dialog_exit_choice "Exit"
      then show_exit_confirmation self_collect_names_manually;; mret false
      else
        match entered_name with
        | None => raise AttributeError
        | Some entered_name =>
            if name_is_valid entered_name
            then
              self_nm (set_name_prompt "Please enter the name:");;
              self_nm (fun n => set_recipient_names
                                  (recipient_names n ++ [PyStr.title entered_name]) n);;
              mret true
            else
              self_nm (set_name_prompt "Please enter a valid name:");;
              collect_one_name self_collect_names_manually fuel'
        end
  end.

(** [for _ in range(n): body], where [body] answers [false] on [return]. *)
Fixpoint for_range (n : nat) (body : M bool) : M unit :=
  match n with
  | O => mret tt
  | S n' => continue ← body; if continue : bool then for_range n' body else mret tt
  end.

Fixpoint collect_names_manually (fuel : nat) : M unit :=
  match fuel with
  | O => out_of_fuel
  | S fuel' =>
      w ← get;
      match total_recipients (name_manager w) with
      | None => raise TypeError
      | Some total =>
          for_range (Z.to_nat (total - Z.of_nat (length (recipient_names (name_manager w)))))
                    (collect_one_name (collect_names_manually fuel') fuel')
      end
  end.

Fixpoint ask_name_file (fuel : nat) : M unit :=
  match fuel with
  | O => out_of_fuel
  | S fuel' =>
      self_nm (set_names_file_location "");;
      path ← filedialog "askopenfilename" "Select the names text file";
      self_nm (set_names_file_location path);;
      if String.eqb path "" then exit_confirmation;; ask_name_file fuel' else mret tt
  end.

(** [names_text_file_processing]; [self_name_collection] is the method it
    calls when the file cannot be read. *)
Fixpoint names_text_file_processing (self_name_collection : M unit) (fuel : nat) : M unit :=
  match fuel with
  | O => out_of_fuel
  | S fuel' =>
      ask_name_file fuel';;
      w ← get;
      read ← try_except_Exception
                (names_file ← py_open (names_file_location (name_manager w)) ModeR;
                 names_content ← py_read names_file;
                 mret (inr names_content))
                (fun e => mret (inl e));
      match read with
      | inl e =>
          Messagebox_show_warning "Error occurred" (MsgError "Error: " e);;
          self_name_collection
      | inr names_content =>
          if negb (PyStr.contains ", " names_content)
          then
            Messagebox_show_warning "Mail Merge" (Msg "Please enter the names separated by comma.");;
            names_text_file_processing self_name_collection fuel'
          else
            self_nm (set_recipient_names (PyStr.split names_content ", "))
      end
  end.

Definition confirm_names_proceed (self_name_collection : M unit) : M (option string) :=
  w ← get;
  choice ← CustomBox ["Continue"; "Re-enter Names"; "Exit"]
             ("Names entered:" +:+ String LF (PyStr.join ", " (recipient_names (name_manager w))));
  modify (with_confirmation_choice choice);;
  if is_str choice "Continue" then mret choice
  else if is_str choice "Re-enter Names"
  then self_nm (set_recipient_names []);; self_name_collection;; mret None
  else exit_confirmation;; mret None.

(** [name_collection]: its [while True] always leaves at the final
    [break]; fuel counts the calls back into it. *)
Fixpoint name_collection (fuel : nat) : M unit :=
  match fuel with
  | O => out_of_fuel
  | S fuel' =>
      w ← get;
      method ← CustomBox ["Manual Insert"; "Text File"; "Exit"]
                 (name_input_method_prompt (name_manager w));
      self_nm (set_name_input_method method);;
      (if method is None then exit_confirmation else mret tt);;
      (if is_str method "Manual Insert"
       then ask_recipient_count fuel';; collect_names_manually fuel'
       else if is_str method "Text File"
       then names_text_file_processing (name_collection fuel') fuel'
       else exit_confirmation);;
      confirm_names_proceed (name_collection fuel');;
      mret tt
  end.

(** ** class Letter *)

Definition set_letter_body (b : option string) (l : Letter) : Letter :=
  mkLetter b (output_directory l) (letter_file_location l) (is_placeholder_not_present l).

Definition set_output_directory (d : string) (l : Letter) : Letter :=
  mkLetter (letter_body l) d (letter_file_location l) (is_placeholder_not_present l).

Definition set_letter_file_location (p : string) (l : Letter) : Letter :=
  mkLetter (letter_body l) (output_directory l) p (is_placeholder_not_present l).

Definition set_is_placeholder_not_present (b : bool) (l : Letter) : Letter :=
  mkLetter (letter_body l) (output_directory l) (letter_file_location l) b.

Definition self_letter (f : Letter -> Letter) : M unit :=
  modify (fun w => with_letter (f (letter w)) w).

Definition show_placeholder_instructions : M unit :=
  Messagebox_show_info "Mail Merge"
    "Make sure that you've entered the [name] placeholder in your letter".

(** [f"{self.output_directory}/{recipient}'s Mail.txt"] and its fallback *)
Definition mail_path (directory recipient : string) : string :=
  directory +:+ "/" +:+ recipient +:+ "'s Mail.txt".

Definition mail_path_1 (directory recipient : string) : string :=
  directory +:+ "/" +:+ recipient +:+ "'s Mail(1).txt".

(** [with open(path, mode) as output_file:] followed by the two lines
    that personalise and write the letter. *)
Definition write_personalized (path : string) (mode : open_mode) (recipient : string) : M unit :=
  output_file ← py_open path mode;
  w ← get;
  match letter_body (letter w) with
  | None => raise AttributeError
  | Some body => py_write output_file (PyStr.replace body "[name]" recipient)
  end.

(** The body of the [for recipient in ...] loop; [mode] is the mode the
    two output files are opened in. *)
Definition letter_for (mode : open_mode) (recipient : string) : M unit :=
  w ← get;
  let directory := output_directory (letter w) in
  try_except_FileNotFoundError
    (_ ← py_open (mail_path directory recipient) ModeR;
     write_personalized (mail_path_1 directory recipient) mode recipient)
    (write_personalized (mail_path directory recipient) mode recipient).

Fixpoint for_each {A} (l : list A) (body : A -> M unit) : M unit :=
  match l with
  | [] => mret tt
  | x :: l' => body x;; for_each l' body
  end.

Definition open_folder : M unit :=
  w ← get;
  let directory := output_directory (letter w) in
  if String.eqb (platform_system w) "Windows"
  then show (FolderOpened ["startfile"; directory])
  else if String.eqb (platform_system w) "Darwin"
  then show (FolderOpened ["open"; directory])
  else show (FolderOpened ["xdg-open"; directory]).

Definition generate_letters_with (mode : open_mode) : M unit :=
  CustomBox ["Continue"; "Exit"]
    "Now please select the folders in which you want to save your mails.";;
  directory ← filedialog "askdirectory" "Where do you want to save the mails?";
  self_letter (set_output_directory directory);;
  w ← get;
  for_each (recipient_names (name_manager w)) (letter_for mode);;
  CustomBox ["Exit"] "Your Mail Merge was successful, congratulations!";;
  open_folder.

(** [Letter.generate_personalized_letters] of EduMerge.py: the output
    files are opened with ["w"]. *)
Definition generate_personalized_letters : M unit := generate_letters_with ModeW.

(** [Letter.process_letter_content]; fuel counts the calls back into it. *)
Fixpoint process_letter_content (fuel : nat) : M unit :=
  match fuel with
  | O => out_of_fuel
  | S fuel' =>
      file_input_choice ← CustomBox ["Browse"; "Type Letter Content"]
        ("How do you want to enter the letter content?" +:+ String LF "As a file or type it?");
      if file_input_choice is None
      then show_exit_confirmation (process_letter_content fuel')
      else if is_str file_input_choice "Browse"
      then
        show_placeholder_instructions;;
        location ← filedialog "askopenfilename" "Select your mail";
        self_letter (set_letter_file_location location);;
        if String.eqb location ""
        then show_exit_confirmation (process_letter_content fuel')
        else
          letter_file ← py_open location ModeR;
          body ← py_read letter_file;
          self_letter (set_letter_body (Some body));;
          (if PyStr.find body "[name]" <? 0
           then
             CustomBox ["Try Again"] "Warning: Placeholder '[name]' not present in file.";;
             self_letter (set_is_placeholder_not_present true)
           else self_letter (set_is_placeholder_not_present false));;
          w ← get;
          if is_placeholder_not_present (letter w)
          then process_letter_content fuel'
          else generate_personalized_letters
      else if is_str file_input_choice "Type Letter Content"
      then
        show_placeholder_instructions;;
        '(result, continue_choice) ← TextBox ["Continue"; "Exit"] "Enter the letter Content";
        self_letter (set_letter_body result);;
        if String.eqb continue_choice "Exit"
        then show_exit_confirmation (process_letter_content fuel')
        else if String.eqb continue_choice ""
        then
          Messagebox_show_warning "Mail Merge" (Msg "The letter is empty, please try again.");;
          process_letter_content fuel'
        else
          match result with
          | None => raise AttributeError
          | Some body =>
              (if PyStr.find body "[name]" <? 0
               then
                 Messagebox_show_warning "Mail Merge"
                   (Msg "Warning: Placeholder '[name]' is not in the letter body");;
                 self_letter (set_is_placeholder_not_present true)
               else self_letter (set_is_placeholder_not_present false));;
              w ← get;
              if is_placeholder_not_present (letter w)
              then process_letter_content fuel'
              else generate_personalized_letters
          end
      else mret tt
  end.

(** merger.py holds a second copy of the wizard.  It differs from
    EduMerge.py in one method: its [generate_personalized_letters] opens
    the two output files with ["r"]. *)
Module Merger.

Definition generate_personalized_letters : M unit := generate_letters_with ModeR.

End Merger.

(** ** The csv module, excel dialect

    [csv.reader] and [csv.writer] with their defaults: the comma as
    delimiter, the double quote as quotechar, quotes doubled inside a
    quoted field, no escape character, line terminator
    CR LF, minimal quoting, not strict.  The reader is the state machine
    of the module (the two states for escape characters cannot be entered
    without an escape character and are left out); the limit on the size
    of a field is not modelled. *)

Module csv.

Inductive ParserState :=
| START_RECORD
| START_FIELD
| IN_FIELD
| IN_QUOTED_FIELD
| QUOTE_IN_QUOTED_FIELD
| EAT_CRNL.

#[global] Instance ParserState_eq_dec : EqDecision ParserState.
Proof. solve_decision. Defined.

Record ReaderObj := mkReader {
  state : ParserState;
  field : string;
  fields : list string
}.

Definition delimiter : ascii := ",".
Definition quotechar : ascii := ascii_of_N 34.

Definition parse_reset : ReaderObj := mkReader START_RECORD "" [].

Definition set_state (st : ParserState) (self : ReaderObj) : ReaderObj :=
  mkReader st (field self) (fields self).

Definition parse_save_field (self : ReaderObj) : ReaderObj :=
  mkReader (state self) "" (fields self ++ [field self]).

Definition parse_add_char (c : ascii) (self : ReaderObj) : ReaderObj :=
  mkReader (state self) (field self +:+ String c "") (fields self).

Definition is_newline (c : ascii) : bool := Ascii.eqb c LF || Ascii.eqb c CR.

(** The end of a field: after a line ending the rest of the line is
    skipped, at the end of the line the record is complete. *)
Definition after_field (c : option ascii) : ParserState :=
  match c with
  | None => START_RECORD
  | Some _ => EAT_CRNL
  end.

(** [parse_process_char]; [None] stands for the end of a line, and the
    answer [None] for [_csv.Error]. *)
Definition parse_process_char (self : ReaderObj) (c : option ascii) : option ReaderObj :=
  let start_field :=
    match c with
    | None => Some (set_state START_RECORD (parse_save_field self))
    | Some ch =>
        if is_newline ch then Some (set_state EAT_CRNL (parse_save_field self))
        else if Ascii.eqb ch quotechar then Some (set_state IN_QUOTED_FIELD self)
        else if Ascii.eqb ch delimiter then Some (set_state START_FIELD (parse_save_field self))
        else Some (set_state IN_FIELD (parse_add_char ch self))
    end in
  match state self with
  | START_RECORD =>
      match c with
      | None => Some self
      | Some ch => if is_newline ch then Some (set_state EAT_CRNL self) else start_field
      end
  | START_FIELD => start_field
  | IN_FIELD =>
      match c with
      | None => Some (set_state START_RECORD (parse_save_field self))
      | Some ch =>
          if is_newline ch then Some (set_state EAT_CRNL (parse_save_field self))
          else if Ascii.eqb ch delimiter then Some (set_state START_FIELD (parse_save_field self))
          else Some (parse_add_char ch self)
      end
  | IN_QUOTED_FIELD =>
      match c with
      | None => Some self
      | Some ch =>
          if Ascii.eqb ch quotechar then Some (set_state QUOTE_IN_QUOTED_FIELD self)
          else Some (parse_add_char ch self)
      end
  | QUOTE_IN_QUOTED_FIELD =>
      match c with
      | None => Some (set_state START_RECORD (parse_save_field self))
      | Some ch =>
          if Ascii.eqb ch quotechar then Some (set_state IN_QUOTED_FIELD (parse_add_char ch self))
          else if Ascii.eqb ch delimiter then Some (set_state START_FIELD (parse_save_field self))
          else if is_newline ch then Some (set_state EAT_CRNL (parse_save_field self))
          else Some (set_state IN_FIELD (parse_add_char ch self))
      end
  | EAT_CRNL =>
      match c with
      | None => Some (set_state START_RECORD self)
      | Some ch => if is_newline ch then Some self else None
      end
  end.

(** One line of input: its characters, then the end of the line. *)
Fixpoint parse_line (self : ReaderObj) (line : string) : option ReaderObj :=
  match line with
  | EmptyString => parse_process_char self None
  | String c line' =>
      match parse_process_char self (Some c) with
      | Some self' => parse_line self' line'
      | None => None
      end
  end.

(** [list(csv.reader(lines))]: a record is complete when a line leaves
    the parser in [START_RECORD]; when the input ends inside a record,
    what was read of it is the last record. *)
Fixpoint reader_from (self : ReaderObj) (lines : list string) : option (list (list string)) :=
  match lines with
  | [] =>
      if negb (String.eqb (field self) "") || bool_decide (state self = IN_QUOTED_FIELD)
      then Some [fields (parse_save_field self)]
      else Some []
  | line :: rest =>
      match parse_line self line with
      | None => None
      | Some self' =>
          match state self' with
          | START_RECORD => cons (fields self') <$> reader_from parse_reset rest
          | _ => reader_from self' rest
          end
      end
  end.

Definition reader (lines : list string) : option (list (list string)) :=
  reader_from parse_reset lines.

(** The writer quotes a field that holds a delimiter, a quote or a
    character of the line terminator, and doubles the quotes in it. *)
Definition needs_quoting (c : ascii) : bool :=
  Ascii.eqb c delimiter || Ascii.eqb c quotechar || Ascii.eqb c CR || Ascii.eqb c LF.

Fixpoint any_char (p : ascii -> bool) (s : string) : bool :=
  match s with
  | EmptyString => false
  | String c s' => p c || any_char p s'
  end.

Fixpoint double_quotes (s : string) : string :=
  match s with
  | EmptyString => EmptyString
  | String c s' =>
      if Ascii.eqb c quotechar then String quotechar (String quotechar (double_quotes s'))
      else String c (double_quotes s')
  end.

Definition join_append (field : string) : string :=
  if any_char needs_quoting field
  then String quotechar (double_quotes field +:+ String quotechar "")
  else field.

Definition lineterminator : string := String CR (String LF "").

(** [writer.writerow(row)]: a record made of one empty field is written
    as a pair of quotes. *)
Definition writerow (row : list string) : string :=
  match row with
  | [EmptyString] => String quotechar (String quotechar lineterminator)
  | _ => PyStr.join (String delimiter "") (join_append <$> row) +:+ lineterminator
  end.

Fixpoint writerows (rows : list (list string)) : string :=
  match rows with
  | [] => EmptyString
  | row :: rows' => writerow row +:+ writerows rows'
  end.

End csv.

(** Iterating over a text file: its lines, each with its final LF. *)
Fixpoint file_lines (s : string) : list string :=
  match s with
  | EmptyString => []
  | String c s' =>
      if Ascii.eqb c LF then String c EmptyString :: file_lines s'
      else match file_lines s' with
           | [] => [String c EmptyString]
           | line :: rest => String c line :: rest
           end
  end.

(** ** class ModernEditorApp

    The text widget is modelled by the characters it holds, without the
    newline Tk keeps at its end: [text_area.get("1.0", "end-1c")] is the
    field [text_area].  Images, style tags, the notebook tabs, the table
    widget and the status bar are not represented: building the table from
    the rows read, and adding a line to a Word document, are taken to
    succeed. *)

Definition set_filename (f : option string) (e : ModernEditorApp) : ModernEditorApp :=
  mkEditor f (is_saved e) (current_file_type e) (csv_data e) (csv_headers e)
    (text_area e) (window_title e).

Definition set_is_saved (b : bool) (e : ModernEditorApp) : ModernEditorApp :=
  mkEditor (filename e) b (current_file_type e) (csv_data e) (csv_headers e)
    (text_area e) (window_title e).

Definition set_current_file_type (t : string) (e : ModernEditorApp) : ModernEditorApp :=
  mkEditor (filename e) (is_saved e) t (csv_data e) (csv_headers e)
    (text_area e) (window_title e).

Definition set_csv_data (d : list (list string)) (e : ModernEditorApp) : ModernEditorApp :=
  mkEditor (filename e) (is_saved e) (current_file_type e) d (csv_headers e)
    (text_area e) (window_title e).

Definition set_csv_headers (h : list string) (e : ModernEditorApp) : ModernEditorApp :=
  mkEditor (filename e) (is_saved e) (current_file_type e) (csv_data e) h
    (text_area e) (window_title e).

Definition set_text_area (t : string) (e : ModernEditorApp) : ModernEditorApp :=
  mkEditor (filename e) (is_saved e) (current_file_type e) (csv_data e) (csv_headers e)
    t (window_title e).

Definition set_window_title (t : string) (e : ModernEditorApp) : ModernEditorApp :=
  mkEditor (filename e) (is_saved e) (current_file_type e) (csv_data e) (csv_headers e)
    (text_area e) t.

Definition self_app (f : ModernEditorApp -> ModernEditorApp) : M unit :=
  modify (fun w => with_editor (f (editor w)) w).

Definition messagebox (kind title : string) (body : message) : M unit :=
  show (ShownMessage kind title body).

(** [os.path]: the extension and the base name of a POSIX path. *)
Fixpoint rfind_char (c : ascii) (s : string) (i : Z) : Z :=
  match s with
  | EmptyString => -1
  | String a s' =>
      let later := rfind_char c s' (i + 1) in
      if 0 <=? later then later else if Ascii.eqb a c then i else -1
  end.

(** The loop of [splitext] that skips the leading dots of the file name:
    [p] starts at [filenameIndex], [n] characters before the last dot. *)
Fixpoint has_name_before_dot (n : nat) (p : string) : bool :=
  match n, p with
  | S n', String a p' => if Ascii.eqb a "." then has_name_before_dot n' p' else true
  | _, _ => false
  end.

Definition splitext_ext (p : string) : string :=
  let sepIndex := rfind_char "/" p 0 in
  let dotIndex := rfind_char "." p 0 in
  if sepIndex <? dotIndex
  then
    if has_name_before_dot (Z.to_nat (dotIndex - (sepIndex + 1)))
                           (PyStr.drop (Z.to_nat (sepIndex + 1)) p)
    then PyStr.drop (Z.to_nat dotIndex) p
    else ""
  else "".

Definition basename (p : string) : string :=
  PyStr.drop (Z.to_nat (rfind_char "/" p 0 + 1)) p.

Fixpoint lower (s : string) : string :=
  match s with
  | EmptyString => EmptyString
  | String c s' => String (PyStr.to_lower c) (lower s')
  end.

(** [open_csv] *)
Definition open_csv (filepath : string) : M unit :=
  try_except_Exception
    (file ← py_open filepath ModeR;
     content ← py_read file;
     match csv.reader (file_lines content) with
     | None => raise csv_Error
     | Some rows =>
         self_app (set_csv_data rows);;
         match rows with
         | [] => mret tt
         | headers :: _ =>
             self_app (set_csv_headers headers);;
             self_app (set_current_file_type "csv")
         end
     end)
    (fun e => messagebox "showerror" "Error" (MsgError "Could not open CSV:" e)).

(** [open_docx] *)
Definition open_docx (filepath : string) : M unit :=
  w ← get;
  match fs w !! filepath with
  | Some (DocxFile paragraphs) =>
      self_app (set_text_area "");;
      for_each paragraphs
        (fun para => self_app (fun e => set_text_area (text_area e +:+ para +:+ String LF "") e));;
      self_app (set_current_file_type "docx")
  | Some (TextFile _) =>
      messagebox "showerror" "Error" (MsgError "Could not open DOCX:" PackageNotFoundError)
  | None =>
      messagebox "showerror" "Error" (MsgError "Could not open DOCX:" PackageNotFoundError)
  end.

(** [open_pdf]: the file system of the model holds no PDF file, and the
    page renderer fails on any other. *)
Definition open_pdf (filepath : string) : M unit :=
  messagebox "showerror" "Error" (MsgError "Could not open PDF:" PDFPageCountError).

(** [open_file] *)
Definition open_file : M unit :=
  filepath ← filedialog "askopenfilename" "";
  if String.eqb filepath "" then mret tt
  else
    self_app (set_filename (Some filepath));;
    let ext := lower (splitext_ext filepath) in
    (if String.eqb ext ".csv" then open_csv filepath
     else if String.eqb ext ".docx" then open_docx filepath
     else if String.eqb ext ".pdf" then open_pdf filepath
     else
       try_except_Exception
         (file ← py_open filepath ModeR;
          content ← py_read file;
          self_app (set_text_area "");;
          self_app (fun e => set_text_area (content +:+ text_area e) e);;
          self_app (set_current_file_type "text"))
         (fun e => messagebox "showerror" "Error" (MsgError "Could not open file:" e)));;
    self_app (set_is_saved true);;
    self_app (set_window_title ("EduText - " +:+ basename filepath)).

(** The loop of [save_as_docx]: a paragraph for each line whose
    [strip()] is not empty. *)
Definition add_paragraph (doc : list string) (text : string) : list string :=
  doc ++ [text].

Fixpoint add_lines (doc : list string) (lines : list string) : list string :=
  match lines with
  | [] => doc
  | line :: rest =>
      add_lines (if String.eqb (PyStr.strip line) "" then doc else add_paragraph doc line) rest
  end.

(** [save_as_docx]: [Document()] starts without paragraphs. *)
Definition save_as_docx (filepath : string) : M unit :=
  w ← get;
  let content := text_area (editor w) in
  let doc := add_lines [] (PyStr.split content (String LF "")) in
  modify (fun w => with_fs (<[filepath := DocxFile doc]> (fs w)) w).

(** [save_file] once [self.filename] is set. *)
Definition save_file_to (name : string) : M unit :=
  try_except_Exception
    (w ← get;
     (if String.eqb (current_file_type (editor w)) "csv"
      then
        file ← py_open name ModeW;
        py_write file (csv.writerows (csv_data (editor w)))
      else if String.eqb (current_file_type (editor w)) "docx"
      then save_as_docx name
      else
        let content := text_area (editor w) in
        file ← py_open name ModeW;
        py_write file content);;
     self_app (set_is_saved true);;
     self_app (set_window_title ("EduText - " +:+ basename name));;
     messagebox "showinfo" "Success" (Msg "File saved successfully!"))
    (fun e => messagebox "showerror" "Error" (MsgError "Could not save file:" e)).

(** [save_file], and [save_as_file] which it calls when no file name is
    set; a file name is a non-empty path. *)
Definition save_file : M unit :=
  w ← get;
  match filename (editor w) with
  | Some name =>
      if String.eqb name "" then
        filepath ← filedialog "asksaveasfilename" "";
        if String.eqb filepath "" then mret tt
        else self_app (set_filename (Some filepath));; save_file_to filepath
      else save_file_to name
  | None =>
      filepath ← filedialog "asksaveasfilename" "";
      if String.eqb filepath "" then mret tt
      else self_app (set_filename (Some filepath));; save_file_to filepath
  end.

(** ** The wording of the specification

    Definitions that follow the specification's sentences, to be compared
    with the program's. *)

(** "the string obtained by deleting all spaces and all hyphens" *)
Fixpoint spec_delete_spaces_and_hyphens (s : string) : string :=
  match s with
  | EmptyString => EmptyString
  | String c s' =>
      if Ascii.eqb c " " || Ascii.eqb c "-" then spec_delete_spaces_and_hyphens s'
      else String c (spec_delete_spaces_and_hyphens s')
  end.

(** "consists only of alphabetic characters" *)
Definition spec_only_alphabetic (s : string) : Prop :=
  forall c, In c (list_ascii_of_string s) -> PyStr.is_alpha c = true.

(** "contains the substring" *)
Definition spec_substring (sub s : string) : Prop :=
  exists before after, s = before +:+ sub +:+ after.

(** "a blank (empty or whitespace-only) line" *)
Definition spec_blank (line : string) : Prop :=
  forall c, In c (list_ascii_of_string line) -> PyStr.is_space c = true.

(** The file a recipient's letter goes to, given the files present
    before the recipient is handled. *)
Definition output_path (files : filesystem) (directory recipient : string) : string :=
  match files !! mail_path directory recipient with
  | Some _ => mail_path_1 directory recipient
  | None => mail_path directory recipient
  end.

(** The two file names a recipient's letter can get. *)
Definition path_of (directory recipient path : string) : Prop :=
  path = mail_path directory recipient \/ path = mail_path_1 directory recipient.

(** The files after the loop of [generate_personalized_letters] went
    through [recipients], as a function of the files before it. *)
Fixpoint files_after (files : filesystem) (directory body : string)
    (recipients : list string) : filesystem :=
  match recipients with
  | [] => files
  | recipient :: rest =>
      files_after
        (<[output_path files directory recipient :=
             TextFile (PyStr.replace body "[name]" recipient)]> files)
        directory body rest
  end.

(** ** Sample runs *)

(** The wizard about to generate letters: the template is entered, the
    recipients are confirmed, and the user will click through the three
    dialogs and choose the folder [out]. *)
Definition ready_to_generate (files : filesystem) (body : string) (names : list string) : world :=
  with_letter (set_letter_body (Some body) Letter_init)
    (with_name_manager (set_recipient_names names NameManager_init)
       (world_init files
          [Clicked (Some "Continue"); PathChosen "out"; Clicked (Some "Exit")])).

(** Bob's letter is due, and both of Bob's files are already in the
    folder. *)
Definition bob_twice_before : world :=
  with_letter (mkLetter (Some "Hi [name]") "out" "" false)
    (world_init {[ "out/Bob's Mail.txt" := TextFile "old";
                   "out/Bob's Mail(1).txt" := TextFile "older" ]} []).

(** The user browses a letter without the placeholder, then types one. *)
Definition browse_then_type : world :=
  world_init {[ "letter.txt" := TextFile "Dear friend" ]}
    [Clicked (Some "Browse"); PathChosen "letter.txt"; Clicked (Some "Try Again");
     Clicked (Some "Type Letter Content"); TextEntered (Some "Hello") "Continue"].

(** The editor holds the text [content] and has the text file [name]
    open; the user will choose [name] again in the open dialog. *)
Definition editing (name content : string) : world :=
  with_editor (set_text_area content (set_filename (Some name) ModernEditorApp_init))
    (world_init ∅ [PathChosen name]).

(** ** Notions used in the proofs about the csv reader *)

Definition no_CR (s : string) : Prop := ~ In CR (list_ascii_of_string s).

(** A line as the iteration over a text file gives it: no carriage
    return, and a line feed only as the last character. *)
Fixpoint text_line (line : string) : Prop :=
  match line with
  | EmptyString => True
  | String c rest => c <> CR /\ (c = LF -> rest = EmptyString) /\ text_line rest
  end.

(** The reader has not taken in a carriage return. *)
Definition clean (self : csv.ReaderObj) : Prop :=
  no_CR (csv.field self) /\ Forall no_CR (csv.fields self).

(** The editor in its first state, with the user about to choose the
    table file [name] in the open dialog. *)
Definition opening (files : filesystem) (name text : string) : world :=
  with_editor (set_text_area text ModernEditorApp_init) (world_init files [PathChosen name]).

(** A table of one header and one data row, with line feeds as line
    ends. *)
Definition people_csv : string :=
  "name,age" +:+ String LF ("Ann,30" +:+ String LF "").

(** ** The rest of the wizard and of the editor

    The methods below complete the two classes of the wizard with the main
    flow of the program, and the editor with its commands for new
    documents, saving under a new name, exporting, closing, the window
    title and the status bar.

    The pictographs that decorate the button labels and the messages of
    the program lie outside ASCII and are left out of the strings of the
    model.  The marker of unsaved changes, on whose characters
    [update_title] computes, is kept: its three characters outside ASCII
    are the characters 226, 128 and 162 of the model. *)

Module PyStrMore.

(** [s.count(sub)] for a non-empty [sub]: the occurrences of [sub] that do
    not overlap, counted from the left. *)
Fixpoint count_from (fuel : nat) (sub s : string) : Z :=
  match fuel with
  | O => 0
  | S fuel' =>
      match s with
      | EmptyString => 0
      | String _ s' =>
          if PyStr.startswith s sub
          then 1 + count_from fuel' sub (PyStr.drop (String.length sub) s)
          else count_from fuel' sub s'
      end
  end.

Definition count (s sub : string) : Z := count_from (String.length s) sub s.

(** [s.split()]: the words of [s], separated by runs of white space;
    [word] is the word being read. *)
Fixpoint split_whitespace_from (word s : string) : list string :=
  match s with
  | EmptyString => if String.eqb word "" then [] else [word]
  | String c s' =>
      if PyStr.is_space c
      then if String.eqb word "" then split_whitespace_from "" s'
           else word :: split_whitespace_from "" s'
      else split_whitespace_from (word +:+ String c "") s'
  end.

Definition split_whitespace (s : string) : list string := split_whitespace_from "" s.

(** [c in chars] *)
Fixpoint has_char (c : ascii) (chars : string) : bool :=
  match chars with
  | EmptyString => false
  | String a chars' => Ascii.eqb a c || has_char c chars'
  end.

(** [s.rstrip(chars)]: the characters of [chars] are removed from the end
    of [s]. *)
Fixpoint rstrip_chars (chars s : string) : string :=
  match s with
  | EmptyString => EmptyString
  | String c s' =>
      match rstrip_chars chars s' with
      | EmptyString => if has_char c chars then EmptyString else String c EmptyString
      | String _ _ as r => String c r
      end
  end.

(** [s.endswith(suffix)] *)
Definition endswith (s suffix : string) : bool :=
  (String.length suffix <=? String.length s)%nat &&
  String.eqb (PyStr.drop (String.length s - String.length suffix) s) suffix.

End PyStrMore.

(** *** The main flow *)

(** [StartingWindow().result] *)
Definition StartingWindow : M (option string) :=
  show (ShownBox "StartingWindow" ["Mail Merge"; "Text Editor"; "Exit"]
          "EduText: A Student Software");;
  r ← next_response;
  match r with
  | Clicked result => mret result
  | _ => waiting
  end.

(** The selection loop: one turn of its [while True] per unit of fuel.
    It answers [software_choice]. *)
Fixpoint choose_software (fuel : nat) : M (option string) :=
  match fuel with
  | O => out_of_fuel
  | S fuel' =>
      software_choice ← StartingWindow;
      if is_str software_choice "Mail Merge" then mret software_choice
      else if is_str software_choice "Text Editor" then mret software_choice
      else if is_str software_choice "Exit" then exit_confirmation;; choose_software fuel'
      else choose_software fuel'
  end.

(** [textEditor_launch] builds the editor and enters the event loop of its
    window: from then on the program waits for the commands of the user,
    each of which calls a method of [ModernEditorApp]. *)
Definition textEditor_launch : M unit := waiting.

(** The statements of the module after the definitions. *)
Definition main (fuel : nat) : M unit :=
  software_choice ← choose_software fuel;
  if is_str software_choice "Mail Merge"
  then name_collection fuel;; process_letter_content fuel
  else if is_str software_choice "Text Editor"
  then textEditor_launch
  else mret tt.

(** *** Commands of the editor *)

(** [messagebox.askyesnocancel]: [True], [False], or [None] on Cancel. *)
Definition askyesnocancel (title text : string) : M (option bool) :=
  show (ShownMessage "askyesnocancel" title (Msg text));;
  r ← next_response;
  match r with
  | Answered yes => mret yes
  | _ => waiting
  end.

(** [create_csv_table] *)
Definition create_csv_table : M unit :=
  self_app (set_current_file_type "csv").

(** [save_as_file] *)
Definition save_as_file : M unit :=
  filepath ← filedialog "asksaveasfilename" "";
  if String.eqb filepath "" then mret tt
  else self_app (set_filename (Some filepath));; save_file.

(** [new_file] *)
Definition new_file : M unit :=
  w ← get;
  go_on ← (if negb (is_saved (editor w))
           then
             response ← askyesnocancel "Save Changes" "Do you want to save changes?";
             match response with
             | None => mret false
             | Some true => save_file;; mret true
             | Some false => mret true
             end
           else mret true);
  if go_on : bool
  then
    self_app (set_text_area "");;
    self_app (set_csv_data []);;
    self_app (set_filename None);;
    self_app (set_is_saved true);;
    self_app (set_current_file_type "text")
  else mret tt.

(** [on_closing]; the answer tells whether the window was destroyed. *)
Definition on_closing : M bool :=
  w ← get;
  if negb (is_saved (editor w))
  then
    response ← askyesnocancel "Save Changes" "Save changes before closing?";
    match response with
    | None => mret false
    | Some true => save_file;; mret true
    | Some false => mret true
    end
  else mret true.

(** [export_to_docx] *)
Definition export_to_docx : M unit :=
  filepath ← filedialog "asksaveasfilename" "";
  if String.eqb filepath "" then mret tt
  else
    save_as_docx filepath;;
    messagebox "showinfo" "Success" (Msg "Exported to DOCX successfully!").

(** The marker of unsaved changes: a space and three characters outside
    ASCII. *)
Definition unsaved_marker : string :=
  String " " (String (ascii_of_N 226) (String (ascii_of_N 128) (String (ascii_of_N 162) ""))).

(** [update_title] *)
Definition update_title : M unit :=
  w ← get;
  let title := PyStrMore.rstrip_chars unsaved_marker (window_title (editor w)) in
  if negb (is_saved (editor w))
  then
    if negb (PyStrMore.endswith title unsaved_marker)
    then self_app (set_window_title (title +:+ unsaved_marker))
    else mret tt
  else mret tt.

(** [on_text_change]; [edit_modified] is the flag of the text widget. *)
Definition on_text_change (edit_modified : bool) : M unit :=
  if edit_modified
  then self_app (set_is_saved false);; update_title
  else mret tt.

(** The three numbers [update_status] puts into the status bar. *)
Definition status_lines (content : string) : Z :=
  PyStrMore.count content (String LF "") + 1.

Definition status_chars (content : string) : Z :=
  Z.of_nat (String.length content).

Definition status_words (content : string) : Z :=
  if negb (String.eqb (PyStr.strip content) "")
  then Z.of_nat (length (PyStrMore.split_whitespace content))
  else 0.

Definition update_status (w : world) : Z * Z * Z :=
  let content := text_area (editor w) in
  (status_lines content, status_chars content, status_words content).

(** ** Notions used in the statements about the rest of the program *)

(** The answers of a user who gives the entries [entries] to the name
    prompt, each with the button Continue. *)
Definition entered (entries : list string) : list response :=
  (fun e => StringEntered (Some e) "Continue") <$> entries.

(** What a user types for one recipient: entries that are rejected, then
    one that is accepted. *)
Definition attempts (a : list string * string) : list response :=
  entered (a.1 ++ [a.2]).

(** The rejected entries fail the test of the name, the accepted one
    passes it. *)
Definition attempts_ok (a : list string * string) : Prop :=
  Forall (fun e => name_is_valid e = false) a.1 /\ name_is_valid a.2 = true.

(** A user who presses Exit on the starting window and declines to exit. *)
Definition exit_declined (answer : option string) : list response :=
  [Clicked (Some "Exit"); Clicked answer].

(** A user who cancels the file dialog and declines to exit. *)
Definition cancelled (answer : option string) : list response :=
  [PathChosen ""; Clicked answer].

(** The text a Word document shows in the text widget. *)
Fixpoint docx_text (paragraphs : list string) : string :=
  match paragraphs with
  | [] => ""
  | para :: rest => para +:+ String LF (docx_text rest)
  end.

(** The exception that reading the file at [path] as text raises, if
    any: the file is missing, or it is not a text file. *)
Definition reading_fails (files : filesystem) (path : string) : option exn :=
  match files !! path with
  | None => Some (FileNotFoundError path)
  | Some (DocxFile _) => Some UnicodeDecodeError
  | Some (TextFile _) => None
  end.

(** The editor once its document is saved to [name]. *)
Definition saved_as (name : string) (e : ModernEditorApp) : ModernEditorApp :=
  set_window_title ("EduText - " +:+ basename name) (set_is_saved true e).

(** The editor with an empty document, as [new_file] leaves it. *)
Definition cleared (e : ModernEditorApp) : ModernEditorApp :=
  set_current_file_type "text"
    (set_is_saved true (set_filename None (set_csv_data [] (set_text_area "" e)))).

(** A method that always returns, and touches neither the files, nor the
    script, nor the file name of the document. *)
Definition quiet (m : M unit) : Prop :=
  forall w, exists w',
    m w = Returned tt w' /\ fs w' = fs w /\ script w' = script w /\
    filename (editor w') = filename (editor w).

(** The test of [save_as_docx] on a line: [line.strip()] is not empty. *)
Definition not_blank (line : string) : bool := negb (String.eqb (PyStr.strip line) "").

(** ** More sample runs *)

(** The wizard after the question for the number of recipients was
    answered with [total]. *)
Definition counted (total : Z) (answers : list response) : world :=
  with_name_manager (set_total_recipients (Some total) NameManager_init)
    (world_init ∅ answers).

(** A names file with two names. *)
Definition two_names : filesystem := {[ "names.txt" := TextFile "Alice, Bob" ]}.

(** A whole run of the wizard: Exit is pressed and declined once, the
    names come from the file, the letter is typed, the letters go to the
    folder [out]. *)
Definition whole_run : list response :=
  [Clicked (Some "Exit"); Clicked (Some "No");
   Clicked (Some "Mail Merge");
   Clicked (Some "Text File"); PathChosen "names.txt"; Clicked (Some "Continue");
   Clicked (Some "Type Letter Content"); TextEntered (Some "Dear [name],") "Continue";
   Clicked (Some "Continue"); PathChosen "out"; Clicked (Some "Exit")].

(** The editor with the text [content] in its buffer, changed since it
    was last saved to [name]. *)
Definition unsaved (files : filesystem) (name : option string) (content : string)
    (answers : list response) : world :=
  with_editor
    (set_is_saved false (set_text_area content (set_filename name ModernEditorApp_init)))
    (world_init files answers).

(** The editor showing the table [rows] of the file [name]; the user will
    choose [name] in the open dialog. *)
Definition table (name : string) (rows : list (list string)) : world :=
  with_editor
    (set_current_file_type "csv"
       (set_csv_data rows (set_filename (Some name) ModernEditorApp_init)))
    (world_init ∅ [PathChosen name]).

(** * Properties *)

(** ** Strings as lists of characters *)

Section StringFacts.

Lemma app_cons_s (x : ascii) (a b : string) : String x a +:+ b = String x (a +:+ b).
Proof. reflexivity. Qed.

Lemma app_nil_l_s (b : string) : "" +:+ b = b.
Proof. reflexivity. Qed.

Lemma to_list_app (a b : string) :
  list_ascii_of_string (a +:+ b) = list_ascii_of_string a ++ list_ascii_of_string b.
Proof. induction a as [|c a IH]; [done | by rewrite app_cons_s; simpl; rewrite IH]. Qed.

Lemma to_list_inj (a b : string) :
  list_ascii_of_string a = list_ascii_of_string b -> a = b.
Proof.
  intros H. rewrite <- (string_of_list_ascii_of_string a), <- (string_of_list_ascii_of_string b).
  by rewrite H.
Qed.

Lemma app_assoc_s (a b c : string) : (a +:+ b) +:+ c = a +:+ (b +:+ c).
Proof. induction a as [|x a IH]; [done | by rewrite !app_cons_s, IH]. Qed.

Lemma app_nil_r_s (a : string) : a +:+ "" = a.
Proof. induction a as [|x a IH]; [done | by rewrite app_cons_s, IH]. Qed.

Lemma app_length_s (a b : string) :
  String.length (a +:+ b) = (String.length a + String.length b)%nat.
Proof. induction a as [|x a IH]; [done | by rewrite app_cons_s; simpl; rewrite IH]. Qed.

Lemma to_list_length (a : string) : length (list_ascii_of_string a) = String.length a.
Proof. induction a as [|x a IH]; simpl; [done | by rewrite IH]. Qed.

(** Two strings with the same ending are equal when their beginnings are. *)
Lemma app_inv_tail_s (a b t : string) : a +:+ t = b +:+ t -> a = b.
Proof.
  intros H. apply to_list_inj. apply (f_equal list_ascii_of_string) in H.
  rewrite !to_list_app in H. by apply app_inv_tail in H.
Qed.

(** Endings of the same length of one string are equal. *)
Lemma app_inj_tail_s (a b x y : string) :
  String.length x = String.length y -> a +:+ x = b +:+ y -> a = b /\ x = y.
Proof.
  intros Hlen H. apply (f_equal list_ascii_of_string) in H.
  rewrite !to_list_app in H. apply app_inj_2 in H as [Ha Hx].
  - split; by apply to_list_inj.
  - by rewrite !to_list_length.
Qed.

End StringFacts.

(** ** Searching a string *)

Lemma startswith_spec (s p : string) :
  PyStr.startswith s p = true <-> exists t, s = p +:+ t.
Proof.
  revert s. induction p as [|a p IH]; intros s.
  - split; [intros _; by exists s | by destruct s].
  - destruct s as [|b s]; simpl.
    + split; [discriminate | intros [t Ht]; discriminate].
    + destruct (Ascii.eqb_spec a b) as [-> | Hne].
      * rewrite IH. split; intros [t Ht]; exists t.
        -- by rewrite app_cons_s, Ht.
        -- rewrite app_cons_s in Ht. by injection Ht.
      * split; [discriminate | intros [t Ht]]. rewrite app_cons_s in Ht. injection Ht. congruence.
Qed.

Lemma contains_unfold (sub s : string) :
  PyStr.contains sub s =
  if PyStr.startswith s sub then true
  else match s with
       | EmptyString => false
       | String _ s' => PyStr.contains sub s'
       end.
Proof. by destruct s. Qed.

Lemma find_unfold (s sub : string) :
  PyStr.find s sub =
  if PyStr.startswith s sub then 0
  else match s with
       | EmptyString => -1
       | String _ s' => let r := PyStr.find s' sub in if r <? 0 then -1 else r + 1
       end.
Proof. by destruct s. Qed.

(** [in] finds exactly the substrings. *)
Lemma contains_spec (sub s : string) :
  PyStr.contains sub s = true <-> spec_substring sub s.
Proof.
  split.
  - induction s as [|c s IH]; rewrite contains_unfold;
      destruct (PyStr.startswith _ sub) eqn:Hst; try done.
    + apply startswith_spec in Hst as [t Ht]. by exists "", t.
    + apply startswith_spec in Hst as [t Ht]. by exists "", t.
    + intros H. destruct (IH H) as (pre & post & ->). by exists (String c pre), post.
  - intros (pre & post & ->). induction pre as [|c pre IH].
    + rewrite contains_unfold.
      by replace (PyStr.startswith _ sub) with true
        by (symmetry; apply startswith_spec; by exists post).
    + rewrite contains_unfold. rewrite app_cons_s. by destruct (PyStr.startswith _ sub).
Qed.

(** [find] answers a negative number exactly when [in] says no. *)
Lemma find_negative (s sub : string) :
  (PyStr.find s sub <? 0) = negb (PyStr.contains sub s) /\ -1 <= PyStr.find s sub.
Proof.
  induction s as [|c s [IH1 IH2]]; rewrite find_unfold, contains_unfold;
    destruct (PyStr.startswith _ sub); try done.
  cbv zeta. rewrite IH1. destruct (PyStr.contains sub s); simpl; [|done].
  simpl in IH1. apply Z.ltb_ge in IH1. split; [apply Z.ltb_ge|]; lia.
Qed.

Lemma find_negative_iff (s sub : string) :
  (PyStr.find s sub <? 0) = true <-> ~ spec_substring sub s.
Proof.
  destruct (find_negative s sub) as [-> _]. rewrite <- contains_spec.
  destruct (PyStr.contains sub s); simpl; split; done.
Qed.

(** ** [replace], unfolded *)

Lemma drop_length (n : nat) (s : string) :
  String.length (PyStr.drop n s) = (String.length s - n)%nat.
Proof.
  revert s. induction n as [|n IH]; intros [|c s]; simpl; try done.
Qed.

Lemma replace_from_nil (fuel : nat) (old new : string) :
  PyStr.replace_from fuel old new "" = "".
Proof. by destruct fuel. Qed.

(** More fuel than characters changes nothing. *)
Lemma replace_from_enough (n m : nat) (a : ascii) (old new s : string) :
  (String.length s <= n)%nat -> (String.length s <= m)%nat ->
  PyStr.replace_from n (String a old) new s = PyStr.replace_from m (String a old) new s.
Proof.
  revert m s. induction n as [|n IH]; intros m s Hn Hm.
  - destruct s; simpl in Hn; [|lia]. by rewrite !replace_from_nil.
  - destruct m as [|m].
    + destruct s; simpl in Hm; [|lia]. by rewrite !replace_from_nil.
    + destruct s as [|c s]; [done|]. simpl in Hn, Hm.
      cbn [PyStr.replace_from].
      destruct (PyStr.startswith (String c s) (String a old)).
      * f_equal. apply IH; cbn [String.length PyStr.drop]; rewrite drop_length; lia.
      * f_equal. apply IH; lia.
Qed.

Lemma replace_cons (c a : ascii) (s old new : string) :
  PyStr.replace (String c s) (String a old) new =
  if PyStr.startswith (String c s) (String a old)
  then new +:+ PyStr.replace (PyStr.drop (String.length old) s) (String a old) new
  else String c (PyStr.replace s (String a old) new).
Proof.
  unfold PyStr.replace. cbn [String.length PyStr.replace_from PyStr.drop].
  destruct (PyStr.startswith _ _).
  - f_equal. apply replace_from_enough; rewrite ?drop_length; lia.
  - done.
Qed.

Lemma replace_nil (a : ascii) (old new : string) : PyStr.replace "" (String a old) new = "".
Proof. done. Qed.

(** Replacing a character by nothing deletes it. *)
Lemma replace_char_by_nothing (a c : ascii) (s : string) :
  PyStr.replace (String c s) (String a "") "" =
  if Ascii.eqb a c then PyStr.replace s (String a "") ""
  else String c (PyStr.replace s (String a "") "").
Proof.
  rewrite replace_cons. cbn [PyStr.startswith String.length PyStr.drop].
  destruct (Ascii.eqb a c); [|done]. by destruct s.
Qed.

(** ** File names of the letters *)

Lemma mail_path_inj (d r r' : string) : mail_path d r = mail_path d r' -> r = r'.
Proof.
  unfold mail_path. intros H. apply String.app_inj in H. apply String.app_inj in H.
  by apply app_inv_tail_s in H.
Qed.

Lemma mail_path_1_inj (d r r' : string) : mail_path_1 d r = mail_path_1 d r' -> r = r'.
Proof.
  unfold mail_path_1. intros H. apply String.app_inj in H. apply String.app_inj in H.
  by apply app_inv_tail_s in H.
Qed.

(** A retry name is never the plain name of a recipient, same or other:
    the last eleven characters differ. *)
Lemma mail_path_neq_1 (d r r' : string) : mail_path d r <> mail_path_1 d r'.
Proof.
  unfold mail_path, mail_path_1. intros H.
  apply String.app_inj in H. apply String.app_inj in H.
  change (r +:+ "'s Mail.txt" = r' +:+ ("'s " +:+ "Mail(1).txt")) in H.
  rewrite <- (app_assoc_s r' "'s " "Mail(1).txt") in H.
  apply app_inj_tail_s in H as [_ H]; [discriminate | reflexivity].
Qed.

(** ** Running the program: unfolding the monad *)

Lemma bind_Returned {A B} (m : M A) (k : A -> M B) (w w' : world) (a : A) :
  m w = Returned a w' -> (m ≫= k) w = k a w'.
Proof. intros H. unfold mbind, M_mbind, M_bind. by rewrite H. Qed.

#[global] Arguments PyStr.replace : simpl never.
#[global] Arguments PyStr.split : simpl never.
#[global] Arguments PyStr.find : simpl never.
#[global] Arguments PyStr.contains : simpl never.
#[global] Arguments PyStr.title : simpl never.
#[global] Arguments mail_path : simpl never.
#[global] Arguments mail_path_1 : simpl never.

Ltac run_step :=
  unfold mbind, M_mbind, M_bind, mret, M_mret, M_ret, get, modify, show, raise,
    self_nm, self_letter, self_app, next_response, waiting, out_of_fuel, py_exit; simpl.

(** Opening for writing, then writing: the file holds the text written. *)
Lemma write_personalized_W (w : world) (path recipient body : string) :
  letter_body (letter w) = Some body ->
  write_personalized path ModeW recipient w =
  Returned tt (with_fs (<[path := TextFile (PyStr.replace body "[name]" recipient)]> (fs w)) w).
Proof.
  intros Hb. unfold write_personalized, py_open, py_write. run_step.
  rewrite Hb. simpl. rewrite lookup_insert_eq. unfold with_fs; simpl.
  by rewrite insert_insert_eq.
Qed.

Lemma letter_for_W (w : world) (recipient body : string) :
  letter_body (letter w) = Some body ->
  letter_for ModeW recipient w =
  Returned tt (with_fs (<[output_path (fs w) (output_directory (letter w)) recipient :=
                           TextFile (PyStr.replace body "[name]" recipient)]> (fs w)) w).
Proof.
  intros Hb. unfold letter_for, output_path, try_except_FileNotFoundError. run_step.
  destruct (fs w !! mail_path (output_directory (letter w)) recipient) as [f|] eqn:Hp.
  - by rewrite (write_personalized_W _ _ _ body).
  - by rewrite (write_personalized_W _ _ _ body).
Qed.

(** C9.  For a recipient the letter is written to
    [<directory>/<name>'s Mail.txt]; when that file is already there it is
    left as it is and the letter goes to [<directory>/<name>'s Mail(1).txt];
    when both are there the [(1)] file is overwritten and no new file is
    created. *)
Theorem letter_for_collision (w : world) (recipient body : string) :
  letter_body (letter w) = Some body ->
  let directory := output_directory (letter w) in
  let plain := directory +:+ "/" +:+ recipient +:+ "'s Mail.txt" in
  let retry := directory +:+ "/" +:+ recipient +:+ "'s Mail(1).txt" in
  let text := TextFile (PyStr.replace body "[name]" recipient) in
  exists w',
    letter_for ModeW recipient w = Returned tt w' /\
    (fs w !! plain = None -> fs w' = <[plain := text]> (fs w)) /\
    (is_Some (fs w !! plain) ->
       fs w' = <[retry := text]> (fs w) /\ fs w' !! plain = fs w !! plain) /\
    (is_Some (fs w !! plain) -> is_Some (fs w !! retry) ->
       fs w' !! retry = Some text /\ dom (fs w') = dom (fs w)).
Proof.
  intros Hb directory plain retry text.
  eexists. split; [by apply letter_for_W|].
  change plain with (mail_path directory recipient).
  change retry with (mail_path_1 directory recipient).
  unfold output_path. fold directory. simpl.
  split; [|split].
  - by intros ->.
  - intros [f Hf]. rewrite Hf. split; [done|].
    rewrite lookup_insert_ne; [done|]. intros H. symmetry in H. by apply mail_path_neq_1 in H.
  - intros [f Hf] [g Hg]. rewrite Hf. split; [by rewrite lookup_insert_eq|].
    rewrite dom_insert_L. apply elem_of_dom_2 in Hg.
    apply subseteq_union_1_L. by apply singleton_subseteq_l.
Qed.

(** The theorem at work: Bob's plain file and retry file both exist. *)
Lemma letter_for_collision_witness :
  exists w', letter_for ModeW "Bob" bob_twice_before = Returned tt w' /\
             fs w' !! "out/Bob's Mail(1).txt" = Some (TextFile "Hi Bob") /\
             fs w' !! "out/Bob's Mail.txt" = Some (TextFile "old") /\
             dom (fs w') = dom (fs bob_twice_before).
Proof.
  set (w := bob_twice_before).
  destruct (letter_for_collision w "Bob" "Hi [name]" eq_refl) as (w' & Hrun & _ & H2 & H3).
  exists w'. split; [exact Hrun|].
  assert (is_Some (fs w !! "out/Bob's Mail.txt")) as Hp by (eexists; vm_compute; reflexivity).
  assert (is_Some (fs w !! "out/Bob's Mail(1).txt")) as Hr by (eexists; vm_compute; reflexivity).
  destruct (H2 Hp) as [_ Hkeep]. destruct (H3 Hp Hr) as [Hnew Hdom].
  split; [exact Hnew|]. split; [|exact Hdom].
  etrans; [exact Hkeep|]. vm_compute. reflexivity.
Defined.

(** ** Dialogs answered by the script *)

Lemma CustomBox_run (buttons : list string) (text : string) (w : world)
    (r : option string) (rest : list response) :
  script w = Clicked r :: rest ->
  CustomBox buttons text w =
  Returned r (with_script rest (with_shown (shown w ++ [ShownBox "CustomBox" buttons text]) w)).
Proof. intros Hs. unfold CustomBox. run_step. by rewrite Hs. Qed.

Lemma filedialog_run (kind title : string) (w : world) (path : string) (rest : list response) :
  script w = PathChosen path :: rest ->
  filedialog kind title w =
  Returned path (with_script rest (with_shown (shown w ++ [ShownFileDialog kind title]) w)).
Proof. intros Hs. unfold filedialog. run_step. by rewrite Hs. Qed.

Lemma open_folder_run (w : world) :
  open_folder w =
  Returned tt
    (with_shown
       (shown w ++
        [FolderOpened [if String.eqb (platform_system w) "Windows" then "startfile"
                       else if String.eqb (platform_system w) "Darwin" then "open"
                       else "xdg-open";
                       output_directory (letter w)]]) w).
Proof.
  unfold open_folder. run_step.
  destruct (String.eqb (platform_system w) "Windows"); [done|].
  by destruct (String.eqb (platform_system w) "Darwin").
Qed.

#[global] Arguments CustomBox : simpl never.
#[global] Arguments filedialog : simpl never.
#[global] Arguments open_folder : simpl never.
#[global] Arguments for_each : simpl never.
#[global] Arguments letter_for : simpl never.

Lemma bind_get {B} (k : world -> M B) (w : world) : (get ≫= k) w = k w w.
Proof. reflexivity. Qed.

Lemma bind_modify {B} (f : world -> world) (k : unit -> M B) (w : world) :
  (modify f ≫= k) w = k tt (f w).
Proof. reflexivity. Qed.

Lemma bind_mret {A B} (a : A) (k : A -> M B) (w : world) : (mret a ≫= k) w = k a w.
Proof. reflexivity. Qed.

Lemma bind_assoc {A B C} (m : M A) (f : A -> M B) (g : B -> M C) (w : world) :
  ((m ≫= f) ≫= g) w = (m ≫= fun a => f a ≫= g) w.
Proof. unfold mbind, M_mbind, M_bind. by destruct (m w). Qed.

(** State changes that cannot fail are carried out at once. *)
Ltac pure_steps :=
  unfold show_placeholder_instructions;
  unfold self_nm, self_letter, self_app, Messagebox_show_info, Messagebox_show_warning,
    messagebox;
  unfold show;
  repeat (first [ rewrite bind_get | rewrite bind_modify | rewrite bind_mret ]; cbv beta).

(** A step whose outcome a lemma gives. *)
Ltac step_with lem :=
  lazymatch goal with
  | |- ?f ?w = _ =>
      lazymatch f with
      | @mbind _ _ _ _ ?k ?m =>
          let H := fresh in
          eassert (m w = Returned _ _) as H by (eapply lem; simpl; try eassumption; reflexivity);
          rewrite (bind_Returned m k w _ _ H); clear H; cbv beta
      end
  end.

Lemma for_each_letter_for (l : list string) (w : world) (body : string) :
  letter_body (letter w) = Some body ->
  for_each l (letter_for ModeW) w =
  Returned tt (with_fs (files_after (fs w) (output_directory (letter w)) body l) w).
Proof.
  revert w. induction l as [|r l IH]; intros w Hb.
  - unfold for_each. by destruct w.
  - unfold for_each; fold (@for_each string). erewrite bind_Returned; [|by apply letter_for_W].
    rewrite IH; [|done]. by destruct w.
Qed.

Lemma generate_run (w : world) (b1 b2 : option string) (dir body : string) (rest : list response) :
  script w = Clicked b1 :: PathChosen dir :: Clicked b2 :: rest ->
  letter_body (letter w) = Some body ->
  exists w', generate_personalized_letters w = Returned tt w' /\
    fs w' = files_after (fs w) dir body (recipient_names (name_manager w)) /\
    script w' = rest /\ name_manager w' = name_manager w /\
    output_directory (letter w') = dir.
Proof.
  intros Hs Hb. unfold generate_personalized_letters, generate_letters_with.
  eexists. split.
  { step_with CustomBox_run. step_with filedialog_run. pure_steps.
    step_with for_each_letter_for. step_with CustomBox_run.
    apply open_folder_run. }
  by simpl.
Qed.

(** ** The files written by the loop over the recipients *)

Section FilesAfter.
Context (d body : string).

Let content (r : string) : file := TextFile (PyStr.replace body "[name]" r).

Lemma output_path_of (files : filesystem) (r : string) : path_of d r (output_path files d r).
Proof. unfold output_path, path_of. destruct (files !! _); auto. Qed.

Lemma path_of_inj (r r' p : string) : path_of d r p -> path_of d r' p -> r = r'.
Proof.
  intros [-> | ->] [H | H].
  - by apply mail_path_inj in H.
  - by apply mail_path_neq_1 in H.
  - symmetry in H. by apply mail_path_neq_1 in H.
  - by apply mail_path_1_inj in H.
Qed.

Lemma output_path_inj (files : filesystem) (r r' : string) :
  output_path files d r = output_path files d r' -> r = r'.
Proof.
  intros H. apply (path_of_inj r r' (output_path files d r)).
  - apply output_path_of.
  - rewrite H. apply output_path_of.
Qed.

(** A letter once written stays: a later recipient with another name
    writes elsewhere, one with the same name writes the same text. *)
Lemma files_after_keeps (l : list string) (files : filesystem) (r p : string) :
  path_of d r p -> files !! p = Some (content r) ->
  files_after files d body l !! p = Some (content r).
Proof.
  revert files. induction l as [|r' l IH]; intros files Hp Hf; [done|].
  simpl. apply IH; [done|].
  destruct (decide (output_path files d r' = p)) as [Heq|Hne].
  - assert (r' = r) as -> by (apply (path_of_inj _ _ p); [rewrite <- Heq; apply output_path_of | done]).
    rewrite Heq. by rewrite lookup_insert_eq.
  - by rewrite lookup_insert_ne.
Qed.

Lemma files_after_each (l : list string) (files : filesystem) (r : string) :
  r ∈ l -> exists p, path_of d r p /\ files_after files d body l !! p = Some (content r).
Proof.
  revert files. induction l as [|r' l IH]; intros files Hin; [by apply elem_of_nil in Hin|].
  apply elem_of_cons in Hin as [-> | Hin].
  - exists (output_path files d r'). split; [apply output_path_of|].
    simpl. apply files_after_keeps; [apply output_path_of | by rewrite lookup_insert_eq].
  - simpl. by apply IH.
Qed.

(** Writing the letter of one recipient does not move the file name of
    another. *)
Lemma output_path_insert_other (files : filesystem) (r r' q : string) (x : file) :
  r <> r' -> path_of d r' q -> output_path (<[q := x]> files) d r = output_path files d r.
Proof.
  intros Hne Hq. unfold output_path. rewrite lookup_insert_ne; [done|].
  intros ->. apply Hne. symmetry. apply (path_of_inj _ _ (mail_path d r)); [done | by left].
Qed.

Lemma output_paths_insert_other (files : filesystem) (l : list string) (r' : string) (x : file) :
  r' ∉ l ->
  output_path (<[output_path files d r' := x]> files) d <$> l = output_path files d <$> l.
Proof.
  intros Hnin. apply list_fmap_ext. intros i r Hr.
  apply (output_path_insert_other files r r'); [|apply output_path_of].
  intros ->. apply Hnin. by eapply list_elem_of_lookup_2.
Qed.

Lemma files_after_distinct (l : list string) (files : filesystem) (r : string) :
  NoDup l -> r ∈ l ->
  files_after files d body l !! output_path files d r = Some (content r).
Proof.
  revert files. induction l as [|r' l IH]; intros files Hnd Hin; [by apply elem_of_nil in Hin|].
  apply NoDup_cons in Hnd as [Hnin Hnd].
  apply elem_of_cons in Hin as [-> | Hin]; simpl.
  - apply files_after_keeps; [apply output_path_of | by rewrite lookup_insert_eq].
  - rewrite <- (output_path_insert_other files r r' (output_path files d r') (content r')).
    + by apply IH.
    + by intros ->.
    + apply output_path_of.
Qed.

Lemma files_after_untouched (l : list string) (files : filesystem) (p : string) :
  NoDup l -> p ∉ (output_path files d <$> l) ->
  files_after files d body l !! p = files !! p.
Proof.
  revert files. induction l as [|r' l IH]; intros files Hnd Hp; [done|].
  apply NoDup_cons in Hnd as [Hnin Hnd].
  rewrite fmap_cons in Hp. apply not_elem_of_cons in Hp as [Hne Hp]. simpl.
  rewrite IH; [by rewrite lookup_insert_ne | done |].
  by rewrite output_paths_insert_other.
Qed.

Lemma output_paths_NoDup (l : list string) (files : filesystem) :
  NoDup l -> NoDup (output_path files d <$> l).
Proof.
  intros Hnd. apply NoDup_fmap_2_strong; [|done].
  intros r r' _ _. apply output_path_inj.
Qed.

End FilesAfter.

(** ** Letter generation *)

(** A decidable statement without variables is settled by evaluation. *)
Ltac decide_by_compute := refine (bool_decide_unpack _ _); vm_compute; exact I.




(** ** Entering the letter *)

Lemma TextBox_run (buttons : list string) (text : string) (w : world)
    (result : option string) (choice : string) (rest : list response) :
  script w = TextEntered result choice :: rest ->
  TextBox buttons text w =
  Returned (result, choice)
    (with_script rest (with_shown (shown w ++ [ShownBox "TextBox" buttons text]) w)).
Proof. intros Hs. unfold TextBox. run_step. by rewrite Hs. Qed.

Lemma py_open_R_run (path : string) (w : world) (f : file) :
  fs w !! path = Some f -> py_open path ModeR w = Returned (mkHandle path ModeR) w.
Proof. intros Hf. unfold py_open. by rewrite Hf. Qed.

Lemma py_read_run (path raw : string) (w : world) :
  fs w !! path = Some (TextFile raw) ->
  py_read (mkHandle path ModeR) w = Returned (universal_newlines raw) w.
Proof. intros Hf. unfold py_read. simpl. by rewrite Hf. Qed.

#[global] Arguments TextBox : simpl never.
#[global] Arguments py_open : simpl never.
#[global] Arguments py_read : simpl never.
#[global] Arguments py_write : simpl never.
#[global] Arguments process_letter_content : simpl never.
#[global] Arguments universal_newlines : simpl never.

(** Tests on values that are known are decided by evaluation. *)
Ltac known_tests :=
  repeat match goal with
    | |- context [is_str (Some ?a) ?b] =>
        let v := eval vm_compute in (is_str (Some a) b) in
        change (is_str (Some a) b) with v
    | |- context [is_str None ?b] => change (is_str None b) with false
    end; cbv beta iota.

Lemma process_letter_content_Browse_again (fuel : nat) (w : world)
    (path raw : string) (again : option string) (rest : list response) :
  script w = Clicked (Some "Browse") :: PathChosen path :: Clicked again :: rest ->
  path <> "" ->
  fs w !! path = Some (TextFile raw) ->
  ~ spec_substring "[name]" (universal_newlines raw) ->
  exists w',
    process_letter_content (S fuel) w = process_letter_content fuel w' /\
    fs w' = fs w /\ script w' = rest /\
    letter_body (letter w') = Some (universal_newlines raw) /\
    shown w' = shown w ++
      [ShownBox "CustomBox" ["Browse"; "Type Letter Content"]
         ("How do you want to enter the letter content?" +:+ String LF "As a file or type it?");
       ShownMessage "info" "Mail Merge"
         (Msg "Make sure that you've entered the [name] placeholder in your letter");
       ShownFileDialog "askopenfilename" "Select your mail";
       ShownBox "CustomBox" ["Try Again"] "Warning: Placeholder '[name]' not present in file."].
Proof.
  intros Hs Hpath Hf Hno. eexists. split.
  { unfold process_letter_content at 1; fold process_letter_content.
    step_with CustomBox_run. known_tests. pure_steps.
    step_with filedialog_run. pure_steps.
    apply String.eqb_neq in Hpath. rewrite Hpath.
    step_with py_open_R_run. step_with py_read_run. pure_steps.
    apply find_negative_iff in Hno. rewrite Hno.
    rewrite bind_assoc. step_with CustomBox_run. pure_steps.
    simpl. reflexivity. }
  simpl. repeat split; try done. by rewrite <- !app_assoc.
Qed.

Lemma process_letter_content_Type_again (fuel : nat) (w : world)
    (body choice : string) (rest : list response) :
  script w = Clicked (Some "Type Letter Content") :: TextEntered (Some body) choice :: rest ->
  choice <> "Exit" ->
  ~ spec_substring "[name]" body ->
  exists w',
    process_letter_content (S fuel) w = process_letter_content fuel w' /\
    fs w' = fs w /\ script w' = rest /\
    letter_body (letter w') = Some body /\
    shown w' = shown w ++
      [ShownBox "CustomBox" ["Browse"; "Type Letter Content"]
         ("How do you want to enter the letter content?" +:+ String LF "As a file or type it?");
       ShownMessage "info" "Mail Merge"
         (Msg "Make sure that you've entered the [name] placeholder in your letter");
       ShownBox "TextBox" ["Continue"; "Exit"] "Enter the letter Content";
       ShownMessage "warning" "Mail Merge"
         (Msg (if String.eqb choice ""
               then "The letter is empty, please try again."
               else "Warning: Placeholder '[name]' is not in the letter body"))].
Proof.
  intros Hs Hchoice Hno. apply String.eqb_neq in Hchoice.
  destruct (String.eqb choice "") eqn:Hempty; eexists; split.
  - unfold process_letter_content at 1; fold process_letter_content.
    step_with CustomBox_run. known_tests. pure_steps.
    step_with TextBox_run. pure_steps.
    rewrite Hchoice, Hempty. pure_steps. reflexivity.
  - simpl. repeat split; try done. by rewrite <- !app_assoc.
  - unfold process_letter_content at 1; fold process_letter_content.
    step_with CustomBox_run. known_tests. pure_steps.
    step_with TextBox_run. pure_steps.
    rewrite Hchoice, Hempty.
    apply find_negative_iff in Hno. rewrite Hno.
    pure_steps. rewrite bind_assoc. pure_steps. simpl. reflexivity.
  - simpl. repeat split; try done. by rewrite <- !app_assoc.
Qed.

Lemma process_letter_content_Type_exit (fuel : nat) (w : world)
    (result answer : option string) (rest : list response) :
  script w = Clicked (Some "Type Letter Content") :: TextEntered result "Exit"
               :: Clicked answer :: rest ->
  exists w',
    process_letter_content (S fuel) w =
      (if is_str answer "Yes" then Exited w' else process_letter_content fuel w') /\
    fs w' = fs w /\ script w' = rest.
Proof.
  intros Hs. eexists. split.
  { unfold process_letter_content at 1; fold process_letter_content.
    step_with CustomBox_run. known_tests. pure_steps.
    step_with TextBox_run. pure_steps.
    change (String.eqb "Exit" "Exit") with true. cbv iota.
    unfold show_exit_confirmation. step_with CustomBox_run.
    destruct (is_str answer "Yes"); reflexivity. }
  by simpl.
Qed.

(** C2.  A letter body without [[name]], read from a file or typed, never
    reaches [generate_personalized_letters]: the call of
    [process_letter_content] shows its warning and becomes a new call of
    itself, with the files as they were.  (On the [Exit] button of the
    text dialog the body is not looked at: the program exits or calls
    [process_letter_content] again.) *)
Theorem process_letter_content_without_placeholder (fuel : nat) (w : world) (body : string) :
  ~ spec_substring "[name]" body ->
  (forall path raw again rest,
      script w = Clicked (Some "Browse") :: PathChosen path :: Clicked again :: rest ->
      path <> "" -> fs w !! path = Some (TextFile raw) -> universal_newlines raw = body ->
      exists w',
        process_letter_content (S fuel) w = process_letter_content fuel w' /\
        fs w' = fs w /\ script w' = rest /\
        last (shown w') =
          Some (ShownBox "CustomBox" ["Try Again"]
                  "Warning: Placeholder '[name]' not present in file.")) /\
  (forall choice rest,
      script w = Clicked (Some "Type Letter Content") :: TextEntered (Some body) choice :: rest ->
      choice <> "Exit" ->
      exists w',
        process_letter_content (S fuel) w = process_letter_content fuel w' /\
        fs w' = fs w /\ script w' = rest /\
        last (shown w') =
          Some (ShownMessage "warning" "Mail Merge"
                  (Msg (if String.eqb choice ""
                        then "The letter is empty, please try again."
                        else "Warning: Placeholder '[name]' is not in the letter body")))) /\
  (forall answer rest,
      script w = Clicked (Some "Type Letter Content") :: TextEntered (Some body) "Exit"
                   :: Clicked answer :: rest ->
      exists w',
        process_letter_content (S fuel) w =
          (if is_str answer "Yes" then Exited w' else process_letter_content fuel w') /\
        fs w' = fs w /\ script w' = rest).
Proof.
  intros Hno. split; [|split].
  - intros path raw again rest Hs Hpath Hf Hraw. subst body.
    destruct (process_letter_content_Browse_again fuel w path raw again rest Hs Hpath Hf Hno)
      as (w' & Hrun & Hfs & Hscript & _ & Hshown).
    exists w'. repeat split; try done. rewrite Hshown.
    by rewrite last_app.
  - intros choice rest Hs Hchoice.
    destruct (process_letter_content_Type_again fuel w body choice rest Hs Hchoice Hno)
      as (w' & Hrun & Hfs & Hscript & _ & Hshown).
    exists w'. repeat split; try done. rewrite Hshown.
    by rewrite last_app.
  - intros answer rest Hs. by apply (process_letter_content_Type_exit fuel w (Some body)).
Qed.

(** A letter without the placeholder is browsed, then one is typed. *)
Lemma process_letter_content_without_placeholder_witness :
  exists w1 w2,
    process_letter_content 2 browse_then_type = process_letter_content 1 w1 /\
    process_letter_content 1 w1 = process_letter_content 0 w2 /\
    fs w2 = fs browse_then_type /\ script w2 = [].
Proof.
  set (w := browse_then_type).
  assert (~ spec_substring "[name]" "Dear friend") as Hno1
    by (apply find_negative_iff; vm_compute; reflexivity).
  assert (~ spec_substring "[name]" "Hello") as Hno2
    by (apply find_negative_iff; vm_compute; reflexivity).
  destruct (process_letter_content_without_placeholder 1 w "Dear friend" Hno1) as (Hbrowse & _).
  destruct (Hbrowse "letter.txt" "Dear friend" (Some "Try Again")
              [Clicked (Some "Type Letter Content"); TextEntered (Some "Hello") "Continue"])
    as (w1 & Hrun1 & Hfs1 & Hs1 & _); [reflexivity | discriminate | vm_compute; reflexivity | reflexivity |].
  destruct (process_letter_content_without_placeholder 0 w1 "Hello" Hno2) as (_ & Htype & _).
  destruct (Htype "Continue" []) as (w2 & Hrun2 & Hfs2 & Hs2 & _); [exact Hs1 | discriminate |].
  exists w1, w2. split; [exact Hrun1|]. split; [exact Hrun2|].
  split; [by rewrite Hfs2, Hfs1 | exact Hs2].
Defined.

(** ** The copy of the wizard in merger.py *)

Lemma write_personalized_R (w : world) (path recipient : string) :
  exists e, write_personalized path ModeR recipient w = Raised e w.
Proof.
  unfold write_personalized, py_open, py_write. run_step.
  destruct (fs w !! path); simpl; [|by eexists].
  destruct (letter_body (letter w)); by eexists.
Qed.

(** With the output files opened for reading, the letter of a recipient
    is never written: the loop body raises and leaves the files alone. *)
Lemma merger_letter_for_raises (w : world) (recipient : string) :
  exists e, letter_for ModeR recipient w = Raised e w.
Proof.
  unfold letter_for, try_except_FileNotFoundError. run_step.
  destruct (py_open _ ModeR w) as [h w'| | | |] eqn:Hopen;
    unfold py_open in Hopen; destruct (fs w !! _) eqn:Hplain; simplify_eq.
  - destruct (write_personalized_R w' (mail_path_1 (output_directory (letter w')) recipient)
                recipient) as [e ->].
    destruct (write_personalized_R w' (mail_path (output_directory (letter w')) recipient)
                recipient) as [e' ->].
    destruct e; by eexists.
  - apply write_personalized_R.
Qed.

(** C5.  The two copies are not equivalent.  For one recipient and an
    empty folder, EduMerge.py writes Bob's letter and returns; merger.py
    stops on [FileNotFoundError] with no file written. *)
Theorem merger_generate_diverges :
  (exists w',
      generate_personalized_letters (ready_to_generate ∅ "Hi [name]" ["Bob"])
        = Returned tt w' /\
      fs w' = {[ "out/Bob's Mail.txt" := TextFile "Hi Bob" ]}) /\
  (exists w',
      Merger.generate_personalized_letters (ready_to_generate ∅ "Hi [name]" ["Bob"])
        = Raised (FileNotFoundError "out/Bob's Mail.txt") w' /\
      fs w' = ∅).
Proof.
  split; eexists; (split; [vm_compute; reflexivity|]); vm_compute; reflexivity.
Qed.

Lemma bind_Raised {A B} (m : M A) (k : A -> M B) (w w' : world) (e : exn) :
  m w = Raised e w' -> (m ≫= k) w = Raised e w'.
Proof. intros H. unfold mbind, M_mbind, M_bind. by rewrite H. Qed.

Lemma merger_for_each_raises (l : list string) (w : world) :
  l <> [] -> exists e, for_each l (letter_for ModeR) w = Raised e w.
Proof.
  destruct l as [|r l]; [done|]. intros _.
  destruct (merger_letter_for_raises w r) as [e He]. exists e.
  unfold for_each; fold (@for_each string). by apply bind_Raised.
Qed.

(** Both copies start alike: two dialogs, then the loop. *)
Lemma generate_letters_with_start (mode : open_mode) (w : world) (b1 : option string)
    (directory : string) (rest : list response) :
  script w = Clicked b1 :: PathChosen directory :: rest ->
  exists w0,
    fs w0 = fs w /\ name_manager w0 = name_manager w /\
    generate_letters_with mode w =
      (for_each (recipient_names (name_manager w)) (letter_for mode);;
       CustomBox ["Exit"] "Your Mail Merge was successful, congratulations!";;
       open_folder) w0.
Proof.
  intros Hs. eexists. split; [|split]; cycle 2.
  - unfold generate_letters_with.
    step_with CustomBox_run. step_with filedialog_run. pure_steps. reflexivity.
  - done.
  - done.
Qed.

(** Whenever merger.py's copy has a recipient to write for, it raises,
    and the files are as before. *)
Lemma merger_generate_never_writes (w : world) (b1 : option string) (directory : string)
    (rest : list response) :
  script w = Clicked b1 :: PathChosen directory :: rest ->
  recipient_names (name_manager w) <> [] ->
  exists e w', Merger.generate_personalized_letters w = Raised e w' /\ fs w' = fs w.
Proof.
  intros Hs Hnames. unfold Merger.generate_personalized_letters.
  destruct (generate_letters_with_start ModeR w b1 directory rest Hs) as (w0 & Hfs & _ & ->).
  destruct (merger_for_each_raises _ w0 Hnames) as [e He].
  exists e, w0. split; [|done]. by apply bind_Raised.
Qed.

(** ** Names *)

(** The two [replace] calls of the name test delete the spaces and the
    hyphens. *)
Lemma replace_spaces_hyphens (s : string) :
  PyStr.replace (PyStr.replace s " " "") "-" "" = spec_delete_spaces_and_hyphens s.
Proof.
  induction s as [|c s IH]; [done|].
  rewrite replace_char_by_nothing. cbn [spec_delete_spaces_and_hyphens].
  destruct (Ascii.eqb_spec " " c) as [<- | Hsp]; [done|].
  rewrite replace_char_by_nothing, IH.
  replace (Ascii.eqb c " ") with false by (symmetry; apply Ascii.eqb_neq; congruence).
  rewrite (Ascii.eqb_sym c "-"). simpl. by destruct (Ascii.eqb "-" c).
Qed.

Lemma all_chars_spec (p : ascii -> bool) (s : string) :
  PyStr.all_chars p s = true <-> forall c, In c (list_ascii_of_string s) -> p c = true.
Proof.
  induction s as [|a s IH]; simpl.
  - split; [intros _ c [] | done].
  - rewrite andb_true_iff, IH. split.
    + intros [Ha Hs] c [<- | Hc]; auto.
    + intros H. split; [apply H; by left | intros c Hc; apply H; by right].
Qed.

(** [isalpha]: not empty, and letters only. *)
Lemma isalpha_spec (s : string) :
  PyStr.isalpha s = true <-> s <> "" /\ spec_only_alphabetic s.
Proof.
  unfold spec_only_alphabetic. rewrite <- all_chars_spec. destruct s; simpl.
  - split; [done | by intros [? _]].
  - split; [by intros H | by intros [_ H]].
Qed.

Lemma name_is_valid_spec (entered_name : string) :
  name_is_valid entered_name = true <->
  spec_delete_spaces_and_hyphens entered_name <> "" /\
  spec_only_alphabetic (spec_delete_spaces_and_hyphens entered_name).
Proof. unfold name_is_valid. by rewrite replace_spaces_hyphens, isalpha_spec. Qed.

Lemma StringBox_run (buttons : list string) (text : string) (w : world)
    (result : option string) (choice : string) (rest : list response) :
  script w = StringEntered result choice :: rest ->
  StringBox buttons text w =
  Returned (result, choice)
    (with_script rest (with_shown (shown w ++ [ShownBox "StringBox" buttons text]) w)).
Proof. intros Hs. unfold StringBox. run_step. by rewrite Hs. Qed.

#[global] Arguments StringBox : simpl never.
#[global] Arguments collect_one_name : simpl never.
#[global] Arguments name_is_valid : simpl never.




(** ** Names from a file *)

Lemma ask_name_file_run (fuel : nat) (w : world) (path : string) (rest : list response) :
  script w = PathChosen path :: rest -> path <> "" ->
  ask_name_file (S fuel) w =
  Returned tt
    (with_name_manager (set_names_file_location path (set_names_file_location "" (name_manager w)))
       (with_script rest
          (with_shown (shown w ++ [ShownFileDialog "askopenfilename" "Select the names text file"])
             (with_name_manager (set_names_file_location "" (name_manager w)) w)))).
Proof.
  intros Hs Hpath. unfold ask_name_file. pure_steps. step_with filedialog_run. pure_steps.
  apply String.eqb_neq in Hpath. by rewrite Hpath.
Qed.

Lemma read_names_file_run (w : world) (path raw : string) :
  fs w !! path = Some (TextFile raw) ->
  try_except_Exception
    (names_file ← py_open path ModeR;
     names_content ← py_read names_file;
     mret (inr names_content))
    (fun e => mret (inl e)) w
  = Returned (inr (universal_newlines raw) : exn + string) w.
Proof.
  intros Hf. unfold try_except_Exception.
  erewrite bind_Returned; [|by eapply py_open_R_run].
  erewrite bind_Returned; [|by eapply py_read_run]. done.
Qed.

#[global] Arguments ask_name_file : simpl never.
#[global] Arguments names_text_file_processing : simpl never.
#[global] Arguments try_except_Exception : simpl never.

Lemma names_text_file_processing_step (callback : M unit) (fuel : nat) (w : world)
    (path raw : string) (rest : list response) :
  script w = PathChosen path :: rest -> path <> "" ->
  fs w !! path = Some (TextFile raw) ->
  exists w1,
    fs w1 = fs w /\ script w1 = rest /\
    recipient_names (name_manager w1) = recipient_names (name_manager w) /\
    names_text_file_processing callback (S (S fuel)) w =
      (if negb (PyStr.contains ", " (universal_newlines raw))
       then
         Messagebox_show_warning "Mail Merge" (Msg "Please enter the names separated by comma.");;
         names_text_file_processing callback (S fuel)
       else self_nm (set_recipient_names (PyStr.split (universal_newlines raw) ", "))) w1.
Proof.
  intros Hs Hpath Hf. eexists. split; [|split; [|split]]; cycle 3.
  - unfold names_text_file_processing at 1; fold names_text_file_processing.
    step_with ask_name_file_run. pure_steps.
    step_with read_names_file_run. reflexivity.
  - done.
  - done.
  - done.
Qed.

(** C4.  A names file is taken when its content holds the delimiter
    [", "]: the recipient list is the content split at the delimiter, and
    for the content [Alice, Bob, Carol] it is Alice, Bob, Carol.  A content
    without the delimiter is rejected with a warning: the recipient list
    stays as it was and the method starts over, asking for a file again. *)
Theorem names_text_file_processing_import (callback : M unit) (fuel : nat) (w : world)
    (path raw : string) (rest : list response) :
  script w = PathChosen path :: rest -> path <> "" ->
  fs w !! path = Some (TextFile raw) ->
  let content := universal_newlines raw in
  (spec_substring ", " content ->
     exists w', names_text_file_processing callback (S (S fuel)) w = Returned tt w' /\
       recipient_names (name_manager w') = PyStr.split content ", " /\
       script w' = rest) /\
  (~ spec_substring ", " content ->
     exists w', names_text_file_processing callback (S (S fuel)) w =
                  names_text_file_processing callback (S fuel) w' /\
       recipient_names (name_manager w') = recipient_names (name_manager w) /\
       fs w' = fs w /\ script w' = rest /\
       last (shown w') =
         Some (ShownMessage "warning" "Mail Merge"
                 (Msg "Please enter the names separated by comma."))) /\
  PyStr.split "Alice, Bob, Carol" ", " = ["Alice"; "Bob"; "Carol"].
Proof.
  intros Hs Hpath Hf content.
  destruct (names_text_file_processing_step callback fuel w path raw rest Hs Hpath Hf)
    as (w1 & Hfs & Hscript & Hnames & Hrun).
  fold content in Hrun. split; [|split].
  - intros Hin. apply contains_spec in Hin. rewrite Hin in Hrun. simpl in Hrun.
    eexists. split; [exact Hrun|]. by simpl.
  - intros Hout. rewrite <- contains_spec in Hout. apply not_true_is_false in Hout.
    rewrite Hout in Hrun. simpl in Hrun. eexists. split; [exact Hrun|].
    simpl. repeat split; try done. by rewrite last_snoc.
  - vm_compute. reflexivity.
Qed.

(** The file of the specification's example is chosen. *)
Lemma names_text_file_processing_import_witness :
  exists w',
    names_text_file_processing (mret tt) 2
      (world_init {[ "names.txt" := TextFile "Alice, Bob, Carol" ]} [PathChosen "names.txt"])
      = Returned tt w' /\
    recipient_names (name_manager w') = ["Alice"; "Bob"; "Carol"].
Proof.
  destruct (names_text_file_processing_import (mret tt) 0
              (world_init {[ "names.txt" := TextFile "Alice, Bob, Carol" ]}
                 [PathChosen "names.txt"])
              "names.txt" "Alice, Bob, Carol" [] eq_refl)
    as (Haccept & _ & Hsplit); [discriminate | vm_compute; reflexivity |].
  destruct Haccept as (w' & Hrun & Hnames & _).
  { apply contains_spec. vm_compute. reflexivity. }
  exists w'. split; [exact Hrun|]. rewrite Hnames. exact Hsplit.
Defined.

(** ** The number of recipients *)

Lemma bind_Returned_inv {A B} (m : M A) (k : A -> M B) (w w' : world) (b : B) :
  (m ≫= k) w = Returned b w' -> exists a w1, m w = Returned a w1 /\ k a w1 = Returned b w'.
Proof.
  unfold mbind, M_mbind, M_bind. destruct (m w) as [a w1| | | |]; try done. by exists a, w1.
Qed.

Lemma IntBox_run (buttons : list string) (text : string) (w : world)
    (result : option Z) (choice : string) (rest : list response) :
  script w = IntEntered result choice :: rest ->
  IntBox buttons text w =
  Returned (result, choice)
    (with_script rest (with_shown (shown w ++ [ShownBox "IntBox" buttons text]) w)).
Proof. intros Hs. unfold IntBox. run_step. by rewrite Hs. Qed.

#[global] Arguments IntBox : simpl never.
#[global] Arguments exit_confirmation : simpl never.
#[global] Arguments ask_recipient_count : simpl never.
#[global] Arguments collect_names_manually : simpl never.

Lemma ask_recipient_count_returns (fuel : nat) (w w' : world) :
  ask_recipient_count fuel w = Returned tt w' ->
  exists n, total_recipients (name_manager w') = Some n /\ 2 <= n.
Proof.
  revert w. induction fuel as [|fuel IH]; intros w; [done|].
  unfold ask_recipient_count; fold ask_recipient_count. pure_steps.
  intros H.
  apply bind_Returned_inv in H as ([result choice] & w1 & Hbox & H). cbv beta iota in H.
  revert H. pure_steps. intros H.
  apply bind_Returned_inv in H as ([] & w2 & Hexit & H).
  revert H. pure_steps.
  destruct (total_recipients (name_manager w2)) as [total|] eqn:Htotal; [|done].
  destruct (2 <=? total) eqn:Hle.
  - intros H. unfold mret, M_mret, M_ret in H. simplify_eq.
    exists total. split; [done|]. by apply Z.leb_le.
  - apply IH.
Qed.

(** An answer of two or more ends the question. *)
Lemma ask_recipient_count_accepts (fuel : nat) (w : world) (n : Z) (choice : string)
    (rest : list response) :
  script w = IntEntered (Some n) choice :: rest -> choice <> "Exit" -> 2 <= n ->
  exists w', ask_recipient_count (S fuel) w = Returned tt w' /\
    total_recipients (name_manager w') = Some n /\ script w' = rest.
Proof.
  intros Hs Hchoice Hn. apply String.eqb_neq in Hchoice. apply Z.leb_le in Hn.
  eexists. split.
  - unfold ask_recipient_count; fold ask_recipient_count. pure_steps.
    step_with IntBox_run. pure_steps. rewrite Hchoice. pure_steps. simpl.
    rewrite Hn. reflexivity.
  - by simpl.
Qed.

(** C10.  When [ask_recipient_count] returns, the recipient count it
    stored is a number, at least 2; in [name_collection], where
    [collect_names_manually] comes next, manual collection starts in that
    state. *)
Theorem ask_recipient_count_at_least_two (fuel fuel' : nat) (w w' : world) :
  ask_recipient_count fuel w = Returned tt w' ->
  (exists n, total_recipients (name_manager w') = Some n /\ 2 <= n) /\
  (ask_recipient_count fuel;; collect_names_manually fuel') w
    = collect_names_manually fuel' w'.
Proof.
  intros Hrun. split; [by eapply ask_recipient_count_returns|].
  exact (bind_Returned _ (fun _ => collect_names_manually fuel') w w' tt Hrun).
Qed.

(** The user asks for one recipient, then for three. *)
Lemma ask_recipient_count_at_least_two_witness :
  exists w',
    ask_recipient_count 2
      (world_init ∅ [IntEntered (Some 1) "Continue"; IntEntered (Some 3) "Continue"])
      = Returned tt w' /\
    exists n, total_recipients (name_manager w') = Some n /\ 2 <= n.
Proof.
  destruct (ask_recipient_count 2
              (world_init ∅ [IntEntered (Some 1) "Continue"; IntEntered (Some 3) "Continue"]))
    as [[] w'| | | |] eqn:Hrun; try (vm_compute in Hrun; discriminate).
  exists w'. split; [reflexivity|].
  exact (proj1 (ask_recipient_count_at_least_two 2 0 _ w' Hrun)).
Defined.

(** ** The editor: plain text *)

Lemma universal_newlines_cons (c : ascii) (s : string) :
  c <> CR -> universal_newlines (String c s) = String c (universal_newlines s).
Proof.
  intros Hc. unfold universal_newlines; fold universal_newlines.
  apply Ascii.eqb_neq in Hc. by rewrite Hc.
Qed.

(** Text without carriage returns is read back as it is. *)
Lemma universal_newlines_id (s : string) :
  ~ In CR (list_ascii_of_string s) -> universal_newlines s = s.
Proof.
  induction s as [|c s IH]; intros Hno; [done|].
  simpl in Hno. rewrite universal_newlines_cons; [|intros ->; apply Hno; by left].
  rewrite IH; [done|]. intros Hin. apply Hno. by right.
Qed.

(** What is read never holds a carriage return. *)
Lemma universal_newlines_no_CR (s : string) :
  ~ In CR (list_ascii_of_string (universal_newlines s)).
Proof.
  remember (String.length s) as n eqn:Hn. revert s Hn.
  induction n as [n IH] using lt_wf_ind. intros s ->.
  destruct s as [|c s]; [by intros []|].
  unfold universal_newlines; fold universal_newlines.
  destruct (Ascii.eqb_spec c CR) as [-> | Hc].
  - destruct s as [|c' s].
    + intros [H | []]. discriminate.
    + destruct (Ascii.eqb c' LF).
      * intros [H | H]; [discriminate|]. revert H. eapply IH; [|reflexivity]. simpl. lia.
      * intros [H | H]; [discriminate|]. revert H. eapply IH; [|reflexivity]. simpl. lia.
  - intros [H | H]; [by apply Hc|]. revert H. eapply IH; [|reflexivity]. simpl. lia.
Qed.

Lemma try_except_Exception_Returned {A} (body : M A) (handler : exn -> M A)
    (w w' : world) (a : A) :
  body w = Returned a w' -> try_except_Exception body handler w = Returned a w'.
Proof. intros H. unfold try_except_Exception. by rewrite H. Qed.

Lemma py_open_W_run (path : string) (w : world) :
  py_open path ModeW w =
  Returned (mkHandle path ModeW) (with_fs (<[path := TextFile ""]> (fs w)) w).
Proof. done. Qed.

Lemma py_write_run (path chars text : string) (w : world) :
  fs w !! path = Some (TextFile chars) ->
  py_write (mkHandle path ModeW) text w =
  Returned tt (with_fs (<[path := TextFile (chars +:+ text)]> (fs w)) w).
Proof. intros Hf. unfold py_write. simpl. by rewrite Hf. Qed.

#[global] Arguments save_file_to : simpl never.
#[global] Arguments save_file : simpl never.
#[global] Arguments open_file : simpl never.
#[global] Arguments open_csv : simpl never.
#[global] Arguments basename : simpl never.
#[global] Arguments splitext_ext : simpl never.
#[global] Arguments lower : simpl never.

(** Saving a buffer that is neither a table nor a Word document writes
    its characters to the file. *)
Lemma save_file_text (w : world) (name : string) :
  filename (editor w) = Some name -> name <> "" ->
  current_file_type (editor w) <> "csv" -> current_file_type (editor w) <> "docx" ->
  exists w1, save_file w = Returned tt w1 /\
    fs w1 = <[name := TextFile (text_area (editor w))]> (fs w) /\
    script w1 = script w /\
    text_area (editor w1) = text_area (editor w).
Proof.
  intros Hname Hne Hcsv Hdocx.
  apply String.eqb_neq in Hne, Hcsv, Hdocx.
  eexists. split.
  - unfold save_file. pure_steps. rewrite Hname, Hne. unfold save_file_to.
    apply try_except_Exception_Returned. pure_steps. rewrite Hcsv, Hdocx.
    rewrite bind_assoc. step_with py_open_W_run.
    erewrite bind_Returned; [|apply py_write_run; simpl; apply lookup_insert_eq].
    pure_steps. reflexivity.
  - simpl. rewrite insert_insert_eq. done.
Qed.

(** Opening a file that is neither a table, a Word document nor a PDF
    puts what is read from it into the text widget. *)
Lemma open_file_text (w : world) (name raw : string) (rest : list response) :
  script w = PathChosen name :: rest -> name <> "" ->
  lower (splitext_ext name) <> ".csv" ->
  lower (splitext_ext name) <> ".docx" ->
  lower (splitext_ext name) <> ".pdf" ->
  fs w !! name = Some (TextFile raw) ->
  exists w2, open_file w = Returned tt w2 /\
    text_area (editor w2) = universal_newlines raw /\
    fs w2 = fs w /\ script w2 = rest.
Proof.
  intros Hs Hne Hcsv Hdocx Hpdf Hf.
  apply String.eqb_neq in Hne, Hcsv, Hdocx, Hpdf.
  eexists. split.
  - unfold open_file. step_with filedialog_run. rewrite Hne. pure_steps.
    cbv zeta. rewrite Hcsv, Hdocx, Hpdf.
    erewrite bind_Returned; cycle 1.
    { apply try_except_Exception_Returned.
      step_with py_open_R_run. step_with py_read_run. pure_steps. reflexivity. }
    pure_steps. reflexivity.
  - simpl. by rewrite app_nil_r_s.
Qed.




(** ** The editor: export to a Word document *)

Lemma split_from_nil (fuel : nat) (sep : string) : PyStr.split_from fuel sep "" = [""].
Proof. by destruct fuel. Qed.

Lemma split_from_enough (n m : nat) (a : ascii) (sep s : string) :
  (String.length s <= n)%nat -> (String.length s <= m)%nat ->
  PyStr.split_from n (String a sep) s = PyStr.split_from m (String a sep) s.
Proof.
  revert m s. induction n as [|n IH]; intros m s Hn Hm.
  - destruct s; simpl in Hn; [|lia]. by rewrite !split_from_nil.
  - destruct m as [|m].
    + destruct s; simpl in Hm; [|lia]. by rewrite !split_from_nil.
    + destruct s as [|c s]; [done|]. simpl in Hn, Hm.
      cbn [PyStr.split_from].
      destruct (PyStr.startswith (String c s) (String a sep)).
      * f_equal. apply IH; cbn [String.length PyStr.drop]; rewrite drop_length; lia.
      * rewrite (IH m s); [done | lia | lia].
Qed.

Lemma split_cons (c a : ascii) (s sep : string) :
  PyStr.split (String c s) (String a sep) =
  if PyStr.startswith (String c s) (String a sep)
  then "" :: PyStr.split (PyStr.drop (String.length sep) s) (String a sep)
  else match PyStr.split s (String a sep) with
       | piece :: rest => String c piece :: rest
       | [] => [String c ""]
       end.
Proof.
  unfold PyStr.split. cbn [String.length PyStr.split_from PyStr.drop].
  destruct (PyStr.startswith _ _).
  - f_equal. apply split_from_enough; rewrite ?drop_length; lia.
  - done.
Qed.

(** Splitting at a character. *)
Lemma split_char_cons (a c : ascii) (s : string) :
  PyStr.split (String c s) (String a "") =
  if Ascii.eqb a c then "" :: PyStr.split s (String a "")
  else match PyStr.split s (String a "") with
       | piece :: rest => String c piece :: rest
       | [] => [String c ""]
       end.
Proof.
  rewrite split_cons. cbn [PyStr.startswith String.length PyStr.drop].
  destruct (Ascii.eqb a c); [|done]. by destruct s.
Qed.

Lemma split_not_nil (s sep : string) : PyStr.split s sep <> [].
Proof.
  unfold PyStr.split. generalize (String.length s) as n. intros n. revert s.
  induction n as [|n IH]; intros s; [done|]. destruct s as [|c s]; [done|].
  cbn [PyStr.split_from]. destruct (PyStr.startswith _ _); [done|].
  by destruct (PyStr.split_from n sep s).
Qed.

Lemma join_cons (sep x : string) (l : list string) :
  l <> [] -> PyStr.join sep (x :: l) = x +:+ sep +:+ PyStr.join sep l.
Proof. by destruct l. Qed.

(** The lines of a text, joined by line feeds, are the text. *)
Lemma join_split_char (a : ascii) (s : string) :
  PyStr.join (String a "") (PyStr.split s (String a "")) = s.
Proof.
  induction s as [|c s IH]; [done|]. rewrite split_char_cons.
  destruct (Ascii.eqb_spec a c) as [-> | Hne].
  - rewrite join_cons by apply split_not_nil. by rewrite IH.
  - pose proof (split_not_nil s (String a "")) as Hnil.
    destruct (PyStr.split s (String a "")) as [|piece rest]; [done|].
    destruct rest as [|piece' rest].
    + simpl in *. by rewrite IH.
    + rewrite join_cons in IH by done. rewrite join_cons by done.
      by rewrite app_cons_s, IH.
Qed.

(** No line holds the separator. *)
Lemma split_char_pieces (a : ascii) (s piece : string) :
  In piece (PyStr.split s (String a "")) -> ~ In a (list_ascii_of_string piece).
Proof.
  revert piece. induction s as [|c s IH]; intros piece.
  - intros [<- | []]. by intros [].
  - rewrite split_char_cons. destruct (Ascii.eqb_spec a c) as [-> | Hne].
    + intros [<- | Hin]; [by intros [] | by apply IH].
    + pose proof (split_not_nil s (String a "")) as Hnil.
      destruct (PyStr.split s (String a "")) as [|first rest]; [done|].
      intros [<- | Hin].
      * simpl. intros [H | H]; [by apply Hne | revert H; apply IH; by left].
      * apply IH. by right.
Qed.

(** ** Blank lines *)

Lemma lstrip_nil_iff (s : string) :
  PyStr.lstrip s = "" <-> PyStr.all_chars PyStr.is_space s = true.
Proof.
  induction s as [|c s IH]; simpl; [done|].
  destruct (PyStr.is_space c); simpl; [done|]. split; discriminate.
Qed.

Lemma lstrip_starts (s : string) :
  match PyStr.lstrip s with
  | "" => True
  | String c _ => PyStr.is_space c = false
  end.
Proof.
  induction s as [|c s IH]; simpl; [done|].
  by destruct (PyStr.is_space c) eqn:Hc.
Qed.

Lemma rstrip_cons_not_nil (c : ascii) (s : string) :
  PyStr.is_space c = false -> PyStr.rstrip (String c s) <> "".
Proof. intros Hc. simpl. rewrite Hc. by destruct (PyStr.rstrip s). Qed.

(** [strip()] is empty exactly on blank lines. *)
Lemma strip_nil_iff (s : string) : PyStr.strip s = "" <-> spec_blank s.
Proof.
  unfold spec_blank. rewrite <- all_chars_spec, <- lstrip_nil_iff. unfold PyStr.strip.
  pose proof (lstrip_starts s) as Hstart. destruct (PyStr.lstrip s) as [|c t]; [done|].
  split; [|discriminate]. intros H. by apply rstrip_cons_not_nil in H.
Qed.

(** The loop appends the lines that are not blank, in their order. *)
Lemma add_lines_filter (doc lines : list string) :
  add_lines doc lines =
  doc ++ List.filter (fun line => negb (String.eqb (PyStr.strip line) "")) lines.
Proof.
  revert doc. induction lines as [|line lines IH]; intros doc; simpl.
  - by rewrite app_nil_r.
  - rewrite IH. destruct (String.eqb (PyStr.strip line) ""); simpl; [done|].
    unfold add_paragraph. by rewrite <- app_assoc.
Qed.


Example save_as_docx_blank_lines :
  exists w',
    save_as_docx "out.docx"
      (editing "draft.txt" ("Title" +:+ String LF (String LF ("  " +:+ String LF "Body"))))
      = Returned tt w' /\
    fs w' !! "out.docx" = Some (DocxFile ["Title"; "Body"]).
Proof. eexists. split; vm_compute; reflexivity. Qed.

(** ** The csv reader on the text a csv writer wrote *)

Section CsvRoundTrip.

Import csv.

Local Abbreviation R self s := (reader_from self (file_lines s)).

Lemma file_lines_not_nil (s : string) : s <> "" -> file_lines s <> [].
Proof.
  destruct s as [|c s]; [done|]. intros _. simpl.
  destruct (Ascii.eqb c LF); [done|]. by destruct (file_lines s).
Qed.

(** A character inside a line. *)
Lemma reader_char (self : ReaderObj) (c : ascii) (s : string) :
  c <> LF -> s <> "" ->
  R self (String c s) =
  match parse_process_char self (Some c) with
  | None => None
  | Some self' => R self' s
  end.
Proof.
  intros Hc Hs. apply Ascii.eqb_neq in Hc. cbn [file_lines]. rewrite Hc.
  pose proof (file_lines_not_nil s Hs) as Hnil.
  destruct (file_lines s) as [|line rest]; [done|].
  cbn [reader_from parse_line]. by destruct (parse_process_char self (Some c)).
Qed.

(** The line feed that ends a line, and the end of the line after it. *)
Lemma reader_LF (self : ReaderObj) (s : string) :
  R self (String LF s) =
  match parse_process_char self (Some LF) with
  | None => None
  | Some self' =>
      match parse_process_char self' None with
      | None => None
      | Some self'' =>
          match state self'' with
          | START_RECORD => cons (fields self'') <$> R parse_reset s
          | _ => R self'' s
          end
      end
  end.
Proof.
  cbn [file_lines]. change (Ascii.eqb LF LF) with true. cbv iota.
  cbn [reader_from parse_line]. by destruct (parse_process_char self (Some LF)).
Qed.

Lemma app_not_nil_r (a k : string) : k <> "" -> a +:+ k <> "".
Proof. destruct a; [done|]. by rewrite app_cons_s. Qed.

Lemma needs_quoting_false (c : ascii) :
  needs_quoting c = false ->
  Ascii.eqb c delimiter = false /\ Ascii.eqb c quotechar = false /\
  is_newline c = false /\ c <> LF.
Proof.
  unfold needs_quoting, is_newline. intros H.
  apply orb_false_elim in H as [H Hlf]. apply orb_false_elim in H as [H Hcr].
  apply orb_false_elim in H as [Hd Hq]. rewrite Hlf, Hcr. repeat split; try done.
  by apply Ascii.eqb_neq.
Qed.

(** Inside an unquoted field the plain characters pile up. *)
Lemma read_plain (f acc : string) (fs : list string) (k : string) :
  any_char needs_quoting f = false -> k <> "" ->
  R (mkReader IN_FIELD acc fs) (f +:+ k) = R (mkReader IN_FIELD (acc +:+ f) fs) k.
Proof.
  revert acc. induction f as [|c f IH]; intros acc Hf Hk.
  - by rewrite app_nil_r_s.
  - simpl in Hf. apply orb_false_elim in Hf as [Hc Hf].
    apply needs_quoting_false in Hc as (Hd & Hq & Hn & Hlf).
    rewrite app_cons_s, reader_char by (try done; by apply app_not_nil_r).
    unfold parse_process_char. cbn [state]. rewrite Hn, Hd.
    unfold parse_add_char. cbn [state field fields]. rewrite IH by done.
    by rewrite app_assoc_s.
Qed.

(** The first plain character of a field opens it. *)
Lemma read_plain_start (st : ParserState) (c : ascii) (f : string) (fs : list string)
    (k : string) :
  st = START_RECORD \/ st = START_FIELD ->
  any_char needs_quoting (String c f) = false -> k <> "" ->
  R (mkReader st "" fs) (String c f +:+ k) = R (mkReader IN_FIELD (String c f) fs) k.
Proof.
  intros Hst Hf Hk. simpl in Hf. apply orb_false_elim in Hf as [Hc Hf].
  apply needs_quoting_false in Hc as (Hd & Hq & Hn & Hlf).
  rewrite app_cons_s, reader_char by (try done; by apply app_not_nil_r).
  assert (parse_process_char (mkReader st "" fs) (Some c)
          = Some (mkReader IN_FIELD (String c "") fs)) as ->.
  { unfold parse_process_char. cbn [state]. rewrite Hn, Hq, Hd. by destruct Hst as [-> | ->]. }
  by rewrite read_plain.
Qed.

Lemma quotechar_not_LF : quotechar <> LF.
Proof. done. Qed.

Lemma delimiter_not_LF : delimiter <> LF.
Proof. done. Qed.

(** Inside a quoted field: a doubled quote is one quote, a line feed is
    kept and the field goes on with the next line. *)
Lemma read_quoted (f acc : string) (fs : list string) (k : string) :
  ~ In CR (list_ascii_of_string f) -> k <> "" ->
  R (mkReader IN_QUOTED_FIELD acc fs) (double_quotes f +:+ String quotechar k)
  = R (mkReader QUOTE_IN_QUOTED_FIELD (acc +:+ f) fs) k.
Proof.
  revert acc. induction f as [|c f IH]; intros acc Hcr Hk.
  - rewrite app_nil_r_s. cbn [double_quotes]. rewrite app_nil_l_s.
    rewrite reader_char by (try done; apply quotechar_not_LF).
    unfold parse_process_char. cbn [state]. by rewrite Ascii.eqb_refl.
  - assert (c <> CR) as Hc by (intros ->; apply Hcr; by left).
    assert (~ In CR (list_ascii_of_string f)) as Hcr' by (intros H; apply Hcr; by right).
    assert (double_quotes f +:+ String quotechar k <> "") as Hrest
      by (by apply app_not_nil_r).
    cbn [double_quotes]. destruct (Ascii.eqb_spec c quotechar) as [-> | Hq].
    + rewrite !app_cons_s.
      rewrite reader_char by (try done; apply quotechar_not_LF).
      unfold parse_process_char at 1. cbn [state]. rewrite Ascii.eqb_refl.
      unfold set_state. cbn [field fields].
      rewrite reader_char by (try done; apply quotechar_not_LF).
      unfold parse_process_char at 1. cbn [state]. rewrite Ascii.eqb_refl.
      unfold set_state, parse_add_char. cbn [state field fields].
      rewrite IH by done. by rewrite app_assoc_s.
    + apply Ascii.eqb_neq in Hq. rewrite app_cons_s.
      destruct (Ascii.eqb_spec c LF) as [-> | Hlf].
      * rewrite reader_LF. unfold parse_process_char. cbn [state]. rewrite Hq.
        unfold parse_add_char. cbn [state field fields].
        rewrite IH by done. by rewrite app_assoc_s.
      * rewrite reader_char by done. unfold parse_process_char. cbn [state]. rewrite Hq.
        unfold parse_add_char. cbn [state field fields].
        rewrite IH by done. by rewrite app_assoc_s.
Qed.

(** The delimiter ends a field. *)
Lemma read_delimiter_after (st : ParserState) (acc : string) (fs : list string) (k : string) :
  st = IN_FIELD \/ st = QUOTE_IN_QUOTED_FIELD -> k <> "" ->
  R (mkReader st acc fs) (String delimiter k) = R (mkReader START_FIELD "" (fs ++ [acc])) k.
Proof.
  intros Hst Hk. rewrite reader_char by (try done; apply delimiter_not_LF).
  by destruct Hst as [-> | ->].
Qed.

Lemma read_delimiter_empty (st : ParserState) (fs : list string) (k : string) :
  st = START_RECORD \/ st = START_FIELD -> k <> "" ->
  R (mkReader st "" fs) (String delimiter k) = R (mkReader START_FIELD "" (fs ++ [""])) k.
Proof.
  intros Hst Hk. rewrite reader_char by (try done; apply delimiter_not_LF).
  by destruct Hst as [-> | ->].
Qed.

(** The line feed ends a field and the record. *)
Lemma read_LF_after (st : ParserState) (acc : string) (fs : list string) (t : string) :
  st = IN_FIELD \/ st = QUOTE_IN_QUOTED_FIELD ->
  R (mkReader st acc fs) (String LF t) = cons (fs ++ [acc]) <$> R parse_reset t.
Proof. intros Hst. rewrite reader_LF. by destruct Hst as [-> | ->]. Qed.

Lemma read_LF_empty_field (fs : list string) (t : string) :
  R (mkReader START_FIELD "" fs) (String LF t) = cons (fs ++ [""]) <$> R parse_reset t.
Proof. by rewrite reader_LF. Qed.

Lemma read_LF_empty_record (t : string) :
  R parse_reset (String LF t) = cons [] <$> R parse_reset t.
Proof. by rewrite reader_LF. Qed.

(** The opening quote of a quoted field. *)
Lemma read_open_quote (st : ParserState) (fs : list string) (k : string) :
  st = START_RECORD \/ st = START_FIELD -> k <> "" ->
  R (mkReader st "" fs) (String quotechar k) = R (mkReader IN_QUOTED_FIELD "" fs) k.
Proof.
  intros Hst Hk. rewrite reader_char by (try done; apply quotechar_not_LF).
  by destruct Hst as [-> | ->].
Qed.

(** A written field is read back, up to the point after it. *)
Lemma read_field (st : ParserState) (f : string) (fs : list string) (k : string) :
  st = START_RECORD \/ st = START_FIELD ->
  ~ In CR (list_ascii_of_string f) -> k <> "" ->
  R (mkReader st "" fs) (join_append f +:+ k) =
  if any_char needs_quoting f then R (mkReader QUOTE_IN_QUOTED_FIELD f fs) k
  else match f with
       | "" => R (mkReader st "" fs) k
       | String _ _ => R (mkReader IN_FIELD f fs) k
       end.
Proof.
  intros Hst Hcr Hk. unfold join_append.
  destruct (any_char needs_quoting f) eqn:Hq.
  - rewrite app_cons_s, app_assoc_s, app_cons_s, app_nil_l_s.
    rewrite read_open_quote by (try done; by apply app_not_nil_r).
    by rewrite read_quoted.
  - destruct f as [|c f]; [done|]. by rewrite read_plain_start.
Qed.

Lemma read_field_then_delimiter (st : ParserState) (f : string) (fs : list string)
    (k : string) :
  st = START_RECORD \/ st = START_FIELD ->
  ~ In CR (list_ascii_of_string f) -> k <> "" ->
  R (mkReader st "" fs) (join_append f +:+ String delimiter k)
  = R (mkReader START_FIELD "" (fs ++ [f])) k.
Proof.
  intros Hst Hcr Hk. rewrite read_field by done.
  destruct (any_char needs_quoting f).
  - rewrite read_delimiter_after; auto.
  - destruct f.
    + by rewrite read_delimiter_empty.
    + rewrite read_delimiter_after; auto.
Qed.

Lemma read_field_then_LF (st : ParserState) (f : string) (fs : list string) (t : string) :
  st = START_RECORD \/ st = START_FIELD ->
  ~ In CR (list_ascii_of_string f) ->
  ~ (st = START_RECORD /\ f = "") ->
  R (mkReader st "" fs) (join_append f +:+ String LF t)
  = cons (fs ++ [f]) <$> R parse_reset t.
Proof.
  intros Hst Hcr Hne. rewrite read_field by done.
  destruct (any_char needs_quoting f).
  - rewrite read_LF_after; auto.
  - destruct f.
    + destruct Hst as [-> | ->]; [by destruct Hne|]. apply read_LF_empty_field.
    + rewrite read_LF_after; auto.
Qed.

(** A written record, not empty, is read back. *)
Lemma read_row (row : list string) (st : ParserState) (fs : list string) (t : string) :
  row <> [] ->
  st = START_RECORD \/ st = START_FIELD ->
  (forall f, In f row -> ~ In CR (list_ascii_of_string f)) ->
  (st = START_RECORD -> row <> [""]) ->
  R (mkReader st "" fs) (PyStr.join (String delimiter "") (join_append <$> row) +:+ String LF t)
  = cons (fs ++ row) <$> R parse_reset t.
Proof.
  revert st fs. induction row as [|f row IH]; intros st fs Hnil Hst Hcr Hone; [done|].
  destruct row as [|g row].
  - cbn [fmap list_fmap PyStr.join]. apply read_field_then_LF; [done | apply Hcr; by left |].
    intros [-> ->]. by apply Hone.
  - rewrite fmap_cons. rewrite join_cons by done.
    rewrite !app_assoc_s, app_cons_s, app_nil_l_s.
    rewrite read_field_then_delimiter;
      [| done | apply Hcr; by left | by apply app_not_nil_r].
    rewrite IH; [| done | by right | intros f' Hf'; apply Hcr; by right | done].
    by rewrite <- app_assoc.
Qed.

(** Reading in text mode: text without carriage returns passes as it is,
    and the line terminator of the writer becomes a line feed. *)
Lemma universal_newlines_app (s t : string) :
  ~ In CR (list_ascii_of_string s) ->
  universal_newlines (s +:+ t) = s +:+ universal_newlines t.
Proof.
  induction s as [|c s IH]; intros Hcr; [done|].
  rewrite !app_cons_s, universal_newlines_cons by (intros ->; apply Hcr; by left).
  rewrite IH; [done|]. intros H. apply Hcr. by right.
Qed.

Lemma universal_newlines_lineterminator (t : string) :
  universal_newlines (lineterminator +:+ t) = String LF (universal_newlines t).
Proof. done. Qed.

Lemma no_CR_app (a b : string) :
  ~ In CR (list_ascii_of_string a) -> ~ In CR (list_ascii_of_string b) ->
  ~ In CR (list_ascii_of_string (a +:+ b)).
Proof. intros Ha Hb. rewrite to_list_app, in_app_iff. tauto. Qed.

Lemma no_CR_double_quotes (f : string) :
  ~ In CR (list_ascii_of_string f) -> ~ In CR (list_ascii_of_string (double_quotes f)).
Proof.
  induction f as [|c f IH]; intros Hcr; [done|]. cbn [double_quotes].
  assert (~ In CR (list_ascii_of_string (double_quotes f))) as IH'
    by (apply IH; intros H; apply Hcr; by right).
  destruct (Ascii.eqb_spec c quotechar) as [-> | Hq]; simpl.
  - intros [H | [H | H]]; done.
  - intros [H | H]; [|done]. apply Hcr. by left.
Qed.

Lemma no_CR_join_append (f : string) :
  ~ In CR (list_ascii_of_string f) -> ~ In CR (list_ascii_of_string (join_append f)).
Proof.
  intros Hcr. unfold join_append. destruct (any_char needs_quoting f); [|done].
  simpl. intros [H | H]; [done|]. revert H. apply no_CR_app.
  - by apply no_CR_double_quotes.
  - simpl. intros [H | []]. done.
Qed.

Lemma no_CR_row (row : list string) :
  (forall f, In f row -> ~ In CR (list_ascii_of_string f)) ->
  ~ In CR (list_ascii_of_string (PyStr.join (String delimiter "") (join_append <$> row))).
Proof.
  induction row as [|f row IH]; intros Hcr; [by intros []|].
  destruct row as [|g row].
  - cbn [fmap list_fmap PyStr.join]. apply no_CR_join_append, Hcr. by left.
  - rewrite fmap_cons, join_cons by done. apply no_CR_app.
    + apply no_CR_join_append, Hcr. by left.
    + rewrite app_cons_s, app_nil_l_s. simpl. intros [H | H]; [done|]. revert H.
      apply IH. intros f' Hf'. apply Hcr. by right.
Qed.

(** A written record, read in text mode, is the first record read. *)
Lemma read_writerow (row : list string) (t : string) :
  (forall f, In f row -> ~ In CR (list_ascii_of_string f)) ->
  R parse_reset (universal_newlines (writerow row +:+ t))
  = cons row <$> R parse_reset (universal_newlines t).
Proof.
  intros Hcr.
  assert (writerow row = PyStr.join (String delimiter "") (join_append <$> row) +:+ lineterminator
          /\ row <> [""] \/
          row = [""] /\ writerow row = String quotechar (String quotechar lineterminator))
    as Hcases.
  { destruct row as [|[|c f] [|g row]]; simpl; auto; left; split; done. }
  destruct Hcases as [[Hw Hone] | [-> Hw]]; rewrite Hw.
  - rewrite app_assoc_s, universal_newlines_app by (by apply no_CR_row).
    rewrite universal_newlines_lineterminator.
    destruct row as [|f row].
    + cbn [fmap list_fmap PyStr.join]. rewrite app_nil_l_s. apply read_LF_empty_record.
    + rewrite (read_row (f :: row) START_RECORD []); try done. by left.
  - rewrite !app_cons_s.
    rewrite !universal_newlines_cons by done.
    rewrite universal_newlines_lineterminator.
    rewrite (read_open_quote START_RECORD []) by (try done; by left).
    rewrite reader_char by (try done; apply quotechar_not_LF).
    unfold parse_process_char. cbn [state]. rewrite Ascii.eqb_refl.
    unfold set_state. cbn [field fields].
    rewrite read_LF_after; auto.
Qed.

(** What the writer wrote is what the reader reads. *)
Lemma reader_writerows (rows : list (list string)) :
  (forall row f, In row rows -> In f row -> ~ In CR (list_ascii_of_string f)) ->
  reader (file_lines (universal_newlines (writerows rows))) = Some rows.
Proof.
  unfold reader. induction rows as [|row rows IH]; intros Hcr; [done|].
  cbn [writerows]. rewrite read_writerow by (intros f; apply Hcr; by left).
  rewrite IH; [done|]. intros row' f Hrow'. apply Hcr. by right.
Qed.

End CsvRoundTrip.

(** ** The csv reader on the lines of a text file *)

Section CsvReaderTotal.

Import csv.

Lemma no_CR_snoc (s : string) (c : ascii) : no_CR s -> c <> CR -> no_CR (s +:+ String c "").
Proof.
  unfold no_CR. intros Hs Hc. rewrite to_list_app, in_app_iff. simpl. intros [H | [H | []]]; auto.
Qed.

Lemma clean_save_field (self : ReaderObj) : clean self -> clean (parse_save_field self).
Proof.
  intros [Hf Hfs]. split; [by intros []|]. simpl. apply Forall_app. split; [done|].
  by constructor.
Qed.

Lemma clean_add_char (self : ReaderObj) (c : ascii) :
  clean self -> c <> CR -> clean (parse_add_char c self).
Proof. intros [Hf Hfs] Hc. split; [by apply no_CR_snoc | done]. Qed.

Lemma clean_set_state (self : ReaderObj) (st : ParserState) :
  clean self -> clean (set_state st self).
Proof. done. Qed.

Local Hint Resolve clean_save_field clean_add_char clean_set_state : core.

(** The end of a line is always taken, and leaves the parser at the
    start of a record or inside a quoted field. *)
Lemma parse_end_of_line (self : ReaderObj) :
  exists self', parse_process_char self None = Some self' /\
    state self' <> EAT_CRNL /\ (clean self -> clean self').
Proof.
  destruct self as [st f fs]. destruct st; simpl; eexists; (split; [reflexivity|]);
    split; try done; auto.
Qed.

(** A character is always taken, unless the parser is skipping the rest
    of a line. *)
Lemma parse_char (self : ReaderObj) (c : ascii) :
  state self <> EAT_CRNL -> c <> CR ->
  exists self', parse_process_char self (Some c) = Some self' /\
    (is_newline c = false -> state self' <> EAT_CRNL) /\ (clean self -> clean self').
Proof.
  intros Hst Hc. destruct self as [st f fs]. unfold parse_process_char. cbn [state].
  destruct st; try done;
    destruct (is_newline c), (Ascii.eqb c quotechar), (Ascii.eqb c delimiter);
    eexists; (split; [reflexivity|]); split; try done; auto.
Qed.

Lemma is_newline_false (c : ascii) : c <> CR -> c <> LF -> is_newline c = false.
Proof.
  intros Hcr Hlf. unfold is_newline. apply Ascii.eqb_neq in Hcr, Hlf. by rewrite Hcr, Hlf.
Qed.

(** A line of a text file is always taken. *)
Lemma parse_line_total (line : string) (self : ReaderObj) :
  text_line line -> state self <> EAT_CRNL ->
  exists self', parse_line self line = Some self' /\
    state self' <> EAT_CRNL /\ (clean self -> clean self').
Proof.
  revert self. induction line as [|c rest IH]; intros self Hline Hst.
  - apply parse_end_of_line.
  - destruct Hline as (Hcr & Hlast & Hrest). cbn [parse_line].
    destruct (parse_char self c Hst Hcr) as (self1 & -> & Hst1 & Hclean1).
    destruct (Ascii.eqb_spec c LF) as [-> | Hlf].
    + rewrite (Hlast eq_refl). cbn [parse_line].
      destruct (parse_end_of_line self1) as (self2 & -> & Hst2 & Hclean2).
      exists self2. split; [done|]. split; [done|]. auto.
    + destruct (IH self1 Hrest) as (self2 & -> & Hst2 & Hclean2).
      { apply Hst1. by apply is_newline_false. }
      exists self2. split; [done|]. split; [done|]. auto.
Qed.

(** The lines of a text without carriage returns. *)
Lemma file_lines_text_line (s : string) :
  no_CR s -> Forall text_line (file_lines s).
Proof.
  induction s as [|c s IH]; intros Hcr; [constructor|].
  assert (c <> CR) as Hc by (intros ->; apply Hcr; by left).
  assert (Forall text_line (file_lines s)) as Hs by (apply IH; intros H; apply Hcr; by right).
  cbn [file_lines]. destruct (Ascii.eqb_spec c LF) as [-> | Hlf].
  - constructor; [|done]. simpl. repeat split; auto.
  - destruct (file_lines s) as [|line rest]; constructor; try done.
    + apply Forall_cons in Hs as [Hline _]. simpl. repeat split; auto. by intros ->.
    + by apply Forall_cons in Hs as [_ Hrest].
Qed.

(** The reader takes every text file, and its fields hold no carriage
    return. *)
Lemma reader_from_total (lines : list string) (self : ReaderObj) :
  Forall text_line lines -> state self <> EAT_CRNL -> clean self ->
  exists rows, reader_from self lines = Some rows /\ Forall (Forall no_CR) rows.
Proof.
  revert self. induction lines as [|line lines IH]; intros self Hlines Hst Hclean.
  - cbn [reader_from]. destruct (_ || _); eexists; (split; [reflexivity|]).
    + constructor; [|constructor]. by apply clean_save_field.
    + constructor.
  - apply Forall_cons in Hlines as [Hline Hlines]. cbn [reader_from].
    destruct (parse_line_total line self Hline Hst) as (self' & -> & Hst' & Hclean').
    specialize (Hclean' Hclean).
    destruct (state self') eqn:Hstate; try (by apply IH; [| rewrite Hstate |]).
    destruct (IH parse_reset Hlines) as (rows & -> & Hrows); [done | split; [by intros [] | constructor] |].
    eexists. split; [reflexivity|]. constructor; [apply Hclean' | done].
Qed.

Lemma reader_total (raw : string) :
  exists rows,
    reader (file_lines (universal_newlines raw)) = Some rows /\
    Forall (Forall no_CR) rows.
Proof.
  apply reader_from_total.
  - apply file_lines_text_line, universal_newlines_no_CR.
  - done.
  - split; [by intros [] | constructor].
Qed.

End CsvReaderTotal.

(** ** The editor: tables *)

Lemma open_file_csv (w : world) (name raw : string) (rest : list response)
    (headers : list string) (data : list (list string)) :
  script w = PathChosen name :: rest -> name <> "" ->
  lower (splitext_ext name) = ".csv" ->
  fs w !! name = Some (TextFile raw) ->
  csv.reader (file_lines (universal_newlines raw)) = Some (headers :: data) ->
  exists w1, open_file w = Returned tt w1 /\
    filename (editor w1) = Some name /\
    current_file_type (editor w1) = "csv" /\
    csv_data (editor w1) = headers :: data /\
    csv_headers (editor w1) = headers /\
    fs w1 = fs w /\ script w1 = rest.
Proof.
  intros Hs Hne Hext Hf Hrows. apply String.eqb_neq in Hne.
  eexists. split.
  - unfold open_file. step_with filedialog_run. rewrite Hne. pure_steps.
    cbv zeta. rewrite Hext. change (String.eqb ".csv" ".csv") with true. cbv iota.
    erewrite bind_Returned; cycle 1.
    { unfold open_csv. apply try_except_Exception_Returned.
      step_with py_open_R_run. step_with py_read_run. rewrite Hrows.
      pure_steps. reflexivity. }
    pure_steps. reflexivity.
  - by simpl.
Qed.

(** Saving a table writes its rows with the csv writer. *)
Lemma save_file_csv (w : world) (name : string) :
  filename (editor w) = Some name -> name <> "" ->
  current_file_type (editor w) = "csv" ->
  exists w2, save_file w = Returned tt w2 /\
    fs w2 = <[name := TextFile (csv.writerows (csv_data (editor w)))]> (fs w).
Proof.
  intros Hname Hne Hcsv. apply String.eqb_neq in Hne.
  eexists. split.
  - unfold save_file. pure_steps. rewrite Hname, Hne. unfold save_file_to.
    apply try_except_Exception_Returned. pure_steps. rewrite Hcsv.
    change (String.eqb "csv" "csv") with true. cbv iota.
    rewrite bind_assoc. step_with py_open_W_run.
    erewrite bind_Returned; [|apply py_write_run; simpl; apply lookup_insert_eq].
    pure_steps. reflexivity.
  - simpl. by rewrite insert_insert_eq.
Qed.




(** * The rest of the wizard *)

(** ** More on running the program *)

Lemma bind_Exited {A B} (m : M A) (k : A -> M B) (w w' : world) :
  m w = Exited w' -> (m ≫= k) w = Exited w'.
Proof. intros H. unfold mbind, M_mbind, M_bind. by rewrite H. Qed.

(** A method that ends by returning nothing. *)
Lemma bind_unit (m : M unit) (w : world) : (m ≫= fun _ => mret tt) w = m w.
Proof. unfold mbind, M_mbind, M_bind. by destruct (m w) as [[] ?| | | |]. Qed.

Lemma exit_confirmation_run (w : world) (answer : option string) (rest : list response) :
  script w = Clicked answer :: rest ->
  let w' := with_script rest
              (with_shown (shown w ++ [ShownBox "CustomBox" ["Yes"; "No"]
                                         "Do you want to exit the app?"]) w) in
  exit_confirmation w = if is_str answer "Yes" then Exited w' else Returned tt w'.
Proof.
  intros Hs w'. unfold exit_confirmation. step_with CustomBox_run.
  by destruct (is_str answer "Yes").
Qed.

Lemma show_exit_confirmation_run (callback : M unit) (w : world) (answer : option string)
    (rest : list response) :
  script w = Clicked answer :: rest ->
  let w' := with_script rest
              (with_shown (shown w ++ [ShownBox "CustomBox" ["Yes"; "No"]
                                         "Do you want to exit the app?"]) w) in
  show_exit_confirmation callback w = if is_str answer "Yes" then Exited w' else callback w'.
Proof.
  intros Hs w'. unfold show_exit_confirmation. step_with CustomBox_run.
  by destruct (is_str answer "Yes").
Qed.

(** ** The number of recipients, asked again *)

Lemma ask_recipient_count_rejects (fuel : nat) (w : world) (k : Z) (choice : string)
    (rest : list response) :
  script w = IntEntered (Some k) choice :: rest -> choice <> "Exit" -> k < 2 ->
  ask_recipient_count (S fuel) w =
  ask_recipient_count fuel
    (with_name_manager (set_total_recipients (Some k) (name_manager w))
       (with_script rest
          (with_shown (shown w ++ [ShownBox "IntBox" ["Continue"; "Exit"]
                                     (recipient_count_prompt (name_manager w))]) w))).
Proof.
  intros Hs Hchoice Hk. apply String.eqb_neq in Hchoice.
  assert ((2 <=? k) = false) as Hle by (apply Z.leb_gt; lia).
  unfold ask_recipient_count at 1; fold ask_recipient_count. pure_steps.
  step_with IntBox_run. pure_steps. rewrite Hchoice. pure_steps. simpl.
  by rewrite Hle.
Qed.

Lemma ask_recipient_count_accepts_run (fuel : nat) (w : world) (n : Z) (choice : string)
    (rest : list response) :
  script w = IntEntered (Some n) choice :: rest -> choice <> "Exit" -> 2 <= n ->
  ask_recipient_count (S fuel) w =
  Returned tt
    (with_name_manager (set_total_recipients (Some n) (name_manager w))
       (with_script rest
          (with_shown (shown w ++ [ShownBox "IntBox" ["Continue"; "Exit"]
                                     (recipient_count_prompt (name_manager w))]) w))).
Proof.
  intros Hs Hchoice Hn. apply String.eqb_neq in Hchoice. apply Z.leb_le in Hn.
  unfold ask_recipient_count at 1; fold ask_recipient_count. pure_steps.
  step_with IntBox_run. pure_steps. rewrite Hchoice. pure_steps. simpl.
  by rewrite Hn.
Qed.

(** X1.  [ask_recipient_count] asks until it gets a number of at least 2:
    every answer below 2 brings the dialog back, and the method returns
    with the first answer of 2 or more as the count, whatever its size
    (the range of the spin box is not checked).  No file is touched. *)
Theorem ask_recipient_count_first_accepted (fuel : nat) (w : world) (small : list Z) (n : Z)
    (choice : string) (rest : list response) :
  script w = ((fun k => IntEntered (Some k) "Continue") <$> small)
               ++ IntEntered (Some n) choice :: rest ->
  Forall (fun k => k < 2) small -> 2 <= n -> choice <> "Exit" ->
  (length small < fuel)%nat ->
  exists w',
    ask_recipient_count fuel w = Returned tt w' /\
    total_recipients (name_manager w') = Some n /\
    script w' = rest /\
    length (shown w') = (length (shown w) + length small + 1)%nat /\
    fs w' = fs w /\
    recipient_names (name_manager w') = recipient_names (name_manager w).
Proof.
  revert fuel w. induction small as [|k small IH]; intros fuel w Hs Hsmall Hn Hchoice Hfuel.
  - destruct fuel as [|fuel]; [simpl in Hfuel; lia|].
    simpl in Hs. eexists. split; [by apply (ask_recipient_count_accepts_run fuel w n choice rest)|].
    simpl. rewrite length_app. simpl. repeat split; try done. lia.
  - destruct fuel as [|fuel]; [simpl in Hfuel; lia|].
    apply Forall_cons in Hsmall as [Hk Hsmall].
    rewrite fmap_cons in Hs. simpl in Hs.
    rewrite (ask_recipient_count_rejects fuel w k "Continue" _ Hs); [|done|done].
    edestruct (IH fuel) as (w' & Hrun & Htotal & Hrest & Hshown & Hfs & Hnames); cycle 5.
    + exists w'. split; [exact Hrun|]. split; [done|]. split; [done|].
      split; [|split; [exact Hfs | exact Hnames]].
      rewrite Hshown. simpl. rewrite length_app. simpl. lia.
    + simpl. reflexivity.
    + done.
    + done.
    + done.
    + simpl in Hfuel. lia.
Qed.

(** The answers 0 and 1 are refused, 4 is taken. *)
Lemma ask_recipient_count_first_accepted_witness :
  exists w',
    ask_recipient_count 3
      (world_init ∅ [IntEntered (Some 0) "Continue"; IntEntered (Some 1) "Continue";
                     IntEntered (Some 4) "Continue"]) = Returned tt w' /\
    total_recipients (name_manager w') = Some 4 /\ script w' = [].
Proof.
  destruct (ask_recipient_count_first_accepted 3
              (world_init ∅ [IntEntered (Some 0) "Continue"; IntEntered (Some 1) "Continue";
                             IntEntered (Some 4) "Continue"])
              [0; 1] 4 "Continue" [] eq_refl)
    as (w' & Hrun & Htotal & Hrest & _);
    [repeat constructor; lia | lia | discriminate | simpl; lia |].
  by exists w'.
Defined.

(** X2.  On the button Exit of the count dialog the number in the spin
    box is discarded and the count is set to 0.  When the user confirms,
    the program exits; when not, the count is asked again. *)
Theorem ask_recipient_count_exit (fuel : nat) (w : world) (result : option Z)
    (answer : option string) (rest : list response) :
  script w = IntEntered result "Exit" :: Clicked answer :: rest ->
  exists w',
    ask_recipient_count (S fuel) w =
      (if is_str answer "Yes" then Exited w' else ask_recipient_count fuel w') /\
    total_recipients (name_manager w') = Some 0 /\
    recipient_names (name_manager w') = recipient_names (name_manager w) /\
    script w' = rest /\ fs w' = fs w.
Proof.
  intros Hs. destruct (is_str answer "Yes") eqn:Hyes; eexists; split.
  - unfold ask_recipient_count at 1; fold ask_recipient_count. pure_steps.
    step_with IntBox_run. pure_steps.
    change (String.eqb "Exit" "Exit") with true. cbv iota.
    rewrite bind_assoc. pure_steps.
    apply bind_Exited. rewrite (exit_confirmation_run _ answer rest); [|reflexivity].
    rewrite Hyes. reflexivity.
  - by simpl.
  - unfold ask_recipient_count at 1; fold ask_recipient_count. pure_steps.
    step_with IntBox_run. pure_steps.
    change (String.eqb "Exit" "Exit") with true. cbv iota.
    rewrite bind_assoc. pure_steps.
    erewrite bind_Returned; cycle 1.
    { rewrite (exit_confirmation_run _ answer rest); [|reflexivity].
      rewrite Hyes. reflexivity. }
    pure_steps. simpl. reflexivity.
  - by simpl.
Qed.

(** Exit with 7 in the spin box, declined. *)
Lemma ask_recipient_count_exit_witness :
  exists w',
    ask_recipient_count 2
      (world_init ∅ [IntEntered (Some 7) "Exit"; Clicked (Some "No");
                     IntEntered (Some 3) "Continue"]) = ask_recipient_count 1 w' /\
    total_recipients (name_manager w') = Some 0 /\
    script w' = [IntEntered (Some 3) "Continue"].
Proof.
  destruct (ask_recipient_count_exit 1
              (world_init ∅ [IntEntered (Some 7) "Exit"; Clicked (Some "No");
                             IntEntered (Some 3) "Continue"])
              (Some 7) (Some "No") [IntEntered (Some 3) "Continue"] eq_refl)
    as (w' & Hrun & Htotal & _ & Hrest & _).
  exists w'. split; [exact Hrun|]. by split.
Defined.

(** ** Names typed one by one *)

Lemma collect_one_name_accepts (callback : M unit) (fuel : nat) (w : world)
    (e choice : string) (rest : list response) :
  script w = StringEntered (Some e) choice :: rest -> choice <> "Exit" ->
  name_is_valid e = true ->
  collect_one_name callback (S fuel) w =
  Returned true
    (with_name_manager
       (set_recipient_names (recipient_names (name_manager w) ++ [PyStr.title e])
          (set_name_prompt "Please enter the name:" (name_manager w)))
       (with_script rest
          (with_shown (shown w ++ [ShownBox "StringBox" ["Continue"; "Exit"]
                                     (name_prompt (name_manager w))]) w))).
Proof.
  intros Hs Hchoice Hvalid. apply String.eqb_neq in Hchoice.
  unfold collect_one_name at 1. pure_steps.
  step_with StringBox_run. rewrite Hchoice, Hvalid. pure_steps. reflexivity.
Qed.

Lemma collect_one_name_rejects (callback : M unit) (fuel : nat) (w : world)
    (e choice : string) (rest : list response) :
  script w = StringEntered (Some e) choice :: rest -> choice <> "Exit" ->
  name_is_valid e = false ->
  collect_one_name callback (S fuel) w =
  collect_one_name callback fuel
    (with_name_manager (set_name_prompt "Please enter a valid name:" (name_manager w))
       (with_script rest
          (with_shown (shown w ++ [ShownBox "StringBox" ["Continue"; "Exit"]
                                     (name_prompt (name_manager w))]) w))).
Proof.
  intros Hs Hchoice Hvalid. apply String.eqb_neq in Hchoice.
  unfold collect_one_name at 1; fold collect_one_name. pure_steps.
  step_with StringBox_run. rewrite Hchoice, Hvalid. pure_steps. reflexivity.
Qed.

(** The prompt for one recipient: rejected entries are asked again, the
    first accepted one is stored. *)
Lemma collect_one_name_attempts (callback : M unit) (fuel : nat) (w : world)
    (rejected : list string) (accepted : string) (rest : list response) :
  script w = attempts (rejected, accepted) ++ rest ->
  attempts_ok (rejected, accepted) -> (length rejected < fuel)%nat ->
  exists w',
    collect_one_name callback fuel w = Returned true w' /\
    recipient_names (name_manager w') =
      recipient_names (name_manager w) ++ [PyStr.title accepted] /\
    total_recipients (name_manager w') = total_recipients (name_manager w) /\
    script w' = rest /\ fs w' = fs w.
Proof.
  unfold attempts, attempts_ok, entered. simpl.
  revert fuel w. induction rejected as [|e rejected IH]; intros fuel w Hs [Hbad Hgood] Hfuel.
  - destruct fuel as [|fuel]; [simpl in Hfuel; lia|]. simpl in Hs.
    eexists. split; [by apply (collect_one_name_accepts callback fuel w accepted "Continue" rest)|].
    by simpl.
  - destruct fuel as [|fuel]; [simpl in Hfuel; lia|]. simpl in Hs.
    apply Forall_cons in Hbad as [He Hbad].
    rewrite (collect_one_name_rejects callback fuel w e "Continue" _ Hs); [|done|done].
    edestruct (IH fuel) as (w' & Hrun & Hnames & Htotal & Hrest & Hfs); cycle 3.
    + exists w'. split; [exact Hrun|]. by rewrite Hnames, Htotal, Hrest, Hfs.
    + simpl. reflexivity.
    + done.
    + simpl in Hfuel. lia.
Qed.

Lemma for_range_collect (callback : M unit) (fuel : nat)
    (blocks : list (list string * string)) (w : world) (rest : list response) :
  script w = concat (attempts <$> blocks) ++ rest ->
  Forall attempts_ok blocks ->
  Forall (fun a => (length a.1 < fuel)%nat) blocks ->
  exists w',
    for_range (length blocks) (collect_one_name callback fuel) w = Returned tt w' /\
    recipient_names (name_manager w') =
      recipient_names (name_manager w) ++ ((fun a => PyStr.title a.2) <$> blocks) /\
    total_recipients (name_manager w') = total_recipients (name_manager w) /\
    script w' = rest /\ fs w' = fs w.
Proof.
  revert w. induction blocks as [|[rejected accepted] blocks IH]; intros w Hs Hok Hfuel.
  - simpl in Hs. exists w. simpl. by rewrite app_nil_r.
  - apply Forall_cons in Hok as [Ha Hok]. apply Forall_cons in Hfuel as [Hf Hfuel].
    rewrite fmap_cons in Hs. simpl in Hs. rewrite <- app_assoc in Hs.
    destruct (collect_one_name_attempts callback fuel w rejected accepted _ Hs Ha Hf)
      as (w1 & Hrun1 & Hnames1 & Htotal1 & Hrest1 & Hfs1).
    destruct (IH w1 Hrest1 Hok Hfuel) as (w' & Hrun & Hnames & Htotal & Hrest & Hfs).
    exists w'. split.
    + cbn [length for_range]. erewrite bind_Returned; [|exact Hrun1]. exact Hrun.
    + rewrite Hnames, Hnames1, Htotal, Htotal1, Hfs, Hfs1.
      rewrite fmap_cons. simpl. by rewrite <- app_assoc.
Qed.

(** X3.  [collect_names_manually] asks for as many names as are missing
    to reach the count.  For each of them rejected entries are asked
    again and the first accepted entry is stored in title case; at the
    end the list holds exactly [total_recipients] names, the ones that
    were there followed by the new ones in the order of entry. *)
Theorem collect_names_manually_collects (fuel : nat) (w : world) (total : Z)
    (blocks : list (list string * string)) (rest : list response) :
  total_recipients (name_manager w) = Some total ->
  total = Z.of_nat (length (recipient_names (name_manager w)) + length blocks) ->
  script w = concat (attempts <$> blocks) ++ rest ->
  Forall attempts_ok blocks ->
  Forall (fun a => (length a.1 < fuel)%nat) blocks ->
  exists w',
    collect_names_manually (S fuel) w = Returned tt w' /\
    recipient_names (name_manager w') =
      recipient_names (name_manager w) ++ ((fun a => PyStr.title a.2) <$> blocks) /\
    Z.of_nat (length (recipient_names (name_manager w'))) = total /\
    script w' = rest /\ fs w' = fs w.
Proof.
  intros Htotal Hcount Hs Hok Hfuel.
  destruct (for_range_collect (collect_names_manually fuel) fuel blocks w rest Hs Hok Hfuel)
    as (w' & Hrun & Hnames & _ & Hrest & Hfs).
  exists w'. split.
  - unfold collect_names_manually at 1; fold collect_names_manually. pure_steps.
    rewrite Htotal.
    replace (Z.to_nat _) with (length blocks) by lia. exact Hrun.
  - rewrite Hnames. repeat split; try done.
    rewrite length_app, length_fmap. lia.
Qed.

(** Two names are wanted; a lone hyphen is refused on the way. *)
Lemma collect_names_manually_collects_witness :
  exists w',
    collect_names_manually 3 (counted 2 (entered ["-"; "ann"; "bob lee"])) = Returned tt w' /\
    recipient_names (name_manager w') = ["Ann"; "Bob Lee"].
Proof.
  destruct (collect_names_manually_collects 2 (counted 2 (entered ["-"; "ann"; "bob lee"])) 2
              [(["-"], "ann"); ([], "bob lee")] [] eq_refl eq_refl eq_refl)
    as (w' & Hrun & Hnames & _).
  - repeat constructor.
  - repeat constructor.
  - exists w'. split; [exact Hrun|]. rewrite Hnames. vm_compute. reflexivity.
Defined.

Lemma collect_names_manually_eq (fuel : nat) (w : world) :
  collect_names_manually (S fuel) w =
  match total_recipients (name_manager w) with
  | None => raise TypeError
  | Some total =>
      for_range (Z.to_nat (total - Z.of_nat (length (recipient_names (name_manager w)))))
                (collect_one_name (collect_names_manually fuel) fuel)
  end w.
Proof. reflexivity. Qed.

Lemma collect_one_name_exit (callback : M unit) (fuel : nat) (w : world)
    (typed answer : option string) (rest : list response) :
  script w = StringEntered typed "Exit" :: Clicked answer :: rest ->
  let w' := with_script rest
              (with_shown
                 (shown w ++ [ShownBox "StringBox" ["Continue"; "Exit"]
                                (name_prompt (name_manager w));
                              ShownBox "CustomBox" ["Yes"; "No"] "Do you want to exit the app?"])
                 w) in
  collect_one_name callback (S fuel) w =
  if is_str answer "Yes" then Exited w' else (callback;; mret false) w'.
Proof.
  intros Hs w'. unfold collect_one_name at 1. pure_steps.
  step_with StringBox_run.
  change (String.eqb "Exit" "Exit") with true. cbv iota.
  unfold mbind at 1, M_mbind at 1, M_bind at 1.
  rewrite (show_exit_confirmation_run _ _ answer rest); [|reflexivity].
  simpl. rewrite <- app_assoc. simpl. fold w'.
  destruct (is_str answer "Yes"); reflexivity.
Qed.

(** X4.  When Exit is pressed at a name prompt, what was typed is
    dropped.  If the user confirms, the program exits; if not, the method
    starts again with the names collected so far and the same count, so
    that only the missing names are asked. *)
Theorem collect_names_manually_exit_declined (fuel : nat) (w : world) (total : Z)
    (typed answer : option string) (rest : list response) :
  total_recipients (name_manager w) = Some total ->
  Z.of_nat (length (recipient_names (name_manager w))) < total ->
  script w = StringEntered typed "Exit" :: Clicked answer :: rest ->
  exists w',
    collect_names_manually (S (S fuel)) w =
      (if is_str answer "Yes" then Exited w' else collect_names_manually (S fuel) w') /\
    recipient_names (name_manager w') = recipient_names (name_manager w) /\
    total_recipients (name_manager w') = Some total /\
    script w' = rest /\ fs w' = fs w.
Proof.
  intros Htotal Hless Hs.
  destruct (Z.to_nat (total - Z.of_nat (length (recipient_names (name_manager w)))))
    as [|n] eqn:Hn; [lia|].
  eexists. split.
  - rewrite collect_names_manually_eq, Htotal, Hn. cbn [for_range].
    unfold mbind at 1, M_mbind at 1, M_bind at 1.
    rewrite (collect_one_name_exit _ fuel w typed answer rest Hs).
    destruct (is_str answer "Yes"); [reflexivity|].
    unfold mbind at 1, M_mbind at 1, M_bind at 1.
    by destruct (collect_names_manually (S fuel) _) as [[] ?| | | |].
  - by simpl.
Qed.

(** Exit at the first name, declined. *)
Lemma collect_names_manually_exit_declined_witness :
  exists w',
    collect_names_manually 2
      (counted 2 [StringEntered (Some "x") "Exit"; Clicked (Some "No")])
      = collect_names_manually 1 w' /\
    recipient_names (name_manager w') = [] /\ script w' = [].
Proof.
  destruct (collect_names_manually_exit_declined 0
              (counted 2 [StringEntered (Some "x") "Exit"; Clicked (Some "No")]) 2
              (Some "x") (Some "No") [] eq_refl)
    as (w' & Hrun & Hnames & _ & Hrest & _); [simpl; lia | reflexivity |].
  exists w'. split; [exact Hrun|]. by split.
Defined.

(** ** The names file, asked again *)

Lemma ask_name_file_cancel (fuel : nat) (w : world) (answer : option string)
    (rest : list response) :
  script w = cancelled answer ++ rest ->
  let w' := with_script rest
              (with_shown
                 (shown w ++ [ShownFileDialog "askopenfilename" "Select the names text file";
                              ShownBox "CustomBox" ["Yes"; "No"] "Do you want to exit the app?"])
                 (with_name_manager (set_names_file_location "" (name_manager w)) w)) in
  ask_name_file (S fuel) w = if is_str answer "Yes" then Exited w' else ask_name_file fuel w'.
Proof.
  intros Hs w'. unfold cancelled in Hs. simpl in Hs.
  unfold ask_name_file at 1; fold ask_name_file. pure_steps.
  step_with filedialog_run. pure_steps.
  change (String.eqb "" "") with true. cbv iota.
  unfold mbind at 1, M_mbind at 1, M_bind at 1.
  rewrite (exit_confirmation_run _ answer rest); [|reflexivity].
  simpl. rewrite <- app_assoc. simpl.
  destruct (is_str answer "Yes"); reflexivity.
Qed.

(** X5.  [ask_name_file] does not give up on a cancelled file dialog:
    each time the dialog is cancelled and the exit question declined, the
    dialog comes back; the method returns with the first path chosen. *)
Theorem ask_name_file_until_chosen (fuel : nat) (w : world) (declined : list (option string))
    (path : string) (rest : list response) :
  script w = concat (cancelled <$> declined) ++ PathChosen path :: rest ->
  Forall (fun answer => answer <> Some "Yes") declined -> path <> "" ->
  (length declined < fuel)%nat ->
  exists w',
    ask_name_file fuel w = Returned tt w' /\
    names_file_location (name_manager w') = path /\
    recipient_names (name_manager w') = recipient_names (name_manager w) /\
    script w' = rest /\ fs w' = fs w.
Proof.
  revert fuel w. induction declined as [|answer declined IH]; intros fuel w Hs Hno Hpath Hfuel.
  - destruct fuel as [|fuel]; [simpl in Hfuel; lia|]. simpl in Hs.
    eexists. split; [by apply ask_name_file_run|]. by simpl.
  - destruct fuel as [|fuel]; [simpl in Hfuel; lia|].
    apply Forall_cons in Hno as [Hanswer Hno].
    rewrite fmap_cons in Hs. cbn [concat] in Hs. rewrite <- app_assoc in Hs.
    rewrite (ask_name_file_cancel fuel w answer _ Hs).
    replace (is_str answer "Yes") with false
      by (symmetry; unfold is_str; by apply bool_decide_eq_false).
    edestruct (IH fuel) as (w' & Hrun & Hloc & Hnames & Hrest & Hfs); cycle 4.
    + exists w'. split; [exact Hrun|]. by rewrite Hnames, Hfs.
    + simpl. reflexivity.
    + done.
    + done.
    + simpl in Hfuel. lia.
Qed.

(** The dialog is cancelled once. *)
Lemma ask_name_file_until_chosen_witness :
  exists w',
    ask_name_file 2 (world_init ∅ (cancelled (Some "No") ++ [PathChosen "names.txt"]))
      = Returned tt w' /\
    names_file_location (name_manager w') = "names.txt".
Proof.
  destruct (ask_name_file_until_chosen 2
              (world_init ∅ (cancelled (Some "No") ++ [PathChosen "names.txt"]))
              [Some "No"] "names.txt" [] eq_refl)
    as (w' & Hrun & Hloc & _);
    [repeat constructor; discriminate | discriminate | simpl; lia |].
  by exists w'.
Defined.

Lemma read_names_file_fails (w : world) (path : string) (e : exn) :
  reading_fails (fs w) path = Some e ->
  try_except_Exception
    (names_file ← py_open path ModeR;
     names_content ← py_read names_file;
     mret (inr names_content))
    (fun e => mret (inl e)) w
  = Returned (inl e : exn + string) w.
Proof.
  unfold reading_fails, try_except_Exception, py_open, py_read. intros He.
  unfold mbind, M_mbind, M_bind; simpl.
  destruct (fs w !! path) as [[raw|paragraphs]|] eqn:Hf; simplify_eq.
  - simpl. by rewrite Hf.
  - done.
Qed.

Lemma names_text_file_processing_fails (callback : M unit) (fuel : nat) (w : world)
    (path : string) (e : exn) (rest : list response) :
  script w = PathChosen path :: rest -> path <> "" ->
  reading_fails (fs w) path = Some e ->
  exists w',
    names_text_file_processing callback (S (S fuel)) w = callback w' /\
    last (shown w') = Some (ShownMessage "warning" "Error occurred" (MsgError "Error: " e)) /\
    recipient_names (name_manager w') = recipient_names (name_manager w) /\
    script w' = rest /\ fs w' = fs w.
Proof.
  intros Hs Hpath He. eexists. split.
  - unfold names_text_file_processing at 1; fold names_text_file_processing.
    step_with ask_name_file_run. pure_steps.
    erewrite bind_Returned; [|by apply read_names_file_fails].
    pure_steps. reflexivity.
  - simpl. by rewrite last_snoc.
Qed.

(** X6.  A names file that is missing, or that is not text, does not
    stop the wizard: the error is shown in a warning, the recipient list
    and the files are left alone, and the wizard goes on with
    [name_collection] (the method it calls back). *)
Theorem names_text_file_processing_unreadable (callback : M unit) (fuel : nat) (w : world)
    (path : string) (e : exn) (rest : list response) :
  script w = PathChosen path :: rest -> path <> "" ->
  reading_fails (fs w) path = Some e ->
  exists w',
    names_text_file_processing callback (S (S fuel)) w = callback w' /\
    last (shown w') = Some (ShownMessage "warning" "Error occurred" (MsgError "Error: " e)) /\
    recipient_names (name_manager w') = recipient_names (name_manager w) /\
    script w' = rest /\ fs w' = fs w.
Proof. apply names_text_file_processing_fails. Qed.

(** The names file does not exist. *)
Lemma names_text_file_processing_unreadable_witness :
  exists w',
    names_text_file_processing (mret tt) 2 (world_init ∅ [PathChosen "missing.txt"])
      = Returned tt w' /\
    last (shown w') =
      Some (ShownMessage "warning" "Error occurred"
              (MsgError "Error: " (FileNotFoundError "missing.txt"))) /\
    recipient_names (name_manager w') = [].
Proof.
  destruct (names_text_file_processing_unreadable (mret tt) 0
              (world_init ∅ [PathChosen "missing.txt"]) "missing.txt"
              (FileNotFoundError "missing.txt") [] eq_refl)
    as (w' & Hrun & Hshown & Hnames & _); [discriminate | reflexivity |].
  exists w'. split; [exact Hrun|]. by split.
Defined.

(** ** Collecting the names: the whole method *)

Lemma drop_app_s (p t : string) : PyStr.drop (String.length p) (p +:+ t) = t.
Proof. induction p as [|c p IH]; [done|]. by rewrite app_cons_s. Qed.

(** Joining what [split] gave with the separator gives the text back. *)
Lemma join_split (s : string) (a : ascii) (sep : string) :
  PyStr.join (String a sep) (PyStr.split s (String a sep)) = s.
Proof.
  remember (String.length s) as n eqn:Hn. revert s Hn.
  induction n as [n IH] using lt_wf_ind. intros s ->.
  destruct s as [|c s]; [done|]. rewrite split_cons.
  destruct (PyStr.startswith (String c s) (String a sep)) eqn:Hst.
  - rewrite join_cons by apply split_not_nil.
    rewrite (IH (String.length (PyStr.drop (String.length sep) s)));
      [| rewrite drop_length; simpl; lia | reflexivity].
    apply startswith_spec in Hst as [t Ht].
    rewrite app_cons_s in Ht. injection Ht as -> ->.
    by rewrite drop_app_s, app_nil_l_s, app_cons_s.
  - pose proof (split_not_nil s (String a sep)) as Hnil.
    assert (String.length s < String.length (String c s))%nat as Hlt
      by (cbn [String.length]; lia).
    pose proof (IH (String.length s) Hlt s eq_refl) as IHs.
    destruct (PyStr.split s (String a sep)) as [|piece pieces]; [done|].
    destruct pieces as [|piece' pieces].
    + simpl in *. by rewrite IHs.
    + rewrite join_cons in IHs by done. rewrite join_cons by done.
      by rewrite app_cons_s, IHs.
Qed.

Lemma name_collection_eq (fuel : nat) (w : world) :
  name_collection (S fuel) w =
  (method ← CustomBox ["Manual Insert"; "Text File"; "Exit"]
              (name_input_method_prompt (name_manager w));
   self_nm (set_name_input_method method);;
   (if method is None then exit_confirmation else mret tt);;
   (if is_str method "Manual Insert"
    then ask_recipient_count fuel;; collect_names_manually fuel
    else if is_str method "Text File"
    then names_text_file_processing (name_collection fuel) fuel
    else exit_confirmation);;
   confirm_names_proceed (name_collection fuel);;
   mret tt) w.
Proof. reflexivity. Qed.

Lemma confirm_names_proceed_Continue (callback : M unit) (w : world) (rest : list response) :
  script w = Clicked (Some "Continue") :: rest ->
  confirm_names_proceed callback w =
  Returned (Some "Continue")
    (with_confirmation_choice (Some "Continue")
       (with_script rest
          (with_shown
             (shown w ++ [ShownBox "CustomBox" ["Continue"; "Re-enter Names"; "Exit"]
                            ("Names entered:" +:+
                             String LF (PyStr.join ", " (recipient_names (name_manager w))))])
             w))).
Proof.
  intros Hs. unfold confirm_names_proceed. pure_steps. step_with CustomBox_run.
  unfold modify. pure_steps. reflexivity.
Qed.

#[global] Arguments name_collection : simpl never.
#[global] Arguments confirm_names_proceed : simpl never.

Lemma name_collection_text_file_run (fuel : nat) (w : world) (path raw : string)
    (rest : list response) :
  script w = Clicked (Some "Text File") :: PathChosen path :: Clicked (Some "Continue") :: rest ->
  path <> "" -> fs w !! path = Some (TextFile raw) ->
  let content := universal_newlines raw in
  spec_substring ", " content ->
  exists w',
    name_collection (S (S (S fuel))) w = Returned tt w' /\
    recipient_names (name_manager w') = PyStr.split content ", " /\
    last (shown w') =
      Some (ShownBox "CustomBox" ["Continue"; "Re-enter Names"; "Exit"]
              ("Names entered:" +:+
               String LF (PyStr.join ", " (PyStr.split content ", ")))) /\
    confirmation_choice w' = Some "Continue" /\
    script w' = rest /\ fs w' = fs w.
Proof.
  intros Hs Hpath Hf content Hin.
  set (w0 := with_name_manager (set_name_input_method (Some "Text File") (name_manager w))
               (with_script (PathChosen path :: Clicked (Some "Continue") :: rest)
                  (with_shown
                     (shown w ++ [ShownBox "CustomBox" ["Manual Insert"; "Text File"; "Exit"]
                                    (name_input_method_prompt (name_manager w))]) w))).
  destruct (names_text_file_processing_step (name_collection (S (S fuel))) fuel w0 path raw
              (Clicked (Some "Continue") :: rest) eq_refl Hpath Hf)
    as (w1 & Hfs1 & Hs1 & Hnames1 & Hrun1).
  apply contains_spec in Hin. fold content in Hrun1. rewrite Hin in Hrun1. simpl in Hrun1.
  eexists. split.
  - rewrite name_collection_eq.
    erewrite bind_Returned; [|by apply (CustomBox_run _ _ w (Some "Text File") _ Hs)].
    pure_steps. cbv iota.
    replace (is_str (Some "Text File") "Manual Insert") with false by (symmetry; decide_by_compute).
    replace (is_str (Some "Text File") "Text File") with true by (symmetry; decide_by_compute).
    cbv iota.
    erewrite bind_Returned; [|exact Hrun1].
    erewrite bind_Returned; cycle 1.
    { apply confirm_names_proceed_Continue. simpl. exact Hs1. }
    reflexivity.
  - simpl. rewrite last_snoc. by rewrite Hfs1.
Qed.

(** X7.  Names from a file, then Continue: [name_collection] returns with
    the names of the file, and the box that asks for confirmation shows
    the content of the file as it was read (joining the names with
    [", "] undoes the split). *)
Theorem name_collection_text_file (fuel : nat) (w : world) (path raw : string)
    (rest : list response) :
  script w = Clicked (Some "Text File") :: PathChosen path :: Clicked (Some "Continue") :: rest ->
  path <> "" -> fs w !! path = Some (TextFile raw) ->
  let content := universal_newlines raw in
  spec_substring ", " content ->
  exists w',
    name_collection (S (S (S fuel))) w = Returned tt w' /\
    recipient_names (name_manager w') = PyStr.split content ", " /\
    last (shown w') =
      Some (ShownBox "CustomBox" ["Continue"; "Re-enter Names"; "Exit"]
              ("Names entered:" +:+ String LF content)) /\
    confirmation_choice w' = Some "Continue" /\
    script w' = rest /\ fs w' = fs w.
Proof.
  intros Hs Hpath Hf content Hin.
  destruct (name_collection_text_file_run fuel w path raw rest Hs Hpath Hf Hin)
    as (w' & Hrun & Hnames & Hshown & Hrest).
  exists w'. split; [exact Hrun|]. split; [exact Hnames|]. split; [|exact Hrest].
  rewrite Hshown. unfold content. by rewrite join_split.
Qed.

(** The names file holds Alice and Bob. *)
Lemma name_collection_text_file_witness :
  exists w',
    name_collection 3
      (world_init two_names
         [Clicked (Some "Text File"); PathChosen "names.txt"; Clicked (Some "Continue")])
      = Returned tt w' /\
    recipient_names (name_manager w') = ["Alice"; "Bob"] /\
    last (shown w') =
      Some (ShownBox "CustomBox" ["Continue"; "Re-enter Names"; "Exit"]
              ("Names entered:" +:+ String LF "Alice, Bob")).
Proof.
  destruct (name_collection_text_file 0
              (world_init two_names
                 [Clicked (Some "Text File"); PathChosen "names.txt"; Clicked (Some "Continue")])
              "names.txt" "Alice, Bob" [] eq_refl)
    as (w' & Hrun & Hnames & Hshown & _).
  - discriminate.
  - vm_compute. reflexivity.
  - apply contains_spec. vm_compute. reflexivity.
  - exists w'. split; [exact Hrun|]. split; [rewrite Hnames; vm_compute; reflexivity|].
    exact Hshown.
Defined.

Lemma is_str_false (o : option string) (s : string) : o <> Some s -> is_str o s = false.
Proof. intros H. unfold is_str. by apply bool_decide_eq_false. Qed.

(** X8.  In [name_collection] the button Exit (or closing the dialog),
    once the exit question is declined, does not bring back the question
    for the input method: the method goes on to the confirmation of the
    names, with the list as it was. *)
Theorem name_collection_exit_declined (fuel : nat) (w : world) (method a0 a1 : option string)
    (rest : list response) :
  method <> Some "Manual Insert" -> method <> Some "Text File" ->
  a0 <> Some "Yes" -> a1 <> Some "Yes" ->
  script w = Clicked method :: (if method is None then [Clicked a0] else [])
               ++ Clicked a1 :: Clicked (Some "Continue") :: rest ->
  exists w',
    name_collection (S fuel) w = Returned tt w' /\
    recipient_names (name_manager w') = recipient_names (name_manager w) /\
    last (shown w') =
      Some (ShownBox "CustomBox" ["Continue"; "Re-enter Names"; "Exit"]
              ("Names entered:" +:+
               String LF (PyStr.join ", " (recipient_names (name_manager w))))) /\
    confirmation_choice w' = Some "Continue" /\
    script w' = rest /\ fs w' = fs w.
Proof.
  intros Hmanual Hfile Ha0 Ha1 Hs.
  apply is_str_false in Hmanual, Hfile, Ha0, Ha1.
  destruct method as [m|]; simpl in Hs; eexists; split.
  - rewrite name_collection_eq.
    step_with CustomBox_run. pure_steps. rewrite Hmanual, Hfile.
    erewrite bind_Returned; cycle 1.
    { rewrite (exit_confirmation_run _ a1 (Clicked (Some "Continue") :: rest)); [|reflexivity].
      rewrite Ha1. reflexivity. }
    erewrite bind_Returned; [|by apply confirm_names_proceed_Continue].
    reflexivity.
  - simpl. by rewrite last_snoc.
  - rewrite name_collection_eq.
    step_with CustomBox_run. pure_steps.
    erewrite bind_Returned; cycle 1.
    { rewrite (exit_confirmation_run _ a0 (Clicked a1 :: Clicked (Some "Continue") :: rest));
        [|reflexivity].
      rewrite Ha0. reflexivity. }
    rewrite Hmanual, Hfile.
    erewrite bind_Returned; cycle 1.
    { rewrite (exit_confirmation_run _ a1 (Clicked (Some "Continue") :: rest)); [|reflexivity].
      rewrite Ha1. reflexivity. }
    erewrite bind_Returned; [|by apply confirm_names_proceed_Continue].
    reflexivity.
  - simpl. by rewrite last_snoc.
Qed.

(** Exit, then No, then the confirmation. *)
Lemma name_collection_exit_declined_witness :
  exists w',
    name_collection 1
      (world_init ∅ [Clicked (Some "Exit"); Clicked (Some "No"); Clicked (Some "Continue")])
      = Returned tt w' /\
    recipient_names (name_manager w') = [] /\
    confirmation_choice w' = Some "Continue".
Proof.
  destruct (name_collection_exit_declined 0
              (world_init ∅ [Clicked (Some "Exit"); Clicked (Some "No");
                             Clicked (Some "Continue")])
              (Some "Exit") None (Some "No") [])
    as (w' & Hrun & Hnames & _ & Hchoice & _); try discriminate; [reflexivity|].
  exists w'. split; [exact Hrun|]. by split.
Defined.

(** ** Collecting the names: the other ways through the method *)

Lemma bind_eq {A B} (m m' : M A) (k : A -> M B) (w w' : world) :
  m w = m' w' -> (m ≫= k) w = (m' ≫= k) w'.
Proof. intros H. unfold mbind, M_mbind, M_bind. by rewrite H. Qed.

(** X9.  Manual entry, then Continue: [name_collection] asks for the
    count, then for the names, and returns with as many names as the
    count says. *)
Theorem name_collection_manual (fuel : nat) (w : world) (n : Z)
    (blocks : list (list string * string)) (rest : list response) :
  script w = Clicked (Some "Manual Insert") :: IntEntered (Some n) "Continue"
               :: concat (attempts <$> blocks) ++ Clicked (Some "Continue") :: rest ->
  2 <= n ->
  n = Z.of_nat (length (recipient_names (name_manager w)) + length blocks) ->
  Forall attempts_ok blocks ->
  Forall (fun a => (length a.1 < fuel)%nat) blocks ->
  exists w',
    name_collection (S (S fuel)) w = Returned tt w' /\
    recipient_names (name_manager w') =
      recipient_names (name_manager w) ++ ((fun a => PyStr.title a.2) <$> blocks) /\
    Z.of_nat (length (recipient_names (name_manager w'))) = n /\
    confirmation_choice w' = Some "Continue" /\
    script w' = rest /\ fs w' = fs w.
Proof.
  intros Hs Hn Hcount Hok Hfuel.
  set (w0 := with_name_manager (set_name_input_method (Some "Manual Insert") (name_manager w))
               (with_script (IntEntered (Some n) "Continue"
                               :: concat (attempts <$> blocks)
                                  ++ Clicked (Some "Continue") :: rest)
                  (with_shown
                     (shown w ++ [ShownBox "CustomBox" ["Manual Insert"; "Text File"; "Exit"]
                                    (name_input_method_prompt (name_manager w))]) w))).
  pose proof (ask_recipient_count_accepts_run fuel w0 n "Continue" _ eq_refl
                ltac:(discriminate) Hn) as Hrun1.
  match type of Hrun1 with _ = Returned tt ?W => set (w1 := W) in * end.
  destruct (for_range_collect (collect_names_manually fuel) fuel blocks w1
              (Clicked (Some "Continue") :: rest) eq_refl Hok Hfuel)
    as (w2 & Hrun2 & Hnames2 & _ & Hs2 & Hfs2).
  eexists. split.
  - rewrite name_collection_eq.
    erewrite bind_Returned; [|by apply (CustomBox_run _ _ w (Some "Manual Insert") _ Hs)].
    pure_steps. cbv iota.
    replace (is_str (Some "Manual Insert") "Manual Insert") with true
      by (symmetry; decide_by_compute).
    cbv iota. rewrite bind_assoc.
    erewrite bind_Returned; [|exact Hrun1].
    erewrite bind_Returned; cycle 1.
    { rewrite collect_names_manually_eq.
      change (total_recipients (name_manager w1)) with (Some n).
      change (recipient_names (name_manager w1)) with (recipient_names (name_manager w)).
      cbv iota. replace (Z.to_nat _) with (length blocks) by lia. exact Hrun2. }
    erewrite bind_Returned; [|by apply confirm_names_proceed_Continue].
    reflexivity.
  - simpl. rewrite Hnames2, Hfs2. simpl. repeat split; try done.
    rewrite length_app, length_fmap. lia.
Qed.

(** Two names are wanted; an entry with a digit is refused. *)
Lemma name_collection_manual_witness :
  exists w',
    name_collection 4
      (world_init ∅
         (Clicked (Some "Manual Insert") :: IntEntered (Some 2) "Continue"
            :: entered ["ann"; "4you"; "bob"] ++ [Clicked (Some "Continue")]))
      = Returned tt w' /\
    recipient_names (name_manager w') = ["Ann"; "Bob"].
Proof.
  destruct (name_collection_manual 2
              (world_init ∅
                 (Clicked (Some "Manual Insert") :: IntEntered (Some 2) "Continue"
                    :: entered ["ann"; "4you"; "bob"] ++ [Clicked (Some "Continue")]))
              2 [([], "ann"); (["4you"], "bob")] [] eq_refl)
    as (w' & Hrun & Hnames & _).
  - lia.
  - reflexivity.
  - repeat constructor.
  - repeat constructor.
  - exists w'. split; [exact Hrun|]. rewrite Hnames. vm_compute. reflexivity.
Defined.

Lemma confirm_names_proceed_Reenter (callback : M unit) (w : world) (rest : list response) :
  script w = Clicked (Some "Re-enter Names") :: rest ->
  (confirm_names_proceed callback;; mret tt) w =
  callback
    (with_name_manager (set_recipient_names [] (name_manager w))
       (with_confirmation_choice (Some "Re-enter Names")
          (with_script rest
             (with_shown
                (shown w ++ [ShownBox "CustomBox" ["Continue"; "Re-enter Names"; "Exit"]
                               ("Names entered:" +:+
                                String LF (PyStr.join ", " (recipient_names (name_manager w))))])
                w)))).
Proof.
  intros Hs. unfold confirm_names_proceed. rewrite bind_assoc. pure_steps.
  rewrite bind_assoc. step_with CustomBox_run. rewrite bind_assoc. pure_steps.
  replace (is_str (Some "Re-enter Names") "Continue") with false by (symmetry; decide_by_compute).
  replace (is_str (Some "Re-enter Names") "Re-enter Names") with true
    by (symmetry; decide_by_compute).
  cbv iota. pure_steps.
  unfold mbind, M_mbind, M_bind.
  unfold modify, mret, M_mret, M_ret. simpl.
  by destruct (callback _) as [[] ?| | | |].
Qed.

(** X10.  The button Re-enter Names of the confirmation empties the
    recipient list and starts [name_collection] again; nothing of the
    names collected before is kept. *)
Theorem name_collection_reenter (fuel : nat) (w : world) (path raw : string)
    (rest : list response) :
  script w = Clicked (Some "Text File") :: PathChosen path
               :: Clicked (Some "Re-enter Names") :: rest ->
  path <> "" -> fs w !! path = Some (TextFile raw) ->
  spec_substring ", " (universal_newlines raw) ->
  exists w',
    name_collection (S (S (S fuel))) w = name_collection (S (S fuel)) w' /\
    recipient_names (name_manager w') = [] /\
    last (shown w') =
      Some (ShownBox "CustomBox" ["Continue"; "Re-enter Names"; "Exit"]
              ("Names entered:" +:+ String LF (universal_newlines raw))) /\
    script w' = rest /\ fs w' = fs w.
Proof.
  intros Hs Hpath Hf Hin.
  set (w0 := with_name_manager (set_name_input_method (Some "Text File") (name_manager w))
               (with_script (PathChosen path :: Clicked (Some "Re-enter Names") :: rest)
                  (with_shown
                     (shown w ++ [ShownBox "CustomBox" ["Manual Insert"; "Text File"; "Exit"]
                                    (name_input_method_prompt (name_manager w))]) w))).
  destruct (names_text_file_processing_step (name_collection (S (S fuel))) fuel w0 path raw
              (Clicked (Some "Re-enter Names") :: rest) eq_refl Hpath Hf)
    as (w1 & Hfs1 & Hs1 & Hnames1 & Hrun1).
  apply contains_spec in Hin. rewrite Hin in Hrun1. simpl in Hrun1.
  eexists. split.
  - rewrite name_collection_eq.
    erewrite bind_Returned; [|by apply (CustomBox_run _ _ w (Some "Text File") _ Hs)].
    pure_steps. cbv iota.
    replace (is_str (Some "Text File") "Manual Insert") with false by (symmetry; decide_by_compute).
    replace (is_str (Some "Text File") "Text File") with true by (symmetry; decide_by_compute).
    cbv iota.
    erewrite bind_Returned; [|exact Hrun1].
    apply confirm_names_proceed_Reenter. simpl. exact Hs1.
  - simpl. rewrite last_snoc, join_split. by rewrite Hfs1.
Qed.

(** The names of the file are given up. *)
Lemma name_collection_reenter_witness :
  exists w',
    name_collection 3
      (world_init two_names
         [Clicked (Some "Text File"); PathChosen "names.txt"; Clicked (Some "Re-enter Names")])
      = name_collection 2 w' /\
    recipient_names (name_manager w') = [] /\ script w' = [].
Proof.
  destruct (name_collection_reenter 0
              (world_init two_names
                 [Clicked (Some "Text File"); PathChosen "names.txt";
                  Clicked (Some "Re-enter Names")])
              "names.txt" "Alice, Bob" [] eq_refl)
    as (w' & Hrun & Hnames & _ & Hrest & _).
  - discriminate.
  - vm_compute. reflexivity.
  - apply contains_spec. vm_compute. reflexivity.
  - by exists w'.
Defined.

(** X11.  After a names file that cannot be read, the names are confirmed
    twice: [names_text_file_processing] restarts [name_collection], which
    ends with its own confirmation, and the interrupted [name_collection]
    then asks for the confirmation again. *)
Theorem name_collection_unreadable_confirms_twice (fuel : nat) (w : world)
    (bad good raw : string) (e : exn) (rest : list response) :
  script w = Clicked (Some "Text File") :: PathChosen bad
               :: Clicked (Some "Text File") :: PathChosen good :: Clicked (Some "Continue")
               :: Clicked (Some "Continue") :: rest ->
  bad <> "" -> reading_fails (fs w) bad = Some e ->
  good <> "" -> fs w !! good = Some (TextFile raw) ->
  spec_substring ", " (universal_newlines raw) ->
  let confirmation :=
    ShownBox "CustomBox" ["Continue"; "Re-enter Names"; "Exit"]
      ("Names entered:" +:+ String LF (universal_newlines raw)) in
  exists w0 w1 w',
    name_collection (S (S (S (S fuel)))) w =
      (name_collection (S (S (S fuel)));;
       confirm_names_proceed (name_collection (S (S (S fuel))));; mret tt) w0 /\
    last (shown w0) = Some (ShownMessage "warning" "Error occurred" (MsgError "Error: " e)) /\
    name_collection (S (S (S fuel))) w0 = Returned tt w1 /\
    last (shown w1) = Some confirmation /\
    script w1 = Clicked (Some "Continue") :: rest /\
    name_collection (S (S (S (S fuel)))) w = Returned tt w' /\
    shown w' = shown w1 ++ [confirmation] /\
    recipient_names (name_manager w') = PyStr.split (universal_newlines raw) ", " /\
    script w' = rest /\ fs w' = fs w.
Proof.
  intros Hs Hbad He Hgood Hf Hin confirmation.
  set (wa := with_name_manager (set_name_input_method (Some "Text File") (name_manager w))
               (with_script (PathChosen bad :: Clicked (Some "Text File") :: PathChosen good
                               :: Clicked (Some "Continue") :: Clicked (Some "Continue") :: rest)
                  (with_shown
                     (shown w ++ [ShownBox "CustomBox" ["Manual Insert"; "Text File"; "Exit"]
                                    (name_input_method_prompt (name_manager w))]) w))).
  destruct (names_text_file_processing_fails (name_collection (S (S (S fuel)))) (S fuel) wa bad e
              _ eq_refl Hbad He) as (w0 & Hrun0 & Hshown0 & Hnames0 & Hs0 & Hfs0).
  assert (fs w0 !! good = Some (TextFile raw)) as Hf0 by (by rewrite Hfs0).
  destruct (name_collection_text_file_run fuel w0 good raw _ Hs0 Hgood Hf0 Hin)
    as (w1 & Hrun1 & Hnames1 & Hshown1 & _ & Hs1 & Hfs1).
  assert (name_collection (S (S (S (S fuel)))) w =
          (name_collection (S (S (S fuel)));;
           confirm_names_proceed (name_collection (S (S (S fuel))));; mret tt) w0) as Hrun.
  { rewrite name_collection_eq.
    erewrite bind_Returned; [|by apply (CustomBox_run _ _ w (Some "Text File") _ Hs)].
    pure_steps. cbv iota.
    replace (is_str (Some "Text File") "Manual Insert") with false by (symmetry; decide_by_compute).
    replace (is_str (Some "Text File") "Text File") with true by (symmetry; decide_by_compute).
    cbv iota. apply bind_eq. exact Hrun0. }
  eexists w0, w1, _. split; [exact Hrun|]. split; [exact Hshown0|].
  split; [exact Hrun1|]. split; [by rewrite Hshown1, join_split|]. split; [exact Hs1|].
  split.
  - rewrite Hrun. erewrite bind_Returned; [|exact Hrun1].
    erewrite bind_Returned; [|by apply confirm_names_proceed_Continue]. reflexivity.
  - simpl. rewrite Hnames1, Hfs1, Hfs0. unfold confirmation. by rewrite join_split.
Qed.

(** A missing file, then the file of Alice and Bob. *)
Lemma name_collection_unreadable_confirms_twice_witness :
  exists w',
    name_collection 4
      (world_init two_names
         [Clicked (Some "Text File"); PathChosen "gone.txt";
          Clicked (Some "Text File"); PathChosen "names.txt"; Clicked (Some "Continue");
          Clicked (Some "Continue")])
      = Returned tt w' /\
    recipient_names (name_manager w') = ["Alice"; "Bob"] /\ script w' = [].
Proof.
  destruct (name_collection_unreadable_confirms_twice 0
              (world_init two_names
                 [Clicked (Some "Text File"); PathChosen "gone.txt";
                  Clicked (Some "Text File"); PathChosen "names.txt"; Clicked (Some "Continue");
                  Clicked (Some "Continue")])
              "gone.txt" "names.txt" "Alice, Bob" (FileNotFoundError "gone.txt") [] eq_refl)
    as (w0 & w1 & w' & _ & _ & _ & _ & _ & Hrun & _ & Hnames & Hrest & _).
  - discriminate.
  - vm_compute. reflexivity.
  - discriminate.
  - vm_compute. reflexivity.
  - apply contains_spec. vm_compute. reflexivity.
  - exists w'. split; [exact Hrun|]. rewrite Hnames. split; [vm_compute; reflexivity | exact Hrest].
Defined.

(** ** From the letter to the files *)

Lemma find_found (body sub : string) :
  spec_substring sub body -> (PyStr.find body sub <? 0) = false.
Proof.
  intros Hin. destruct (PyStr.find body sub <? 0) eqn:Hfind; [|done].
  by apply find_negative_iff in Hfind.
Qed.

#[global] Arguments generate_personalized_letters : simpl never.
#[global] Arguments process_letter_content : simpl never.

Lemma process_letter_content_eq (fuel : nat) (w : world) :
  process_letter_content (S fuel) w =
  (file_input_choice ← CustomBox ["Browse"; "Type Letter Content"]
     ("How do you want to enter the letter content?" +:+ String LF "As a file or type it?");
   if file_input_choice is None
   then show_exit_confirmation (process_letter_content fuel)
   else if is_str file_input_choice "Browse"
   then
     show_placeholder_instructions;;
     location ← filedialog "askopenfilename" "Select your mail";
     self_letter (set_letter_file_location location);;
     if String.eqb location ""
     then show_exit_confirmation (process_letter_content fuel)
     else
       letter_file ← py_open location ModeR;
       body ← py_read letter_file;
       self_letter (set_letter_body (Some body));;
       (if PyStr.find body "[name]" <? 0
        then
          CustomBox ["Try Again"] "Warning: Placeholder '[name]' not present in file.";;
          self_letter (set_is_placeholder_not_present true)
        else self_letter (set_is_placeholder_not_present false));;
       w ← get;
       if is_placeholder_not_present (letter w)
       then process_letter_content fuel
       else generate_personalized_letters
   else if is_str file_input_choice "Type Letter Content"
   then
     show_placeholder_instructions;;
     '(result, continue_choice) ← TextBox ["Continue"; "Exit"] "Enter the letter Content";
     self_letter (set_letter_body result);;
     if String.eqb continue_choice "Exit"
     then show_exit_confirmation (process_letter_content fuel)
     else if String.eqb continue_choice ""
     then
       Messagebox_show_warning "Mail Merge" (Msg "The letter is empty, please try again.");;
       process_letter_content fuel
     else
       match result with
       | None => raise AttributeError
       | Some body =>
           (if PyStr.find body "[name]" <? 0
            then
              Messagebox_show_warning "Mail Merge"
                (Msg "Warning: Placeholder '[name]' is not in the letter body");;
              self_letter (set_is_placeholder_not_present true)
            else self_letter (set_is_placeholder_not_present false));;
           w ← get;
           if is_placeholder_not_present (letter w)
           then process_letter_content fuel
           else generate_personalized_letters
       end
   else mret tt) w.
Proof. reflexivity. Qed.

Lemma process_letter_content_Type_generate (fuel : nat) (w : world) (body choice : string)
    (rest : list response) :
  script w = Clicked (Some "Type Letter Content") :: TextEntered (Some body) choice :: rest ->
  choice <> "Exit" -> choice <> "" -> spec_substring "[name]" body ->
  exists w0,
    process_letter_content (S fuel) w = generate_personalized_letters w0 /\
    letter_body (letter w0) = Some body /\ script w0 = rest /\
    fs w0 = fs w /\ name_manager w0 = name_manager w.
Proof.
  intros Hs Hexit Hempty Hin.
  apply String.eqb_neq in Hexit, Hempty. apply find_found in Hin.
  eexists. split.
  - rewrite process_letter_content_eq.
    step_with CustomBox_run. known_tests. pure_steps.
    step_with TextBox_run. pure_steps.
    rewrite Hexit, Hempty, Hin. pure_steps. simpl. reflexivity.
  - by simpl.
Qed.

Lemma process_letter_content_Browse_generate (fuel : nat) (w : world) (path raw : string)
    (rest : list response) :
  script w = Clicked (Some "Browse") :: PathChosen path :: rest ->
  path <> "" -> fs w !! path = Some (TextFile raw) ->
  spec_substring "[name]" (universal_newlines raw) ->
  exists w0,
    process_letter_content (S fuel) w = generate_personalized_letters w0 /\
    letter_body (letter w0) = Some (universal_newlines raw) /\ script w0 = rest /\
    fs w0 = fs w /\ name_manager w0 = name_manager w.
Proof.
  intros Hs Hpath Hf Hin.
  apply String.eqb_neq in Hpath. apply find_found in Hin.
  eexists. split.
  - rewrite process_letter_content_eq.
    step_with CustomBox_run. known_tests. pure_steps.
    step_with filedialog_run. pure_steps. rewrite Hpath.
    step_with py_open_R_run. step_with py_read_run. pure_steps.
    rewrite Hin. pure_steps. simpl. reflexivity.
  - by simpl.
Qed.



(** X13.  Unlike the names file, a letter file that is missing or is not
    text is not handled: the exception of [open] or [read] leaves
    [process_letter_content], and no file is written. *)
Theorem process_letter_content_unreadable_file (fuel : nat) (w : world) (path : string)
    (e : exn) (rest : list response) :
  script w = Clicked (Some "Browse") :: PathChosen path :: rest -> path <> "" ->
  reading_fails (fs w) path = Some e ->
  exists w',
    process_letter_content (S fuel) w = Raised e w' /\
    fs w' = fs w /\ script w' = rest /\ letter_body (letter w') = letter_body (letter w).
Proof.
  intros Hs Hpath He. apply String.eqb_neq in Hpath.
  unfold reading_fails in He.
  destruct (fs w !! path) as [[raw|paragraphs]|] eqn:Hf; simplify_eq; eexists; split.
  - rewrite process_letter_content_eq.
    step_with CustomBox_run. known_tests. pure_steps.
    step_with filedialog_run. pure_steps. rewrite Hpath.
    step_with py_open_R_run.
    apply bind_Raised. unfold py_read. simpl. rewrite Hf. reflexivity.
  - by simpl.
  - rewrite process_letter_content_eq.
    step_with CustomBox_run. known_tests. pure_steps.
    step_with filedialog_run. pure_steps. rewrite Hpath.
    apply bind_Raised. unfold py_open. simpl. rewrite Hf. reflexivity.
  - by simpl.
Qed.

(** The letter file does not exist. *)
Lemma process_letter_content_unreadable_file_witness :
  exists w',
    process_letter_content 1
      (world_init ∅ [Clicked (Some "Browse"); PathChosen "letter.txt"])
      = Raised (FileNotFoundError "letter.txt") w' /\
    fs w' = ∅.
Proof.
  destruct (process_letter_content_unreadable_file 0
              (world_init ∅ [Clicked (Some "Browse"); PathChosen "letter.txt"])
              "letter.txt" (FileNotFoundError "letter.txt") [] eq_refl)
    as (w' & Hrun & Hfs & _); [discriminate | reflexivity |].
  by exists w'.
Defined.

(** ** What the loop over the recipients leaves alone *)

(** A file that is there stays there, and a plain letter file that is
    there is never written: the loop writes a plain name only when no
    file has it. *)
Lemma files_after_keeps_plain (l : list string) (files : filesystem) (d body r : string)
    (f : file) :
  files !! mail_path d r = Some f ->
  files_after files d body l !! mail_path d r = Some f.
Proof.
  revert files. induction l as [|r' l IH]; intros files Hf; [done|].
  simpl. apply IH. rewrite lookup_insert_ne; [done|].
  unfold output_path. destruct (files !! mail_path d r') as [g|] eqn:Hg.
  - intros H. symmetry in H. by apply mail_path_neq_1 in H.
  - intros H. apply mail_path_inj in H as ->. congruence.
Qed.

Lemma files_after_keeps_dom (l : list string) (files : filesystem) (d body p : string) :
  is_Some (files !! p) -> is_Some (files_after files d body l !! p).
Proof.
  revert files. induction l as [|r' l IH]; intros files Hp; [done|].
  simpl. apply IH. destruct (decide (output_path files d r' = p)) as [-> | Hne].
  - rewrite lookup_insert_eq. by eexists.
  - by rewrite lookup_insert_ne.
Qed.

(** X14.  Letter generation never overwrites a file named
    [<name>'s Mail.txt] that was in the folder before, for any name, and
    it removes no file. *)
Theorem generate_keeps_existing_letters (w : world) (b1 b2 : option string)
    (directory body : string) (rest : list response) :
  script w = Clicked b1 :: PathChosen directory :: Clicked b2 :: rest ->
  letter_body (letter w) = Some body ->
  exists w',
    generate_personalized_letters w = Returned tt w' /\
    (forall name f,
        fs w !! (directory +:+ "/" +:+ name +:+ "'s Mail.txt") = Some f ->
        fs w' !! (directory +:+ "/" +:+ name +:+ "'s Mail.txt") = Some f) /\
    (forall p, is_Some (fs w !! p) -> is_Some (fs w' !! p)).
Proof.
  intros Hs Hb.
  destruct (generate_run w b1 b2 directory body rest Hs Hb) as (w' & Hrun & Hfs & _).
  exists w'. split; [exact Hrun|]. rewrite Hfs. split.
  - intros name f. apply files_after_keeps_plain.
  - intros p. apply files_after_keeps_dom.
Qed.

(** An old letter to Bob is in the folder. *)
Lemma generate_keeps_existing_letters_witness :
  exists w',
    generate_personalized_letters
      (ready_to_generate {[ "out/Bob's Mail.txt" := TextFile "old" ]} "Hi [name]" ["Bob"])
      = Returned tt w' /\
    fs w' !! "out/Bob's Mail.txt" = Some (TextFile "old").
Proof.
  destruct (generate_keeps_existing_letters
              (ready_to_generate {[ "out/Bob's Mail.txt" := TextFile "old" ]} "Hi [name]" ["Bob"])
              (Some "Continue") (Some "Exit") "out" "Hi [name]" [] eq_refl eq_refl)
    as (w' & Hrun & Hkeep & _).
  exists w'. split; [exact Hrun|].
  apply (Hkeep "Bob"). vm_compute. reflexivity.
Defined.

(** ** The two copies of the wizard, compared *)

Lemma for_each_nil {A} (body : A -> M unit) (w : world) : for_each [] body w = Returned tt w.
Proof. reflexivity. Qed.

Lemma generate_letters_with_no_recipient (w : world) (b1 b2 : option string)
    (directory : string) (rest : list response) :
  script w = Clicked b1 :: PathChosen directory :: Clicked b2 :: rest ->
  recipient_names (name_manager w) = [] ->
  exists w', (forall mode, generate_letters_with mode w = Returned tt w') /\
             fs w' = fs w /\ script w' = rest.
Proof.
  intros Hs Hnames. eexists. split.
  - intros mode. unfold generate_letters_with.
    step_with CustomBox_run. step_with filedialog_run. pure_steps.
    simpl. rewrite Hnames.
    erewrite bind_Returned; [|apply for_each_nil].
    step_with CustomBox_run. apply open_folder_run.
  - by simpl.
Qed.

(** X15.  The copy of [generate_personalized_letters] in merger.py does
    what the one of EduMerge.py does when there is no recipient; with a
    recipient it raises before the box that reports success is shown,
    and the files are as before. *)
Theorem merger_generate_agrees_without_recipients (w : world) (b1 b2 : option string)
    (directory : string) (rest : list response) :
  script w = Clicked b1 :: PathChosen directory :: Clicked b2 :: rest ->
  (recipient_names (name_manager w) = [] ->
     Merger.generate_personalized_letters w = generate_personalized_letters w /\
     exists w', generate_personalized_letters w = Returned tt w' /\
                fs w' = fs w /\ script w' = rest) /\
  (recipient_names (name_manager w) <> [] ->
     exists e w', Merger.generate_personalized_letters w = Raised e w' /\
                  fs w' = fs w /\ script w' = Clicked b2 :: rest).
Proof.
  intros Hs. split.
  - intros Hnames.
    destruct (generate_letters_with_no_recipient w b1 b2 directory rest Hs Hnames)
      as (w' & Hrun & Hfs & Hrest).
    unfold Merger.generate_personalized_letters, generate_personalized_letters.
    rewrite !Hrun. split; [done|]. by exists w'.
  - intros Hnames.
    set (w0 := with_letter (set_output_directory directory (letter w))
                 (with_script (Clicked b2 :: rest)
                    (with_shown
                       (shown w ++
                        [ShownBox "CustomBox" ["Continue"; "Exit"]
                           "Now please select the folders in which you want to save your mails.";
                         ShownFileDialog "askdirectory" "Where do you want to save the mails?"])
                       w))).
    destruct (merger_for_each_raises (recipient_names (name_manager w)) w0 Hnames) as [e He].
    exists e, w0. split; [|done].
    unfold Merger.generate_personalized_letters, generate_letters_with.
    step_with CustomBox_run. step_with filedialog_run. pure_steps.
    simpl. rewrite <- app_assoc. simpl. apply bind_Raised. exact He.
Qed.

(** No recipient, then one. *)
Lemma merger_generate_agrees_without_recipients_witness :
  Merger.generate_personalized_letters (ready_to_generate ∅ "Hi [name]" [])
    = generate_personalized_letters (ready_to_generate ∅ "Hi [name]" []) /\
  exists e w',
    Merger.generate_personalized_letters (ready_to_generate ∅ "Hi [name]" ["Bob"])
      = Raised e w' /\ fs w' = ∅ /\ script w' = [Clicked (Some "Exit")].
Proof.
  split.
  - destruct (merger_generate_agrees_without_recipients (ready_to_generate ∅ "Hi [name]" [])
                (Some "Continue") (Some "Exit") "out" [] eq_refl) as (Hnone & _).
    by destruct (Hnone eq_refl) as [Hsame _].
  - destruct (merger_generate_agrees_without_recipients (ready_to_generate ∅ "Hi [name]" ["Bob"])
                (Some "Continue") (Some "Exit") "out" [] eq_refl) as (_ & Hsome).
    destruct Hsome as (e & w' & Hrun & Hfs & Hs); [discriminate|].
    by exists e, w'.
Defined.

(** ** The main flow *)

Lemma StartingWindow_run (w : world) (r : option string) (rest : list response) :
  script w = Clicked r :: rest ->
  StartingWindow w =
  Returned r
    (with_script rest
       (with_shown (shown w ++ [ShownBox "StartingWindow" ["Mail Merge"; "Text Editor"; "Exit"]
                                  "EduText: A Student Software"]) w)).
Proof. intros Hs. unfold StartingWindow. run_step. by rewrite Hs. Qed.

#[global] Arguments StartingWindow : simpl never.
#[global] Arguments choose_software : simpl never.

Lemma choose_software_eq (fuel : nat) (w : world) :
  choose_software (S fuel) w =
  (software_choice ← StartingWindow;
   if is_str software_choice "Mail Merge" then mret software_choice
   else if is_str software_choice "Text Editor" then mret software_choice
   else if is_str software_choice "Exit" then exit_confirmation;; choose_software fuel
   else choose_software fuel) w.
Proof. reflexivity. Qed.

Lemma choose_software_again (fuel : nat) (w : world) (answer : option string)
    (rest : list response) :
  script w = exit_declined answer ++ rest -> answer <> Some "Yes" ->
  choose_software (S fuel) w =
  choose_software fuel
    (with_script rest
       (with_shown
          (shown w ++ [ShownBox "StartingWindow" ["Mail Merge"; "Text Editor"; "Exit"]
                         "EduText: A Student Software";
                       ShownBox "CustomBox" ["Yes"; "No"] "Do you want to exit the app?"]) w)).
Proof.
  intros Hs Hanswer. unfold exit_declined in Hs. simpl in Hs.
  rewrite choose_software_eq. step_with StartingWindow_run. known_tests.
  erewrite bind_Returned; cycle 1.
  { rewrite (exit_confirmation_run _ answer rest); [|reflexivity].
    rewrite (is_str_false _ _ Hanswer). reflexivity. }
  simpl. by rewrite <- app_assoc.
Qed.

(** The starting window comes back until a program is chosen. *)
Lemma choose_software_run (fuel : nat) (w : world) (declined : list (option string))
    (choice : string) (rest : list response) :
  script w = concat (exit_declined <$> declined) ++ Clicked (Some choice) :: rest ->
  Forall (fun answer => answer <> Some "Yes") declined ->
  choice = "Mail Merge" \/ choice = "Text Editor" ->
  (length declined < fuel)%nat ->
  exists w',
    choose_software fuel w = Returned (Some choice) w' /\
    script w' = rest /\ fs w' = fs w /\
    name_manager w' = name_manager w /\ letter w' = letter w.
Proof.
  revert fuel w. induction declined as [|answer declined IH]; intros fuel w Hs Hno Hchoice Hfuel.
  - destruct fuel as [|fuel]; [simpl in Hfuel; lia|]. simpl in Hs.
    eexists. split.
    + rewrite choose_software_eq. step_with StartingWindow_run.
      destruct Hchoice as [-> | ->]; known_tests; reflexivity.
    + by simpl.
  - destruct fuel as [|fuel]; [simpl in Hfuel; lia|].
    apply Forall_cons in Hno as [Hanswer Hno].
    rewrite fmap_cons in Hs. cbn [concat] in Hs. rewrite <- app_assoc in Hs.
    rewrite (choose_software_again fuel w answer _ Hs Hanswer).
    match goal with |- context [choose_software fuel ?W] => set (w1 := W) end.
    destruct (IH fuel w1) as (w' & Hrun & Hrest & Hfs & Hnm & Hletter);
      [reflexivity | done | done | simpl in Hfuel; lia |].
    exists w'. by rewrite Hrun, Hrest, Hfs, Hnm, Hletter.
Qed.



(** * The rest of the editor *)

(** ** Saving *)

Lemma save_file_to_text (w : world) (name : string) :
  current_file_type (editor w) <> "csv" -> current_file_type (editor w) <> "docx" ->
  exists w',
    save_file_to name w = Returned tt w' /\
    fs w' = <[name := TextFile (text_area (editor w))]> (fs w) /\
    editor w' = saved_as name (editor w) /\
    script w' = script w /\
    shown w' = shown w ++ [ShownMessage "showinfo" "Success" (Msg "File saved successfully!")].
Proof.
  intros Hcsv Hdocx. apply String.eqb_neq in Hcsv, Hdocx.
  eexists. split.
  - unfold save_file_to. apply try_except_Exception_Returned. pure_steps.
    rewrite Hcsv, Hdocx. rewrite bind_assoc. step_with py_open_W_run.
    erewrite bind_Returned; [|apply py_write_run; simpl; apply lookup_insert_eq].
    pure_steps. reflexivity.
  - simpl. by rewrite insert_insert_eq.
Qed.

Lemma save_file_named (w : world) (name : string) :
  filename (editor w) = Some name -> name <> "" -> save_file w = save_file_to name w.
Proof.
  intros Hname Hne. apply String.eqb_neq in Hne.
  unfold save_file. pure_steps. by rewrite Hname, Hne.
Qed.

Lemma save_file_unnamed (w : world) (path : string) (rest : list response) :
  filename (editor w) = None -> script w = PathChosen path :: rest ->
  let w0 := with_script rest (with_shown (shown w ++ [ShownFileDialog "asksaveasfilename" ""]) w) in
  save_file w =
  if String.eqb path "" then Returned tt w0
  else save_file_to path (with_editor (set_filename (Some path) (editor w)) w0).
Proof.
  intros Hname Hs w0. unfold save_file. pure_steps. rewrite Hname.
  step_with filedialog_run. destruct (String.eqb path ""); [reflexivity|].
  pure_steps. reflexivity.
Qed.

Lemma save_as_file_run (w : world) (path : string) (rest : list response) :
  script w = PathChosen path :: rest ->
  let w0 := with_script rest (with_shown (shown w ++ [ShownFileDialog "asksaveasfilename" ""]) w) in
  save_as_file w =
  if String.eqb path "" then Returned tt w0
  else save_file_to path (with_editor (set_filename (Some path) (editor w)) w0).
Proof.
  intros Hs w0. unfold save_as_file. step_with filedialog_run.
  destruct (String.eqb path "") eqn:Hpath; [reflexivity|].
  pure_steps. apply String.eqb_neq in Hpath. by apply save_file_named.
Qed.

#[global] Arguments save_as_file : simpl never.

(** X17.  Save As writes the buffer to the path chosen, leaves every
    other file alone and makes the path the file name of the document; a
    cancelled dialog changes neither the files nor the editor.  Saving a
    document that has no file name is Save As. *)
Theorem save_as_file_writes (w : world) (path : string) (rest : list response) :
  script w = PathChosen path :: rest ->
  current_file_type (editor w) <> "csv" -> current_file_type (editor w) <> "docx" ->
  exists w',
    save_as_file w = Returned tt w' /\ script w' = rest /\
    (path = "" -> fs w' = fs w /\ editor w' = editor w) /\
    (path <> "" ->
       fs w' = <[path := TextFile (text_area (editor w))]> (fs w) /\
       (forall other, other <> path -> fs w' !! other = fs w !! other) /\
       filename (editor w') = Some path /\ is_saved (editor w') = true /\
       text_area (editor w') = text_area (editor w)) /\
    (filename (editor w) = None -> save_file w = save_as_file w).
Proof.
  intros Hs Hcsv Hdocx.
  pose proof (save_as_file_run w path rest Hs) as Hrun. cbv zeta in Hrun.
  destruct (String.eqb_spec path "") as [-> | Hpath].
  - eexists. split; [exact Hrun|]. split; [done|]. split; [done|]. split; [done|].
    intros Hname. by rewrite (save_file_unnamed w "" rest Hname Hs).
  - edestruct (save_file_to_text) as (w' & Hsave & Hfs & Hed & Hs' & _); cycle 2.
    + exists w'. split; [by rewrite Hrun; exact Hsave|]. split; [exact Hs'|].
      split; [done|]. split.
      * intros _. split; [exact Hfs|]. split.
        -- intros other Hother. rewrite Hfs. simpl. by rewrite lookup_insert_ne.
        -- by rewrite Hed.
      * intros Hname. rewrite Hrun, (save_file_unnamed w path rest Hname Hs).
        apply String.eqb_neq in Hpath. by rewrite Hpath.
    + done.
    + done.
Qed.

(** The notes are saved as a copy. *)
Lemma save_as_file_writes_witness :
  exists w',
    save_as_file (unsaved {[ "notes.txt" := TextFile "old" ]} (Some "notes.txt") "draft"
                    [PathChosen "copy.txt"]) = Returned tt w' /\
    fs w' !! "copy.txt" = Some (TextFile "draft") /\
    fs w' !! "notes.txt" = Some (TextFile "old") /\
    filename (editor w') = Some "copy.txt".
Proof.
  destruct (save_as_file_writes
              (unsaved {[ "notes.txt" := TextFile "old" ]} (Some "notes.txt") "draft"
                 [PathChosen "copy.txt"]) "copy.txt" [] eq_refl)
    as (w' & Hrun & _ & _ & Hpath & _); [discriminate | discriminate |].
  destruct Hpath as (Hfs & Hother & Hname & _); [discriminate|].
  exists w'. split; [exact Hrun|]. split; [|split; [|exact Hname]].
  - rewrite Hfs. apply lookup_insert_eq.
  - rewrite Hother; [|discriminate]. vm_compute. reflexivity.
Defined.

(** ** Opening *)

#[global] Arguments open_docx : simpl never.
#[global] Arguments open_pdf : simpl never.

(** What [open_file] does with the path it was given. *)
Lemma open_file_eq (w : world) (filepath : string) (rest : list response) :
  script w = PathChosen filepath :: rest ->
  let w0 := with_script rest (with_shown (shown w ++ [ShownFileDialog "askopenfilename" ""]) w) in
  open_file w =
  if String.eqb filepath "" then Returned tt w0
  else
    (let ext := lower (splitext_ext filepath) in
     (if String.eqb ext ".csv" then open_csv filepath
      else if String.eqb ext ".docx" then open_docx filepath
      else if String.eqb ext ".pdf" then open_pdf filepath
      else
        try_except_Exception
          (file ← py_open filepath ModeR;
           content ← py_read file;
           self_app (set_text_area "");;
           self_app (fun e => set_text_area (content +:+ text_area e) e);;
           self_app (set_current_file_type "text"))
          (fun e => messagebox "showerror" "Error" (MsgError "Could not open file:" e)));;
     self_app (set_is_saved true);;
     self_app (set_window_title ("EduText - " +:+ basename filepath)))
      (with_editor (set_filename (Some filepath) (editor w)) w0).
Proof.
  intros Hs w0. unfold open_file. step_with filedialog_run.
  destruct (String.eqb filepath ""); [reflexivity|]. pure_steps. reflexivity.
Qed.

Lemma open_csv_quiet (filepath : string) : quiet (open_csv filepath).
Proof.
  intros w. unfold open_csv, try_except_Exception.
  unfold mbind at 1, M_mbind at 1, M_bind at 1. unfold py_open.
  destruct (fs w !! filepath) as [[raw|paragraphs]|] eqn:Hf.
  - unfold mbind at 1, M_mbind at 1, M_bind at 1. unfold py_read. simpl. rewrite Hf.
    destruct (reader_total raw) as (rows & -> & _).
    destruct rows as [|headers data]; eexists; (split; [reflexivity|]); by simpl.
  - unfold mbind at 1, M_mbind at 1, M_bind at 1. unfold py_read. simpl. rewrite Hf.
    eexists; (split; [reflexivity|]); by simpl.
  - eexists; (split; [reflexivity|]); by simpl.
Qed.

Lemma for_each_paragraphs (paragraphs : list string) (w : world) :
  for_each paragraphs
    (fun para => self_app (fun e => set_text_area (text_area e +:+ para +:+ String LF "") e)) w =
  Returned tt
    (with_editor (set_text_area (text_area (editor w) +:+ docx_text paragraphs) (editor w)) w).
Proof.
  revert w. induction paragraphs as [|para paragraphs IH]; intros w.
  - unfold for_each. simpl. rewrite app_nil_r_s. by destruct w as [? ? ? ? ? ? ? []].
  - unfold for_each; fold (@for_each string). pure_steps. rewrite IH. simpl.
    f_equal. unfold with_editor, set_text_area; simpl. do 2 f_equal.
    by rewrite !app_assoc_s.
Qed.

Lemma open_docx_quiet (filepath : string) : quiet (open_docx filepath).
Proof.
  intros w. unfold open_docx. pure_steps.
  destruct (fs w !! filepath) as [[raw|paragraphs]|] eqn:Hf.
  - eexists; (split; [reflexivity|]); by simpl.
  - pure_steps. erewrite bind_Returned; [|apply for_each_paragraphs].
    eexists; (split; [reflexivity|]); by simpl.
  - eexists; (split; [reflexivity|]); by simpl.
Qed.

Lemma open_pdf_quiet (filepath : string) : quiet (open_pdf filepath).
Proof. intros w. eexists; (split; [reflexivity|]); by simpl. Qed.

Lemma open_text_quiet (filepath : string) :
  quiet (try_except_Exception
           (file ← py_open filepath ModeR;
            content ← py_read file;
            self_app (set_text_area "");;
            self_app (fun e => set_text_area (content +:+ text_area e) e);;
            self_app (set_current_file_type "text"))
           (fun e => messagebox "showerror" "Error" (MsgError "Could not open file:" e))).
Proof.
  intros w. unfold try_except_Exception.
  unfold mbind at 1, M_mbind at 1, M_bind at 1. unfold py_open.
  destruct (fs w !! filepath) as [[raw|paragraphs]|] eqn:Hf.
  - unfold mbind at 1, M_mbind at 1, M_bind at 1. unfold py_read. simpl. rewrite Hf.
    eexists; (split; [reflexivity|]); by simpl.
  - unfold mbind at 1, M_mbind at 1, M_bind at 1. unfold py_read. simpl. rewrite Hf.
    eexists; (split; [reflexivity|]); by simpl.
  - eexists; (split; [reflexivity|]); by simpl.
Qed.

(** X18.  [open_file] never raises and never changes a file, whatever
    the path chosen holds: each of its four handlers reports a failure in
    an error box.  Whether the file could be read or not, the path becomes
    the file name of the document, which is marked as saved. *)
Theorem open_file_never_raises (w : world) (filepath : string) (rest : list response) :
  script w = PathChosen filepath :: rest ->
  exists w',
    open_file w = Returned tt w' /\ fs w' = fs w /\ script w' = rest /\
    (filepath = "" -> editor w' = editor w) /\
    (filepath <> "" ->
       filename (editor w') = Some filepath /\ is_saved (editor w') = true /\
       window_title (editor w') = "EduText - " +:+ basename filepath).
Proof.
  intros Hs. rewrite (open_file_eq w filepath rest Hs). cbv zeta.
  destruct (String.eqb_spec filepath "") as [-> | Hpath].
  - eexists. split; [reflexivity|]. by simpl.
  - match goal with |- context [with_editor ?e ?w1] => set (w0 := with_editor e w1) end.
    assert (exists w1, (if String.eqb (lower (splitext_ext filepath)) ".csv"
                        then open_csv filepath
                        else if String.eqb (lower (splitext_ext filepath)) ".docx"
                        then open_docx filepath
                        else if String.eqb (lower (splitext_ext filepath)) ".pdf"
                        then open_pdf filepath
                        else try_except_Exception
                          (file ← py_open filepath ModeR;
                           content ← py_read file;
                           self_app (set_text_area "");;
                           self_app (fun e => set_text_area (content +:+ text_area e) e);;
                           self_app (set_current_file_type "text"))
                          (fun e => messagebox "showerror" "Error"
                                      (MsgError "Could not open file:" e))) w0
                       = Returned tt w1 /\ fs w1 = fs w0 /\ script w1 = script w0 /\
                       filename (editor w1) = filename (editor w0))
      as (w1 & Hrun & Hfs & Hs1 & Hname).
    { destruct (String.eqb _ ".csv"); [apply open_csv_quiet|].
      destruct (String.eqb _ ".docx"); [apply open_docx_quiet|].
      destruct (String.eqb _ ".pdf"); [apply open_pdf_quiet | apply open_text_quiet]. }
    eexists. split.
    + erewrite bind_Returned; [|exact Hrun]. pure_steps. reflexivity.
    + simpl. rewrite Hfs, Hs1, Hname. by simpl.
Qed.

(** The table chosen does not exist. *)
Lemma open_file_never_raises_witness :
  exists w',
    open_file (world_init ∅ [PathChosen "missing.csv"]) = Returned tt w' /\
    fs w' = ∅ /\ filename (editor w') = Some "missing.csv".
Proof.
  destruct (open_file_never_raises (world_init ∅ [PathChosen "missing.csv"]) "missing.csv" []
              eq_refl) as (w' & Hrun & Hfs & _ & _ & Hpath).
  destruct Hpath as (Hname & _); [discriminate|].
  by exists w'.
Defined.

Lemma open_text_fails (w : world) (filepath : string) (e : exn) :
  reading_fails (fs w) filepath = Some e ->
  try_except_Exception
    (file ← py_open filepath ModeR;
     content ← py_read file;
     self_app (set_text_area "");;
     self_app (fun e => set_text_area (content +:+ text_area e) e);;
     self_app (set_current_file_type "text"))
    (fun e => messagebox "showerror" "Error" (MsgError "Could not open file:" e)) w =
  Returned tt
    (with_shown (shown w ++ [ShownMessage "showerror" "Error"
                               (MsgError "Could not open file:" e)]) w).
Proof.
  unfold reading_fails, try_except_Exception. intros He.
  unfold mbind at 1, M_mbind at 1, M_bind at 1. unfold py_open.
  destruct (fs w !! filepath) as [[raw|paragraphs]|] eqn:Hf; simplify_eq.
  - unfold mbind at 1, M_mbind at 1, M_bind at 1. unfold py_read. simpl. by rewrite Hf.
  - done.
Qed.

(** X19.  A file that cannot be read as text leaves the buffer as it
    was, but its path has become the file name and the document counts as
    saved: the next save writes the buffer over that file. *)
Theorem open_file_unreadable_then_save (w : world) (path : string) (e : exn)
    (rest : list response) :
  script w = PathChosen path :: rest -> path <> "" ->
  lower (splitext_ext path) <> ".csv" ->
  lower (splitext_ext path) <> ".docx" ->
  lower (splitext_ext path) <> ".pdf" ->
  reading_fails (fs w) path = Some e ->
  current_file_type (editor w) <> "csv" -> current_file_type (editor w) <> "docx" ->
  exists w1 w2,
    open_file w = Returned tt w1 /\
    last (shown w1) =
      Some (ShownMessage "showerror" "Error" (MsgError "Could not open file:" e)) /\
    text_area (editor w1) = text_area (editor w) /\
    filename (editor w1) = Some path /\ is_saved (editor w1) = true /\
    fs w1 = fs w /\
    save_file w1 = Returned tt w2 /\
    fs w2 = <[path := TextFile (text_area (editor w))]> (fs w).
Proof.
  intros Hs Hpath Hcsv Hdocx Hpdf He Htcsv Htdocx.
  pose proof (open_file_eq w path rest Hs) as Hopen. cbv zeta in Hopen.
  apply String.eqb_neq in Hcsv, Hdocx, Hpdf.
  rewrite Hcsv, Hdocx, Hpdf in Hopen.
  replace (String.eqb path "") with false in Hopen by (symmetry; by apply String.eqb_neq).
  erewrite bind_Returned in Hopen; [|by apply open_text_fails].
  revert Hopen. pure_steps. intros Hopen.
  unfold modify in Hopen.
  match type of Hopen with _ = Returned tt ?W => set (w1 := W) in * end.
  destruct (save_file_to_text w1 path) as (w2 & Hsave & Hfs2 & _); [done | done |].
  exists w1, w2. split; [exact Hopen|].
  split; [simpl; by rewrite last_snoc|].
  repeat split; try done.
  rewrite (save_file_named w1 path); done.
Qed.

(** A file that is not text is opened over a draft, then Save is pressed. *)
Lemma open_file_unreadable_then_save_witness :
  exists w1 w2,
    open_file (unsaved {[ "photo.bin" := DocxFile ["x"] ]} None "draft" [PathChosen "photo.bin"])
      = Returned tt w1 /\
    text_area (editor w1) = "draft" /\ is_saved (editor w1) = true /\
    save_file w1 = Returned tt w2 /\
    fs w2 !! "photo.bin" = Some (TextFile "draft").
Proof.
  destruct (open_file_unreadable_then_save
              (unsaved {[ "photo.bin" := DocxFile ["x"] ]} None "draft" [PathChosen "photo.bin"])
              "photo.bin" UnicodeDecodeError [] eq_refl)
    as (w1 & w2 & Hopen & _ & Htext & _ & Hsaved & _ & Hsave & Hfs);
    try (vm_compute; discriminate); [reflexivity|].
  exists w1, w2. split; [exact Hopen|]. split; [exact Htext|]. split; [exact Hsaved|].
  split; [exact Hsave|]. rewrite Hfs. apply lookup_insert_eq.
Defined.

(** ** A new document, and closing the window *)

Lemma askyesnocancel_run (title text : string) (w : world) (yes : option bool)
    (rest : list response) :
  script w = Answered yes :: rest ->
  askyesnocancel title text w =
  Returned yes
    (with_script rest
       (with_shown (shown w ++ [ShownMessage "askyesnocancel" title (Msg text)]) w)).
Proof. intros Hs. unfold askyesnocancel. run_step. by rewrite Hs. Qed.

#[global] Arguments askyesnocancel : simpl never.

(** X20.  [new_file] empties the buffer and the table, forgets the file
    name and goes back to a saved text document (the window title and the
    table headers stay).  With unsaved changes it asks first: Cancel
    changes nothing, No drops the text, Yes saves it before; and when the
    document has no file name and the Save As dialog is cancelled, the
    text is dropped without being written. *)
Theorem new_file_resets (w : world) :
  (is_saved (editor w) = true ->
     exists w', new_file w = Returned tt w' /\ editor w' = cleared (editor w) /\
                fs w' = fs w /\ script w' = script w /\ shown w' = shown w) /\
  (is_saved (editor w) = false ->
     (forall rest, script w = Answered None :: rest ->
        exists w', new_file w = Returned tt w' /\ editor w' = editor w /\
                   fs w' = fs w /\ script w' = rest) /\
     (forall rest, script w = Answered (Some false) :: rest ->
        exists w', new_file w = Returned tt w' /\ editor w' = cleared (editor w) /\
                   fs w' = fs w /\ script w' = rest) /\
     (forall name rest,
        script w = Answered (Some true) :: rest ->
        filename (editor w) = Some name -> name <> "" ->
        current_file_type (editor w) <> "csv" -> current_file_type (editor w) <> "docx" ->
        exists w', new_file w = Returned tt w' /\
                   editor w' = cleared (saved_as name (editor w)) /\
                   fs w' = <[name := TextFile (text_area (editor w))]> (fs w) /\
                   script w' = rest) /\
     (forall rest,
        script w = Answered (Some true) :: PathChosen "" :: rest ->
        filename (editor w) = None ->
        exists w', new_file w = Returned tt w' /\ editor w' = cleared (editor w) /\
                   fs w' = fs w /\ script w' = rest)).
Proof.
  split.
  - intros Hsaved. eexists. split.
    + unfold new_file. pure_steps. rewrite Hsaved. simpl. pure_steps. reflexivity.
    + by simpl.
  - intros Hsaved. split; [|split; [|split]].
    + intros rest Hs. eexists. split.
      * unfold new_file. pure_steps. rewrite Hsaved. simpl.
        rewrite bind_assoc. step_with askyesnocancel_run. pure_steps. reflexivity.
      * by simpl.
    + intros rest Hs. eexists. split.
      * unfold new_file. pure_steps. rewrite Hsaved. simpl.
        rewrite bind_assoc. step_with askyesnocancel_run. pure_steps. reflexivity.
      * by simpl.
    + intros name rest Hs Hname Hne Hcsv Hdocx.
      set (w0 := with_script rest
                   (with_shown (shown w ++ [ShownMessage "askyesnocancel" "Save Changes"
                                              (Msg "Do you want to save changes?")]) w)).
      destruct (save_file_to_text w0 name Hcsv Hdocx) as (w1 & Hsave & Hfs1 & Hed1 & Hs1 & _).
      rewrite <- (save_file_named w0 name Hname Hne) in Hsave.
      eexists. split.
      * unfold new_file. pure_steps. rewrite Hsaved. simpl.
        rewrite bind_assoc. step_with askyesnocancel_run. cbv iota.
        rewrite bind_assoc. erewrite bind_Returned; [|exact Hsave].
        pure_steps. reflexivity.
      * simpl. by rewrite Hed1, Hfs1, Hs1.
    + intros rest Hs Hname. eexists. split.
      * unfold new_file. pure_steps. rewrite Hsaved. simpl.
        rewrite bind_assoc. step_with askyesnocancel_run. cbv iota.
        rewrite bind_assoc. erewrite bind_Returned; cycle 1.
        { by rewrite (save_file_unnamed _ "" rest). }
        pure_steps. reflexivity.
      * by simpl.
Qed.

(** A draft without file name: Yes, then the Save As dialog is cancelled. *)
Lemma new_file_resets_witness :
  exists w',
    new_file (unsaved ∅ None "draft" [Answered (Some true); PathChosen ""]) = Returned tt w' /\
    text_area (editor w') = "" /\ fs w' = ∅.
Proof.
  destruct (new_file_resets (unsaved ∅ None "draft" [Answered (Some true); PathChosen ""]))
    as (_ & Hunsaved).
  destruct (Hunsaved eq_refl) as (_ & _ & _ & Hlost).
  destruct (Hlost [] eq_refl eq_refl) as (w' & Hrun & Hed & Hfs & _).
  exists w'. split; [exact Hrun|]. rewrite Hed. by split.
Defined.

(** X21.  [on_closing] destroys the window of a saved document without
    asking.  With unsaved changes, Cancel keeps the window, No closes it
    without writing, Yes saves first; when the document has no file name
    and the Save As dialog is cancelled, the window closes and nothing was
    written. *)
Theorem on_closing_asks (w : world) :
  (is_saved (editor w) = true -> on_closing w = Returned true w) /\
  (is_saved (editor w) = false ->
     (forall rest, script w = Answered None :: rest ->
        exists w', on_closing w = Returned false w' /\ editor w' = editor w /\
                   fs w' = fs w /\ script w' = rest) /\
     (forall rest, script w = Answered (Some false) :: rest ->
        exists w', on_closing w = Returned true w' /\ fs w' = fs w /\ script w' = rest) /\
     (forall name rest,
        script w = Answered (Some true) :: rest ->
        filename (editor w) = Some name -> name <> "" ->
        current_file_type (editor w) <> "csv" -> current_file_type (editor w) <> "docx" ->
        exists w', on_closing w = Returned true w' /\
                   fs w' = <[name := TextFile (text_area (editor w))]> (fs w) /\
                   script w' = rest) /\
     (forall rest,
        script w = Answered (Some true) :: PathChosen "" :: rest ->
        filename (editor w) = None ->
        exists w', on_closing w = Returned true w' /\ fs w' = fs w /\ script w' = rest)).
Proof.
  split.
  - intros Hsaved. unfold on_closing. pure_steps. by rewrite Hsaved.
  - intros Hsaved. split; [|split; [|split]].
    + intros rest Hs. eexists. split.
      * unfold on_closing. pure_steps. rewrite Hsaved. simpl.
        step_with askyesnocancel_run. reflexivity.
      * by simpl.
    + intros rest Hs. eexists. split.
      * unfold on_closing. pure_steps. rewrite Hsaved. simpl.
        step_with askyesnocancel_run. reflexivity.
      * by simpl.
    + intros name rest Hs Hname Hne Hcsv Hdocx.
      set (w0 := with_script rest
                   (with_shown (shown w ++ [ShownMessage "askyesnocancel" "Save Changes"
                                              (Msg "Save changes before closing?")]) w)).
      destruct (save_file_to_text w0 name Hcsv Hdocx) as (w1 & Hsave & Hfs1 & Hed1 & Hs1 & _).
      rewrite <- (save_file_named w0 name Hname Hne) in Hsave.
      eexists. split.
      * unfold on_closing. pure_steps. rewrite Hsaved. simpl.
        step_with askyesnocancel_run. cbv iota.
        erewrite bind_Returned; [|exact Hsave]. reflexivity.
      * by rewrite Hfs1, Hs1.
    + intros rest Hs Hname. eexists. split.
      * unfold on_closing. pure_steps. rewrite Hsaved. simpl.
        step_with askyesnocancel_run. cbv iota.
        erewrite bind_Returned; cycle 1.
        { by rewrite (save_file_unnamed _ "" rest). }
        reflexivity.
      * by simpl.
Qed.

(** A draft without file name: Yes, then the Save As dialog is cancelled. *)
Lemma on_closing_asks_witness :
  exists w',
    on_closing (unsaved ∅ None "draft" [Answered (Some true); PathChosen ""])
      = Returned true w' /\ fs w' = ∅.
Proof.
  destruct (on_closing_asks (unsaved ∅ None "draft" [Answered (Some true); PathChosen ""]))
    as (_ & Hunsaved).
  destruct (Hunsaved eq_refl) as (_ & _ & _ & Hlost).
  destruct (Hlost [] eq_refl eq_refl) as (w' & Hrun & Hfs & _).
  by exists w'.
Defined.

(** ** Tables, saved and opened again *)

Lemma save_file_to_csv (w : world) (name : string) :
  current_file_type (editor w) = "csv" ->
  exists w',
    save_file_to name w = Returned tt w' /\
    fs w' = <[name := TextFile (csv.writerows (csv_data (editor w)))]> (fs w) /\
    editor w' = saved_as name (editor w) /\
    script w' = script w.
Proof.
  intros Hcsv. eexists. split.
  - unfold save_file_to. apply try_except_Exception_Returned. pure_steps.
    rewrite Hcsv. change (String.eqb "csv" "csv") with true. cbv iota.
    rewrite bind_assoc. step_with py_open_W_run.
    erewrite bind_Returned; [|apply py_write_run; simpl; apply lookup_insert_eq].
    pure_steps. reflexivity.
  - simpl. by rewrite insert_insert_eq.
Qed.

Lemma open_file_csv_rows (w : world) (name raw : string) (rest : list response)
    (rows : list (list string)) :
  script w = PathChosen name :: rest -> name <> "" ->
  lower (splitext_ext name) = ".csv" ->
  fs w !! name = Some (TextFile raw) ->
  csv.reader (file_lines (universal_newlines raw)) = Some rows ->
  exists w1,
    open_file w = Returned tt w1 /\
    csv_data (editor w1) = rows /\
    csv_headers (editor w1) = match rows with [] => csv_headers (editor w) | h :: _ => h end /\
    current_file_type (editor w1) =
      match rows with [] => current_file_type (editor w) | _ :: _ => "csv" end /\
    text_area (editor w1) = text_area (editor w) /\
    filename (editor w1) = Some name /\
    fs w1 = fs w /\ script w1 = rest.
Proof.
  intros Hs Hne Hext Hf Hrows.
  pose proof (open_file_eq w name rest Hs) as Hopen. cbv zeta in Hopen.
  rewrite Hext in Hopen. change (String.eqb ".csv" ".csv") with true in Hopen. cbv iota in Hopen.
  replace (String.eqb name "") with false in Hopen by (symmetry; by apply String.eqb_neq).
  rewrite Hopen. destruct rows as [|headers data]; eexists; split.
  - erewrite bind_Returned; cycle 1.
    { unfold open_csv. apply try_except_Exception_Returned.
      step_with py_open_R_run. step_with py_read_run. rewrite Hrows.
      pure_steps. reflexivity. }
    pure_steps. reflexivity.
  - by simpl.
  - erewrite bind_Returned; cycle 1.
    { unfold open_csv. apply try_except_Exception_Returned.
      step_with py_open_R_run. step_with py_read_run. rewrite Hrows.
      pure_steps. reflexivity. }
    pure_steps. reflexivity.
  - by simpl.
Qed.

(** X22.  A table saved and opened again is the same table: the rows
    and their fields come back as they were, the first row as the
    headers, provided no field holds a carriage return. *)
Theorem csv_save_then_open (w : world) (name : string) (rest : list response) :
  filename (editor w) = Some name -> name <> "" ->
  lower (splitext_ext name) = ".csv" ->
  current_file_type (editor w) = "csv" ->
  script w = PathChosen name :: rest ->
  let rows := csv_data (editor w) in
  (forall row f, In row rows -> In f row -> ~ In CR (list_ascii_of_string f)) ->
  exists w1 w2,
    save_file w = Returned tt w1 /\
    fs w1 !! name = Some (TextFile (csv.writerows rows)) /\
    open_file w1 = Returned tt w2 /\
    csv_data (editor w2) = rows /\
    current_file_type (editor w2) = "csv" /\
    (forall headers data, rows = headers :: data -> csv_headers (editor w2) = headers).
Proof.
  intros Hname Hne Hext Hcsv Hs rows Hcr.
  destruct (save_file_to_csv w name Hcsv) as (w1 & Hsave & Hfs1 & Hed1 & Hs1).
  rewrite <- (save_file_named w name Hname Hne) in Hsave.
  assert (fs w1 !! name = Some (TextFile (csv.writerows rows))) as Hfile
    by (rewrite Hfs1; apply lookup_insert_eq).
  rewrite Hs in Hs1.
  destruct (open_file_csv_rows w1 name _ rest rows Hs1 Hne Hext Hfile
              (reader_writerows rows Hcr))
    as (w2 & Hopen & Hdata & Hheaders & Htype & _).
  exists w1, w2. repeat split; try done.
  - rewrite Htype, Hed1. simpl. rewrite Hcsv. by destruct rows.
  - intros headers data Hrows. rewrite Hheaders, Hrows. done.
Qed.

(** A table with a comma in a field. *)
Lemma csv_save_then_open_witness :
  exists w1 w2,
    save_file (table "t.csv" [["name"; "note"]; ["Ann"; "a,b"]]) = Returned tt w1 /\
    open_file w1 = Returned tt w2 /\
    csv_data (editor w2) = [["name"; "note"]; ["Ann"; "a,b"]] /\
    csv_headers (editor w2) = ["name"; "note"].
Proof.
  destruct (csv_save_then_open (table "t.csv" [["name"; "note"]; ["Ann"; "a,b"]]) "t.csv" []
              eq_refl)
    as (w1 & w2 & Hsave & _ & Hopen & Hdata & _ & Hheaders);
    [discriminate | vm_compute; reflexivity | reflexivity | reflexivity | |].
  - intros row f Hrow Hf. simpl in Hrow.
    destruct Hrow as [<- | [<- | []]]; simpl in Hf;
      destruct Hf as [<- | [<- | []]]; vm_compute; intros H; decompose [or] H; done.
  - exists w1, w2. split; [exact Hsave|]. split; [exact Hopen|]. split; [exact Hdata|].
    by apply (Hheaders _ [["Ann"; "a,b"]]).
Defined.

#[global] Arguments create_csv_table : simpl never.

(** X23.  After [create_csv_table], saving writes the rows of the table
    to the file of the document, not the text of the buffer: with no rows
    the file becomes empty, and the document counts as saved. *)
Theorem create_csv_table_then_save (w : world) (name : string) :
  filename (editor w) = Some name -> name <> "" ->
  exists w',
    (create_csv_table;; save_file) w = Returned tt w' /\
    fs w' = <[name := TextFile (csv.writerows (csv_data (editor w)))]> (fs w) /\
    (csv_data (editor w) = [] -> fs w' !! name = Some (TextFile "")) /\
    text_area (editor w') = text_area (editor w) /\
    is_saved (editor w') = true.
Proof.
  intros Hname Hne.
  set (w0 := with_editor (set_current_file_type "csv" (editor w)) w).
  destruct (save_file_to_csv w0 name eq_refl) as (w' & Hsave & Hfs & Hed & _).
  rewrite <- (save_file_named w0 name Hname Hne) in Hsave.
  exists w'. split.
  - unfold create_csv_table. pure_steps. exact Hsave.
  - rewrite Hfs, Hed. simpl. repeat split; try done.
    intros ->. simpl. apply lookup_insert_eq.
Qed.

(** Notes are open when the table view is chosen. *)
Lemma create_csv_table_then_save_witness :
  exists w',
    (create_csv_table;; save_file) (editing "notes.txt" "my notes") = Returned tt w' /\
    fs w' !! "notes.txt" = Some (TextFile "") /\
    text_area (editor w') = "my notes".
Proof.
  destruct (create_csv_table_then_save (editing "notes.txt" "my notes") "notes.txt" eq_refl)
    as (w' & Hrun & _ & Hempty & Htext & _); [discriminate|].
  exists w'. split; [exact Hrun|]. split; [by apply Hempty | exact Htext].
Defined.

(** ** Word documents, exported and opened again *)

(** A line and the rest of the text. *)
Lemma split_line (p t : string) :
  ~ In LF (list_ascii_of_string p) ->
  PyStr.split (p +:+ String LF t) (String LF "") = p :: PyStr.split t (String LF "").
Proof.
  induction p as [|c p IH]; intros Hp.
  - rewrite app_nil_l_s. rewrite (split_char_cons LF LF t). reflexivity.
  - rewrite app_cons_s, (split_char_cons LF c).
    assert (LF <> c) as Hc by (intros <-; apply Hp; by left).
    apply Ascii.eqb_neq in Hc. rewrite Hc.
    rewrite IH; [done|]. intros H. apply Hp. by right.
Qed.

Lemma split_docx_text (paragraphs : list string) :
  Forall (fun p => ~ In LF (list_ascii_of_string p)) paragraphs ->
  PyStr.split (docx_text paragraphs) (String LF "") = paragraphs ++ [""].
Proof.
  induction paragraphs as [|p paragraphs IH]; intros Hno; [done|].
  apply Forall_cons in Hno as [Hp Hno]. cbn [docx_text].
  rewrite split_line by done. by rewrite IH.
Qed.

Lemma filter_all (paragraphs : list string) :
  Forall (fun p => not_blank p = true) paragraphs ->
  List.filter not_blank (paragraphs ++ [""]) = paragraphs.
Proof.
  induction paragraphs as [|p paragraphs IH]; intros Hall; [done|].
  apply Forall_cons in Hall as [Hp Hall]. simpl. rewrite Hp. by rewrite IH.
Qed.

Lemma save_as_docx_run (w : world) (filepath : string) :
  save_as_docx filepath w =
  Returned tt
    (with_fs (<[filepath := DocxFile (List.filter not_blank
                                        (PyStr.split (text_area (editor w)) (String LF "")))]>
                (fs w)) w).
Proof.
  unfold save_as_docx. pure_steps. unfold modify. by rewrite add_lines_filter.
Qed.

#[global] Arguments save_as_docx : simpl never.

Lemma open_docx_run (w : world) (filepath : string) (paragraphs : list string) :
  fs w !! filepath = Some (DocxFile paragraphs) ->
  open_docx filepath w =
  Returned tt
    (with_editor
       (set_current_file_type "docx" (set_text_area (docx_text paragraphs) (editor w))) w).
Proof.
  intros Hf. unfold open_docx. pure_steps. rewrite Hf. pure_steps.
  erewrite bind_Returned; [|apply for_each_paragraphs]. by destruct w.
Qed.


(** ** The status bar *)

Lemma count_char_cons (a c : ascii) (s : string) :
  PyStrMore.count (String c s) (String a "") =
  (if Ascii.eqb a c then 1 else 0) + PyStrMore.count s (String a "").
Proof.
  unfold PyStrMore.count. cbn [String.length PyStrMore.count_from PyStr.startswith PyStr.drop].
  destruct (Ascii.eqb a c); [|done]. by destruct s.
Qed.

(** The line feeds of a text are one less than its lines. *)
Lemma count_lines (s : string) :
  PyStrMore.count s (String LF "") + 1 = Z.of_nat (length (PyStr.split s (String LF ""))).
Proof.
  induction s as [|c s IH]; [done|].
  rewrite count_char_cons, (split_char_cons LF c).
  pose proof (split_not_nil s (String LF "")) as Hnil.
  destruct (Ascii.eqb LF c).
  - cbn [length]. lia.
  - destruct (PyStr.split s (String LF "")) as [|piece rest]; [done|]. cbn [length] in *. lia.
Qed.

Lemma split_whitespace_from_app (word a b : string) (c : ascii) :
  PyStr.is_space c = true ->
  PyStrMore.split_whitespace_from word (a +:+ String c b) =
  PyStrMore.split_whitespace_from word a ++ PyStrMore.split_whitespace b.
Proof.
  intros Hc. revert word. induction a as [|x a IH]; intros word.
  - rewrite app_nil_l_s. cbn [PyStrMore.split_whitespace_from]. rewrite Hc.
    by destruct (String.eqb word "").
  - rewrite app_cons_s. cbn [PyStrMore.split_whitespace_from].
    destruct (PyStr.is_space x); [|apply IH].
    destruct (String.eqb word ""); [apply IH|]. by rewrite IH.
Qed.

Lemma split_whitespace_from_nil (word s : string) :
  PyStrMore.split_whitespace_from word s = [] <->
  word = "" /\ PyStr.all_chars PyStr.is_space s = true.
Proof.
  revert word. induction s as [|c s IH]; intros word; cbn [PyStrMore.split_whitespace_from].
  - destruct (String.eqb_spec word ""); simpl; split; try done; by intros [? _].
  - simpl. destruct (PyStr.is_space c); simpl.
    + destruct (String.eqb_spec word "") as [-> | Hne].
      * rewrite IH. split; [by intros [_ ?] | by intros [_ ?]].
      * split; [done | by intros [? _]].
    + rewrite IH. split; [|by intros [_ ?]]. intros [H _]. by destruct word.
Qed.

Lemma split_whitespace_from_length (word s : string) :
  (length (PyStrMore.split_whitespace_from word s) <=
   String.length s + (if String.eqb word "" then 0 else 1))%nat.
Proof.
  revert word. induction s as [|c s IH]; intros word; cbn [PyStrMore.split_whitespace_from].
  - destruct (String.eqb word ""); simpl; lia.
  - cbn [String.length]. destruct (PyStr.is_space c).
    + destruct (String.eqb word "").
      * specialize (IH ""). simpl in IH. lia.
      * specialize (IH ""). simpl in *. lia.
    + specialize (IH (word +:+ String c "")).
      replace (String.eqb (word +:+ String c "") "") with false in IH
        by (symmetry; apply String.eqb_neq; by destruct word).
      destruct (String.eqb word ""); lia.
Qed.

(** The words of a text are the words of its lines. *)
Lemma split_whitespace_lines (lines : list string) :
  PyStrMore.split_whitespace (PyStr.join (String LF "") lines) =
  concat (PyStrMore.split_whitespace <$> lines).
Proof.
  induction lines as [|line lines IH]; [done|].
  destruct lines as [|line' lines].
  - simpl. by rewrite app_nil_r.
  - rewrite join_cons by done. rewrite fmap_cons. cbn [concat]. rewrite <- IH.
    unfold PyStrMore.split_whitespace at 1.
    rewrite (app_cons_s LF "" _), app_nil_l_s.
    by rewrite split_whitespace_from_app.
Qed.

Lemma not_blank_has_word (line : string) :
  not_blank line = true -> PyStrMore.split_whitespace line <> [].
Proof.
  unfold not_blank. rewrite negb_true_iff, String.eqb_neq, strip_nil_iff.
  intros Hblank Hnil. apply Hblank. apply split_whitespace_from_nil in Hnil as [_ Hall].
  unfold spec_blank. by apply all_chars_spec.
Qed.

Lemma filter_length_concat (lines : list string) :
  (length (List.filter not_blank lines) <=
   length (concat (PyStrMore.split_whitespace <$> lines)))%nat.
Proof.
  induction lines as [|line lines IH]; [done|].
  rewrite fmap_cons. cbn [concat List.filter]. rewrite length_app.
  destruct (not_blank line) eqn:Hline; [|lia].
  apply not_blank_has_word in Hline.
  destruct (PyStrMore.split_whitespace line); [done|]. cbn [length]. lia.
Qed.

(** X25.  The numbers of the status bar: the lines are the pieces of
    the buffer split at line feeds, the characters its length, the words
    those of [split()] (the test on [strip()] changes nothing).  There
    are no words exactly in a blank buffer, never more words than
    characters, and an export to Word never has more paragraphs than the
    status bar counts lines or words. *)
Theorem update_status_counts (w : world) (filepath : string) :
  let content := text_area (editor w) in
  let lines := PyStr.split content (String LF "") in
  update_status w =
    (Z.of_nat (length lines), Z.of_nat (String.length content),
     Z.of_nat (length (PyStrMore.split_whitespace content))) /\
  (status_words content = 0 <-> spec_blank content) /\
  status_words content <= status_chars content /\
  exists w' paragraphs,
    save_as_docx filepath w = Returned tt w' /\
    fs w' !! filepath = Some (DocxFile paragraphs) /\
    Z.of_nat (length paragraphs) <= status_lines content /\
    Z.of_nat (length paragraphs) <= status_words content.
Proof.
  intros content lines.
  assert (status_words content = Z.of_nat (length (PyStrMore.split_whitespace content)))
    as Hwords.
  { unfold status_words. destruct (String.eqb_spec (PyStr.strip content) "") as [Hb | Hb]; [|done].
    simpl. apply strip_nil_iff in Hb.
    replace (PyStrMore.split_whitespace content) with (@nil string); [done|].
    symmetry. apply split_whitespace_from_nil. split; [done|]. by apply all_chars_spec. }
  split; [|split; [|split]].
  - unfold update_status. fold content. rewrite Hwords. unfold status_lines, status_chars.
    by rewrite count_lines.
  - rewrite Hwords. split.
    + intros H0. assert (PyStrMore.split_whitespace content = []) as Hnil
        by (destruct (PyStrMore.split_whitespace content); [done | simpl in H0; lia]).
      apply split_whitespace_from_nil in Hnil as [_ Hall].
      exact (proj1 (all_chars_spec _ _) Hall).
    + intros Hb. replace (PyStrMore.split_whitespace content) with (@nil string); [done|].
      symmetry. apply split_whitespace_from_nil. split; [done|]. by apply all_chars_spec.
  - rewrite Hwords. unfold status_chars.
    pose proof (split_whitespace_from_length "" content) as Hlen. simpl in Hlen.
    unfold PyStrMore.split_whitespace. lia.
  - eexists _, _. split; [apply save_as_docx_run|].
    split; [simpl; apply lookup_insert_eq|]. fold content. fold lines. split.
    + unfold status_lines. rewrite count_lines. fold lines.
      pose proof (filter_length not_blank lines). lia.
    + rewrite Hwords. rewrite <- (join_split_char LF content). fold lines.
      rewrite split_whitespace_lines. pose proof (filter_length_concat lines). lia.
Qed.

(** ** The window title *)

Lemma rstrip_chars_length (chars s : string) :
  (String.length (PyStrMore.rstrip_chars chars s) <= String.length s)%nat.
Proof.
  induction s as [|c s IH]; [done|]. cbn [PyStrMore.rstrip_chars String.length].
  destruct (PyStrMore.rstrip_chars chars s).
  - destruct (PyStrMore.has_char c chars); simpl; lia.
  - cbn [String.length] in *. lia.
Qed.

Lemma rstrip_chars_idem (chars s : string) :
  PyStrMore.rstrip_chars chars (PyStrMore.rstrip_chars chars s) = PyStrMore.rstrip_chars chars s.
Proof.
  induction s as [|c s IH]; [done|]. cbn [PyStrMore.rstrip_chars].
  destruct (PyStrMore.rstrip_chars chars s) as [|c' r] eqn:Hr.
  - destruct (PyStrMore.has_char c chars) eqn:Hc; [done|].
    cbn [PyStrMore.rstrip_chars]. by rewrite Hc.
  - cbn [PyStrMore.rstrip_chars]. cbn [PyStrMore.rstrip_chars] in IH. by rewrite IH.
Qed.

(** A suffix made of characters to strip goes away. *)
Lemma rstrip_chars_app (chars s m : string) :
  PyStr.all_chars (fun c => PyStrMore.has_char c chars) m = true ->
  PyStrMore.rstrip_chars chars (s +:+ m) = PyStrMore.rstrip_chars chars s.
Proof.
  intros Hm. induction s as [|c s IH].
  - rewrite app_nil_l_s. induction m as [|a m IHm]; [done|].
    simpl in Hm. apply andb_true_iff in Hm as [Ha Hm].
    cbn [PyStrMore.rstrip_chars]. rewrite (IHm Hm). simpl. by rewrite Ha.
  - rewrite app_cons_s. cbn [PyStrMore.rstrip_chars]. by rewrite IH.
Qed.

Lemma drop_suffix (n : nat) (s : string) : exists x, s = x +:+ PyStr.drop n s.
Proof.
  revert s. induction n as [|n IH]; intros s; [by exists ""|].
  destruct s as [|c s]; [by exists ""|].
  destruct (IH s) as [x Hx]. exists (String c x). simpl. by rewrite app_cons_s, <- Hx.
Qed.

Lemma endswith_spec (s suffix : string) :
  PyStrMore.endswith s suffix = true -> exists x, s = x +:+ suffix.
Proof.
  unfold PyStrMore.endswith. intros H. apply andb_true_iff in H as [_ H].
  apply String.eqb_eq in H. rewrite <- H. apply drop_suffix.
Qed.

(** What [rstrip] left does not end with the marker. *)
Lemma rstrip_chars_not_endswith (title : string) :
  PyStrMore.endswith (PyStrMore.rstrip_chars unsaved_marker title) unsaved_marker = false.
Proof.
  destruct (PyStrMore.endswith _ _) eqn:Hend; [|done].
  apply endswith_spec in Hend as [x Hx].
  pose proof (rstrip_chars_idem unsaved_marker title) as Hidem.
  rewrite Hx in Hidem at 1. rewrite rstrip_chars_app in Hidem by reflexivity.
  pose proof (rstrip_chars_length unsaved_marker x) as Hlen.
  rewrite Hidem, Hx, app_length_s in Hlen. simpl in Hlen. lia.
Qed.

#[global] Arguments update_title : simpl never.
#[global] Arguments PyStrMore.rstrip_chars : simpl never.
#[global] Arguments PyStrMore.endswith : simpl never.

Lemma update_title_unsaved (w : world) :
  is_saved (editor w) = false ->
  update_title w =
  Returned tt
    (with_editor
       (set_window_title
          (PyStrMore.rstrip_chars unsaved_marker (window_title (editor w)) +:+ unsaved_marker)
          (editor w)) w).
Proof.
  intros Hsaved. unfold update_title. pure_steps. cbv zeta.
  rewrite Hsaved, rstrip_chars_not_endswith. reflexivity.
Qed.

(** X26.  A change of the text marks the document as unsaved and puts
    the marker at the end of the window title, once: further changes
    leave the title as it is.  The inner test of [update_title] (the
    title does not end with the marker) always holds. *)
Theorem on_text_change_marks_once (w : world) :
  let marked := PyStrMore.rstrip_chars unsaved_marker (window_title (editor w))
                  +:+ unsaved_marker in
  exists w1,
    on_text_change true w = Returned tt w1 /\
    is_saved (editor w1) = false /\
    window_title (editor w1) = marked /\
    PyStrMore.endswith marked unsaved_marker = true /\
    on_text_change true w1 = Returned tt w1 /\
    update_title w1 = Returned tt w1 /\
    on_text_change false w = Returned tt w /\
    (is_saved (editor w) = true -> update_title w = Returned tt w).
Proof.
  intros marked.
  set (w0 := with_editor (set_is_saved false (editor w)) w).
  set (w1 := with_editor (set_window_title marked (editor w0)) w0).
  assert (update_title w1 = Returned tt w1) as Hagain.
  { rewrite update_title_unsaved by done. simpl. fold marked. unfold marked at 1.
    rewrite rstrip_chars_app by reflexivity. rewrite rstrip_chars_idem. reflexivity. }
  exists w1. split; [|split; [done|split; [done|split; [|split; [|split; [done|split; [done|]]]]]]].
  - unfold on_text_change. pure_steps. by rewrite update_title_unsaved.
  - unfold marked, PyStrMore.endswith. rewrite app_length_s.
    apply andb_true_iff. split; [apply Nat.leb_le; lia|].
    replace (_ + _ - _)%nat
      with (String.length (PyStrMore.rstrip_chars unsaved_marker (window_title (editor w))))
      by lia.
    rewrite drop_app_s. reflexivity.
  - unfold on_text_change. pure_steps. exact Hagain.
  - intros Hsaved. unfold update_title. pure_steps. cbv zeta. by rewrite Hsaved.
Qed.

(** ** Export *)


